(** * Order placement: the Product and Order aggregates and the
      Place-Order handler, embedded from the Go sources

    - [internal/product/domain/product.go]   : [Product], [Reserve]
    - [internal/order/domain/order.go]       : [Order], [NewOrder], [Confirm]
    - [internal/user/domain]                 : [User], the repository interfaces
    - [internal/order/app/command/order_place.go] : [Handle]
    - the test doubles [MockUserRepository], [MockProductRepository] and
      [MockOrderRepository] of the handler's test file;
    - [internal/config] : [getEnv], [GetDatabaseConfig], [BuildDSN];
    - [internal/shared/query] : the [QueryBuilder], [ApplyFilters],
      [Build], the [CommonFilters] and [FindWithPagination], with the
      [*gorm.DB] chain kept as the list of calls made on it.

    Go pointers are locations of a typed heap, so that the in-place
    mutation done by [Reserve] and [Confirm] and the aliasing between the
    handler and a repository that keeps the pointer are both visible. *)

From Stdlib Require Import ZArith Ascii String List Lia.
From stdpp Require Import base option gmap strings.

Open Scope string_scope.
Open Scope list_scope.
Open Scope Z_scope.

(** ** Go values *)

(** Go's [int] on the 64-bit targets the service is built for: signed,
    two's complement, arithmetic wraps silently. *)
Definition int_min : Z := - 2 ^ 63.
Definition int_max : Z := 2 ^ 63 - 1.
Definition is_int (z : Z) : Prop := int_min <= z <= int_max.
Definition wrap_int (z : Z) : Z := (z + 2 ^ 63) mod 2 ^ 64 - 2 ^ 63.

(** [p.Stock -= qty] *)
Definition int_sub (a b : Z) : Z := wrap_int (a - b).

(** The [error] interface; every error of this code base is built by
    [errors.New] and observed through its message. *)
Inductive error : Type := errors_New (text : string).

Definition Error (e : error) : string := let 'errors_New t := e in t.

(** A Go pointer [*T]: [None] is [nil], [Some l] the address of a cell. *)
Definition loc : Type := positive.
Definition ptr : Type := option loc.

(** ** The entities *)

Record User : Type := mkUser {
  User_ID : Z;
  User_Active : bool;
  User_Email : string }.

Record Product : Type := mkProduct {
  Product_ID : Z;
  Product_Name : string;
  Product_Stock : Z }.

Record Order : Type := mkOrder {
  Order_ID : Z;
  Order_UserID : Z;
  Order_User : User;
  Order_ProductID : Z;
  Order_Product : Product;
  Order_Quantity : Z;
  Order_Status : string }.

(** Zero values of the embedded structs of an [Order] literal. *)
Definition zero_User : User := mkUser 0 false "".
Definition zero_Product : Product := mkProduct 0 "" 0.

Definition set_Stock (n : Z) (p : Product) : Product :=
  mkProduct (Product_ID p) (Product_Name p) n.

Definition set_Status (st : string) (o : Order) : Order :=
  mkOrder (Order_ID o) (Order_UserID o) (Order_User o) (Order_ProductID o)
          (Order_Product o) (Order_Quantity o) st.

Definition set_Order_ID (id : Z) (o : Order) : Order :=
  mkOrder id (Order_UserID o) (Order_User o) (Order_ProductID o)
          (Order_Product o) (Order_Quantity o) (Order_Status o).

Definition set_Active (b : bool) (u : User) : User :=
  mkUser (User_ID u) b (User_Email u).

(** ** Calls that cross the repository boundary

    A ghost log: each call of a repository method made by the handler,
    with the value its pointer argument refers to at the time of the call. *)
Inductive Call : Type :=
  | Call_UserRepo_GetByID (id : Z)
  | Call_ProductRepo_GetByID (id : Z)
  | Call_ProductRepo_UpdateStock (p : ptr) (now : option Product)
  | Call_OrderRepo_Save (o : ptr) (now : option Order).

Definition is_UpdateStock (c : Call) : bool :=
  match c with Call_ProductRepo_UpdateStock _ _ => true | _ => false end.

Definition is_Save (c : Call) : bool :=
  match c with Call_OrderRepo_Save _ _ => true | _ => false end.

Definition is_write (c : Call) : bool := is_UpdateStock c || is_Save c.

(** ** Program state and the monad of Go statements *)

(** A call either returns or panics (nil dereference). *)
Inductive result (A : Type) : Type :=
  | Ok (a : A)
  | Panic.
Arguments Ok {A} a.
Arguments Panic {A}.

Section Program.

(** [W] is whatever lies behind the repositories (a database, the maps
    of the test doubles). *)
Context {W : Type}.

Record State : Type := mkState {
  users : gmap loc User;
  products : gmap loc Product;
  orders : gmap loc Order;
  world : W;
  calls : list Call }.

Definition M (A : Type) : Type := State -> result A * State.

Definition ret {A} (a : A) : M A := fun s => (Ok a, s).

Definition bind {A B} (m : M A) (k : A -> M B) : M B :=
  fun s => match m s with
           | (Ok a, s') => k a s'
           | (Panic, s') => (Panic, s')
           end.

Definition panic {A} : M A := fun s => (Panic, s).

End Program.

Arguments State W : clear implicits.
Arguments M W A : clear implicits.

(** stdpp's [x ← m; k] and ['(x, y) ← m; k] for sequencing statements. *)
#[export] Instance M_ret {W} : MRet (M W) := fun A a => ret a.
#[export] Instance M_bind {W} : MBind (M W) := fun A B k m => bind m k.

(** ** Heap access *)

Section Heap.
Context {W : Type}.

Definition deref {T} (h : gmap loc T) (p : ptr) : option T :=
  match p with Some l => h !! l | None => None end.

Definition with_users (h : gmap loc User) (s : State W) : State W :=
  mkState h (products s) (orders s) (world s) (calls s).
Definition with_products (h : gmap loc Product) (s : State W) : State W :=
  mkState (users s) h (orders s) (world s) (calls s).
Definition with_orders (h : gmap loc Order) (s : State W) : State W :=
  mkState (users s) (products s) h (world s) (calls s).
Definition with_world (w : W) (s : State W) : State W :=
  mkState (users s) (products s) (orders s) w (calls s).
Definition with_calls (l : list Call) (s : State W) : State W :=
  mkState (users s) (products s) (orders s) (world s) l.

(** Reading a field through a pointer panics on [nil]. *)
Definition load_User (p : ptr) : M W User :=
  fun s => match deref (users s) p with
           | Some v => (Ok v, s)
           | None => (Panic, s)
           end.

Definition load_Product (p : ptr) : M W Product :=
  fun s => match deref (products s) p with
           | Some v => (Ok v, s)
           | None => (Panic, s)
           end.

Definition load_Order (p : ptr) : M W Order :=
  fun s => match deref (orders s) p with
           | Some v => (Ok v, s)
           | None => (Panic, s)
           end.

(** Writing through a pointer: the cell is overwritten in place. *)
Definition store_Product (p : ptr) (v : Product) : M W unit :=
  fun s => match p with
           | Some l =>
               if decide (is_Some (products s !! l))
               then (Ok tt, with_products (<[l := v]> (products s)) s)
               else (Panic, s)
           | None => (Panic, s)
           end.

Definition store_Order (p : ptr) (v : Order) : M W unit :=
  fun s => match p with
           | Some l =>
               if decide (is_Some (orders s !! l))
               then (Ok tt, with_orders (<[l := v]> (orders s)) s)
               else (Panic, s)
           | None => (Panic, s)
           end.

(** [&Order{...}]: a cell at an address not in use. *)
Definition new_loc {T} (h : gmap loc T) : loc := fresh (dom h).

Definition alloc_Order (v : Order) : M W ptr :=
  fun s => let l := new_loc (orders s) in
           (Ok (Some l), with_orders (<[l := v]> (orders s)) s).

Definition log (c : Call) : M W unit :=
  fun s => (Ok tt, with_calls (calls s ++ [c]) s).

End Heap.

(** ** internal/product/domain/product.go *)

Section Domain.
Context {W : Type}.

Definition insufficient_stock : error := errors_New "insufficient stock".

(** [func (p *Product) Reserve(qty int) error] *)
Definition Reserve (p : ptr) (qty : Z) : M W (option error) :=
  v ← load_Product p;
  if Product_Stock v <? qty then
    mret (Some insufficient_stock)
  else
    store_Product p (set_Stock (int_sub (Product_Stock v) qty) v);;
    mret None.

(** ** internal/order/domain/order.go *)

(** [func NewOrder(userID, productID int64, quantity int) *Order] *)
Definition NewOrder (userID productID quantity : Z) : M W ptr :=
  alloc_Order (mkOrder 0 userID zero_User productID zero_Product
                       quantity "PENDING").

(** [func (o *Order) Confirm()] *)
Definition Confirm (o : ptr) : M W unit :=
  v ← load_Order o;
  store_Order o (set_Status "CONFIRMED" v).

End Domain.

(** ** The repository interfaces (ports)

    A method receives the cells of its own aggregate and the world
    behind the repositories, and returns or panics.  The [context.Context]
    argument is only handed on to the storage driver and is left out. *)

Definition method (W H A B : Type) : Type :=
  A -> H -> W -> result B * H * W.

Record UserRepository (W : Type) : Type := mkUserRepository {
  UserRepository_GetByID : method W (gmap loc User) Z (ptr * option error);
  UserRepository_Save : method W (gmap loc User) ptr (option error) }.

Record ProductRepository (W : Type) : Type := mkProductRepository {
  ProductRepository_GetByID :
    method W (gmap loc Product) Z (ptr * option error);
  ProductRepository_Save : method W (gmap loc Product) ptr (option error);
  ProductRepository_UpdateStock :
    method W (gmap loc Product) ptr (option error) }.

Record OrderRepository (W : Type) : Type := mkOrderRepository {
  OrderRepository_Save : method W (gmap loc Order) ptr (option error);
  OrderRepository_GetByID : method W (gmap loc Order) Z (ptr * option error) }.

Arguments UserRepository_GetByID {W} _.
Arguments UserRepository_Save {W} _.
Arguments ProductRepository_GetByID {W} _.
Arguments ProductRepository_Save {W} _.
Arguments ProductRepository_UpdateStock {W} _.
Arguments OrderRepository_Save {W} _.
Arguments OrderRepository_GetByID {W} _.

(** ** internal/order/app/command/order_place.go *)

Record PlaceOrderCommand : Type := mkPlaceOrderCommand {
  UserID : Z;
  ProductID : Z;
  Quantity : Z }.

Record PlaceOrderHandler (W : Type) : Type := mkPlaceOrderHandler {
  OrderRepo : OrderRepository W;
  UserRepo : UserRepository W;
  ProductRepo : ProductRepository W }.

Arguments OrderRepo {W} _.
Arguments UserRepo {W} _.
Arguments ProductRepo {W} _.

Section Handler.
Context {W : Type}.

Definition on_users {A B} (f : method W (gmap loc User) A B) (a : A)
  : M W B :=
  fun s => let '(r, h, w) := f a (users s) (world s) in
           (r, with_world w (with_users h s)).

Definition on_products {A B} (f : method W (gmap loc Product) A B) (a : A)
  : M W B :=
  fun s => let '(r, h, w) := f a (products s) (world s) in
           (r, with_world w (with_products h s)).

Definition on_orders {A B} (f : method W (gmap loc Order) A B) (a : A)
  : M W B :=
  fun s => let '(r, h, w) := f a (orders s) (world s) in
           (r, with_world w (with_orders h s)).

Definition snapshot_Product (p : ptr) : M W (option Product) :=
  fun s => (Ok (deref (products s) p), s).

Definition snapshot_Order (o : ptr) : M W (option Order) :=
  fun s => (Ok (deref (orders s) o), s).

Variable h : PlaceOrderHandler W.

Definition UserRepo_GetByID (id : Z) : M W (ptr * option error) :=
  log (Call_UserRepo_GetByID id);;
  on_users (UserRepository_GetByID (UserRepo h)) id.

Definition ProductRepo_GetByID (id : Z) : M W (ptr * option error) :=
  log (Call_ProductRepo_GetByID id);;
  on_products (ProductRepository_GetByID (ProductRepo h)) id.

Definition ProductRepo_UpdateStock (p : ptr) : M W (option error) :=
  now ← snapshot_Product p;
  log (Call_ProductRepo_UpdateStock p now);;
  on_products (ProductRepository_UpdateStock (ProductRepo h)) p.

Definition OrderRepo_Save (o : ptr) : M W (option error) :=
  now ← snapshot_Order o;
  log (Call_OrderRepo_Save o now);;
  on_orders (OrderRepository_Save (OrderRepo h)) o.

Definition user_not_found : error := errors_New "user not found".
Definition product_not_found : error := errors_New "product not found".

(** [func (h *PlaceOrderHandler) Handle(ctx, cmd PlaceOrderCommand) error] *)
Definition Handle (cmd : PlaceOrderCommand) : M W (option error) :=
  '(u, err) ← UserRepo_GetByID (UserID cmd);
  match err with Some _ => mret (Some user_not_found) | None =>
  '(p, err) ← ProductRepo_GetByID (ProductID cmd);
  match err with Some _ => mret (Some product_not_found) | None =>
  err ← Reserve p (Quantity cmd);
  match err with Some e => mret (Some e) | None =>
  uv ← load_User u;
  pv ← load_Product p;
  o ← NewOrder (User_ID uv) (Product_ID pv) (Quantity cmd);
  Confirm o;;
  err ← ProductRepo_UpdateStock p;
  match err with Some e => mret (Some e) | None =>
  OrderRepo_Save o
  end end end end.

End Handler.

(** ** The test doubles of the handler's tests

    Each keeps a Go map from id to pointer and an optional error that
    every method returns when set.  A nil map reads as the empty map and
    is made before the first write, so both are the empty [gmap]. *)

Module Mock.

Record MockUserRepository : Type := mkMockUserRepository {
  mock_users : gmap Z ptr;
  mock_users_err : option error }.

Record MockProductRepository : Type := mkMockProductRepository {
  mock_products : gmap Z ptr;
  mock_products_err : option error }.

Record MockOrderRepository : Type := mkMockOrderRepository {
  mock_orders : gmap Z ptr;
  mock_orders_err : option error }.

Record World : Type := mkWorld {
  userRepo : MockUserRepository;
  productRepo : MockProductRepository;
  orderRepo : MockOrderRepository }.

Definition with_userRepo (m : MockUserRepository) (w : World) : World :=
  mkWorld m (productRepo w) (orderRepo w).
Definition with_productRepo (m : MockProductRepository) (w : World) : World :=
  mkWorld (userRepo w) m (orderRepo w).
Definition with_orderRepo (m : MockOrderRepository) (w : World) : World :=
  mkWorld (userRepo w) (productRepo w) m.

(** [func (m *MockUserRepository) GetByID] *)
Definition MockUserRepository_GetByID
  : method World (gmap loc User) Z (ptr * option error) :=
  fun id h w =>
    let m := userRepo w in
    match mock_users_err m with
    | Some e => (Ok (None, Some e), h, w)
    | None =>
        match mock_users m !! id with
        | Some user => (Ok (user, None), h, w)
        | None => (Ok (None, Some (errors_New "user not found")), h, w)
        end
    end.

(** [func (m *MockUserRepository) Save] *)
Definition MockUserRepository_Save
  : method World (gmap loc User) ptr (option error) :=
  fun u h w =>
    let m := userRepo w in
    match mock_users_err m with
    | Some e => (Ok (Some e), h, w)
    | None =>
        match deref h u with
        | None => (Panic, h, w)
        | Some uv =>
            (Ok None, h,
             with_userRepo
               (mkMockUserRepository (<[User_ID uv := u]> (mock_users m))
                                     (mock_users_err m)) w)
        end
    end.

(** [func (m *MockProductRepository) GetByID] *)
Definition MockProductRepository_GetByID
  : method World (gmap loc Product) Z (ptr * option error) :=
  fun id h w =>
    let m := productRepo w in
    match mock_products_err m with
    | Some e => (Ok (None, Some e), h, w)
    | None =>
        match mock_products m !! id with
        | Some product => (Ok (product, None), h, w)
        | None => (Ok (None, Some (errors_New "product not found")), h, w)
        end
    end.

Definition store_product_pointer
  : method World (gmap loc Product) ptr (option error) :=
  fun p h w =>
    let m := productRepo w in
    match mock_products_err m with
    | Some e => (Ok (Some e), h, w)
    | None =>
        match deref h p with
        | None => (Panic, h, w)
        | Some pv =>
            (Ok None, h,
             with_productRepo
               (mkMockProductRepository
                  (<[Product_ID pv := p]> (mock_products m))
                  (mock_products_err m)) w)
        end
    end.

(** [func (m *MockProductRepository) Save] *)
Definition MockProductRepository_Save := store_product_pointer.

(** [func (m *MockProductRepository) UpdateStock]: the same body as
    [Save]; the map keeps the pointer it is given. *)
Definition MockProductRepository_UpdateStock := store_product_pointer.

(** [func (m *MockOrderRepository) Save]: assigns the next id to the
    order through the pointer, then keeps the pointer. *)
Definition MockOrderRepository_Save
  : method World (gmap loc Order) ptr (option error) :=
  fun o h w =>
    let m := orderRepo w in
    match mock_orders_err m with
    | Some e => (Ok (Some e), h, w)
    | None =>
        match o, deref h o with
        | Some l, Some ov =>
            let id := wrap_int (Z.of_nat (size (mock_orders m)) + 1) in
            (Ok None, <[l := set_Order_ID id ov]> h,
             with_orderRepo
               (mkMockOrderRepository (<[id := o]> (mock_orders m))
                                      (mock_orders_err m)) w)
        | _, _ => (Panic, h, w)
        end
    end.

(** [func (m *MockOrderRepository) GetByID] *)
Definition MockOrderRepository_GetByID
  : method World (gmap loc Order) Z (ptr * option error) :=
  fun id h w =>
    let m := orderRepo w in
    match mock_orders_err m with
    | Some e => (Ok (None, Some e), h, w)
    | None =>
        match mock_orders m !! id with
        | Some order => (Ok (order, None), h, w)
        | None => (Ok (None, Some (errors_New "order not found")), h, w)
        end
    end.

Definition handler : PlaceOrderHandler World :=
  mkPlaceOrderHandler World
    (mkOrderRepository World MockOrderRepository_Save
                       MockOrderRepository_GetByID)
    (mkUserRepository World MockUserRepository_GetByID
                      MockUserRepository_Save)
    (mkProductRepository World MockProductRepository_GetByID
                         MockProductRepository_Save
                         MockProductRepository_UpdateStock).

(** The same doubles behind a product repository whose reads work and
    whose [UpdateStock] is refused by the storage. *)
Definition db_down : error := errors_New "database connection failed".

Definition refuse_UpdateStock
  : method World (gmap loc Product) ptr (option error) :=
  fun p h w => (Ok (Some db_down), h, w).

Definition handler_refusing_UpdateStock : PlaceOrderHandler World :=
  mkPlaceOrderHandler World
    (OrderRepo handler) (UserRepo handler)
    (mkProductRepository World MockProductRepository_GetByID
                         MockProductRepository_Save refuse_UpdateStock).

(** The arrangement shared by the tests: user 1, product 1 with the
    given stock, no order, and the order repository failing with
    [order_err] when it is set. *)
Definition arrange (active : bool) (stock : Z) (order_err : option error)
  : State World :=
  mkState
    {[ 1%positive := mkUser 1 active "test@example.com" ]}
    {[ 1%positive := mkProduct 1 "Test Product" stock ]}
    ∅
    (mkWorld (mkMockUserRepository {[ 1 := Some 1%positive ]} None)
             (mkMockProductRepository {[ 1 := Some 1%positive ]} None)
             (mkMockOrderRepository ∅ order_err))
    [].

(** The stock a later [GetByID] of the product repository reads. *)
Definition stored_stock (id : Z) (s : State World) : option Z :=
  match mock_products (productRepo (world s)) !! id with
  | Some p => Product_Stock <$> deref (products s) p
  | None => None
  end.

(** The orders the order repository holds, as values. *)
Definition stored_orders (s : State World) : list (option Order) :=
  (fun kv => deref (orders s) kv.2) <$>
    map_to_list (mock_orders (orderRepo (world s))).

End Mock.

Definition run {W A} (m : M W A) (s : State W) : result A := (m s).1.
Definition exec {W A} (m : M W A) (s : State W) : State W := (m s).2.

(** ** States the handler passes through *)

Section Steps.
Context {W : Type}.

(** The product cell after a successful [Reserve]. *)
Definition reserved (l : loc) (pv : Product) (qty : Z) (s : State W)
  : State W :=
  with_products
    (<[l := set_Stock (int_sub (Product_Stock pv) qty) pv]> (products s)) s.

(** The order [NewOrder] builds, and the same order once confirmed. *)
Definition pending_order (uid pid qty : Z) : Order :=
  mkOrder 0 uid zero_User pid zero_Product qty "PENDING".

Definition confirmed_order (uid pid qty : Z) : Order :=
  mkOrder 0 uid zero_User pid zero_Product qty "CONFIRMED".

Definition with_new_order (ov : Order) (s : State W) : State W :=
  with_orders (<[new_loc (orders s) := ov]> (orders s)) s.

(** The state in which the handler reaches its first write: stock
    reserved in place, order allocated and confirmed. *)
Definition before_writes (l : loc) (pv : Product) (uv : User) (qty : Z)
    (s : State W) : State W :=
  with_new_order (confirmed_order (User_ID uv) (Product_ID pv) qty)
                 (reserved l pv qty s).

(** The two writes, as the handler ends. *)
Definition writes (h : PlaceOrderHandler W) (p o : ptr) : M W (option error) :=
  err ← ProductRepo_UpdateStock h p;
  match err with
  | Some e => mret (Some e)
  | None => OrderRepo_Save h o
  end.

(** [n] consecutive calls of [Confirm]. *)
Fixpoint Confirm_times (n : nat) (o : ptr) : M W unit :=
  match n with
  | O => mret tt
  | S n' => Confirm o;; Confirm_times n' o
  end.

(** The user repository [R], with the [Active] flag of every user it
    resolves set to [b] before the pointer is handed back. *)
Definition resolve_with_Active (b : bool) (R : UserRepository W)
  : UserRepository W :=
  mkUserRepository W
    (fun id h w =>
       let '(r, h', w') := UserRepository_GetByID R id h w in
       match r with
       | Ok (Some l, None) => (r, alter (set_Active b) l h', w')
       | _ => (r, h', w')
       end)
    (UserRepository_Save R).

Definition with_UserRepo (R : UserRepository W) (h : PlaceOrderHandler W)
  : PlaceOrderHandler W :=
  mkPlaceOrderHandler W (OrderRepo h) R (ProductRepo h).

(** What a logged [Save] must show: a confirmed order without identity. *)
Definition saves_confirmed (c : Call) : bool :=
  match c with
  | Call_OrderRepo_Save _ (Some ov) =>
      bool_decide (Order_Status ov = "CONFIRMED" ∧ Order_ID ov = 0)
  | Call_OrderRepo_Save _ None => false
  | _ => true
  end.


(** What a run of [Handle] can add to the log: the user lookup; then the
    product lookup; then [UpdateStock]; then [Save] of a confirmed order
    built by [NewOrder]. *)
Definition log_shape (cmd : PlaceOrderCommand) (new : list Call) : Prop :=
  new = [Call_UserRepo_GetByID (UserID cmd)]
  \/ new = [Call_UserRepo_GetByID (UserID cmd);
            Call_ProductRepo_GetByID (ProductID cmd)]
  \/ (exists p now,
       new = [Call_UserRepo_GetByID (UserID cmd);
              Call_ProductRepo_GetByID (ProductID cmd);
              Call_ProductRepo_UpdateStock p now])
  \/ (exists p now o uid pid,
       new = [Call_UserRepo_GetByID (UserID cmd);
              Call_ProductRepo_GetByID (ProductID cmd);
              Call_ProductRepo_UpdateStock p now;
              Call_OrderRepo_Save o
                (Some (confirmed_order uid pid (Quantity cmd)))]).

(** Two states that differ at most in user cells, and there not in the
    [ID] of the user [u] points to. *)
Definition agree (u : ptr) (s s' : State W) : Prop :=
  products s = products s' /\ orders s = orders s'
  /\ world s = world s' /\ calls s = calls s'
  /\ User_ID <$> deref (users s) u = User_ID <$> deref (users s') u.

(** Two programs that, from such states, end alike: both panic or both
    return, with results related by [V], in states that agree. *)
Definition alike {A} (u : ptr) (V : A -> A -> Prop) (m m' : M W A) : Prop :=
  forall s s', agree u s s' ->
    match m s, m' s' with
    | (Ok a, t), (Ok a', t') => V a a' /\ agree u t t'
    | (Panic, t), (Panic, t') => agree u t t'
    | _, _ => False
    end.

End Steps.

(** ** internal/user/domain: the user aggregate *)

Section UserDomain.
Context {W : Type}.

Definition store_User (p : ptr) (v : User) : M W unit :=
  fun s => match p with
           | Some l =>
               if decide (is_Some (users s !! l))
               then (Ok tt, with_users (<[l := v]> (users s)) s)
               else (Panic, s)
           | None => (Panic, s)
           end.

(** [func (u *User) Activate()] *)
Definition Activate (u : ptr) : M W unit :=
  v ← load_User u;
  store_User u (set_Active true v).

End UserDomain.

(** ** Outcomes of the handler *)

(** The result of a run of [Handle] against what it added to the log. *)
Definition outcome (cmd : PlaceOrderCommand) (r : result (option error))
    (new : list Call) : Prop :=
  (new = [Call_UserRepo_GetByID (UserID cmd)]
   /\ (r = Ok (Some user_not_found) \/ r = Panic))
  \/ (new = [Call_UserRepo_GetByID (UserID cmd);
             Call_ProductRepo_GetByID (ProductID cmd)]
      /\ (r = Ok (Some product_not_found)
          \/ r = Ok (Some insufficient_stock) \/ r = Panic))
  \/ (exists l pv,
       new = [Call_UserRepo_GetByID (UserID cmd);
              Call_ProductRepo_GetByID (ProductID cmd);
              Call_ProductRepo_UpdateStock (Some l)
                (Some (set_Stock
                         (int_sub (Product_Stock pv) (Quantity cmd)) pv))]
       /\ Quantity cmd <= Product_Stock pv
       /\ r <> Ok None)
  \/ (exists l pv o uid pid,
       new = [Call_UserRepo_GetByID (UserID cmd);
              Call_ProductRepo_GetByID (ProductID cmd);
              Call_ProductRepo_UpdateStock (Some l)
                (Some (set_Stock
                         (int_sub (Product_Stock pv) (Quantity cmd)) pv));
              Call_OrderRepo_Save o
                (Some (confirmed_order uid pid (Quantity cmd)))]
       /\ Quantity cmd <= Product_Stock pv).

(** ** States of the test doubles *)

Module MockState.
Import Mock.

(** User [uid] and product [pid] are registered, under pointers to the
    cells [uv] and [pv], and neither repository is set to fail. *)
Definition ready (uid pid : Z) (lu lp : loc) (uv : User) (pv : Product)
    (s : State World) : Prop :=
  mock_users_err (userRepo (world s)) = None
  /\ mock_products_err (productRepo (world s)) = None
  /\ mock_users (userRepo (world s)) !! uid = Some (Some lu)
  /\ users s !! lu = Some uv
  /\ mock_products (productRepo (world s)) !! pid = Some (Some lp)
  /\ products s !! lp = Some pv.

(** The id the order repository gives to the next order it saves. *)
Definition next_order_id (s : State World) : Z :=
  wrap_int (Z.of_nat (size (mock_orders (orderRepo (world s)))) + 1).

(** The state a successful placement leaves. *)
Definition placed (lp : loc) (uv : User) (pv : Product)
    (cmd : PlaceOrderCommand) (s : State World) : State World :=
  let w := world s in
  let id := next_order_id s in
  let lo := new_loc (orders s) in
  mkState
    (users s)
    (<[lp := set_Stock (int_sub (Product_Stock pv) (Quantity cmd)) pv]>
       (products s))
    (<[lo := set_Order_ID id
               (confirmed_order (User_ID uv) (Product_ID pv) (Quantity cmd))]>
       (orders s))
    (mkWorld
       (userRepo w)
       (mkMockProductRepository
          (<[Product_ID pv := Some lp]> (mock_products (productRepo w)))
          (mock_products_err (productRepo w)))
       (mkMockOrderRepository
          (<[id := Some lo]> (mock_orders (orderRepo w)))
          (mock_orders_err (orderRepo w))))
    (calls s ++
       [Call_UserRepo_GetByID (UserID cmd);
        Call_ProductRepo_GetByID (ProductID cmd);
        Call_ProductRepo_UpdateStock (Some lp)
          (Some (set_Stock (int_sub (Product_Stock pv) (Quantity cmd)) pv));
        Call_OrderRepo_Save (Some lo)
          (Some (confirmed_order (User_ID uv) (Product_ID pv)
                                 (Quantity cmd)))]).

(** The ids of the order repository are 1, ..., n. *)
Definition dense (m : gmap Z ptr) : Prop :=
  forall k, is_Some (m !! k) <-> 1 <= k <= Z.of_nat (size m).

End MockState.

(** ** internal/config: the database configuration *)

Module Config.

(** [os.Getenv]: the value of the variable, empty when it is not set. *)
Definition Getenv (env : gmap string string) (key : string) : string :=
  default "" (env !! key).

(** [func getEnv(key, defaultValue string) string] *)
Definition getEnv (env : gmap string string) (key defaultValue : string)
  : string :=
  let value := Getenv env key in
  if negb (String.eqb value "") then value else defaultValue.

Record DatabaseConfig : Type := mkDatabaseConfig {
  Host : string;
  Port : string;
  User : string;
  Password : string;
  DBName : string;
  SSLMode : string }.

(** [func GetDatabaseConfig() *DatabaseConfig] *)
Definition GetDatabaseConfig (env : gmap string string) : DatabaseConfig :=
  mkDatabaseConfig
    (getEnv env "DB_HOST" "localhost")
    (getEnv env "DB_PORT" "5432")
    (getEnv env "DB_USER" "postgres")
    (getEnv env "DB_PASSWORD" "postgres")
    (getEnv env "DB_NAME" "aiio_backend")
    (getEnv env "DB_SSLMODE" "disable").

(** [func (config *DatabaseConfig) BuildDSN() string]: [%s] of a string
    is the string. *)
Definition BuildDSN (config : DatabaseConfig) : string :=
  ("host=" ++ Host config ++ " port=" ++ Port config
   ++ " user=" ++ User config ++ " password=" ++ Password config
   ++ " dbname=" ++ DBName config ++ " sslmode=" ++ SSLMode config)%string.

(** No space among the bytes of a string. *)
Fixpoint no_space (s : string) : bool :=
  match s with
  | EmptyString => true
  | String c r => negb (Ascii.eqb c " "%char) && no_space r
  end.

End Config.

(** ** internal/shared/query: the query builder *)

Module Query.

(** [strings.Split(s, ",")]: the comma is one byte and never part of a
    longer UTF-8 sequence, so the split is bytewise. *)
Fixpoint Split_comma (s : string) : list string :=
  match s with
  | EmptyString => [EmptyString]
  | String c r =>
      if Ascii.eqb c ","%char then EmptyString :: Split_comma r
      else match Split_comma r with
           | p :: ps => String c p :: ps
           | [] => [String c EmptyString]
           end
  end.

(** [strings.Join(elems, ", ")] *)
Fixpoint Join_comma_space (elems : list string) : string :=
  match elems with
  | [] => ""
  | [e] => e
  | e :: rest => (e ++ ", " ++ Join_comma_space rest)%string
  end.

Definition is_upper (c : ascii) : bool :=
  (65 <=? Z.of_N (Ascii.N_of_ascii c)) && (Z.of_N (Ascii.N_of_ascii c) <=? 90).

(** The loop of [toSnakeCase]: an underscore before every rune in
    'A'..'Z' that is not the first.  In a valid UTF-8 string the bytes of
    the longer sequences are all above 'Z' and are copied as they are, so
    the loop over runes is this loop over bytes. *)
Fixpoint underscores (first : bool) (s : string) : string :=
  match s with
  | EmptyString => EmptyString
  | String c r =>
      if negb first && is_upper c
      then String "_"%char (String c (underscores false r))
      else String c (underscores false r)
  end.

(** What [strings.ToLower] does to the bytes 'A'..'Z'. *)
Definition lower_ascii (c : ascii) : ascii :=
  if is_upper c
  then Ascii.ascii_of_N (Ascii.N_of_ascii c + 32)
  else c.

Fixpoint lower_bytes (s : string) : string :=
  match s with
  | EmptyString => EmptyString
  | String c r => String (lower_ascii c) (lower_bytes r)
  end.

Fixpoint ascii_only (s : string) : bool :=
  match s with
  | EmptyString => true
  | String c r => (Z.of_N (Ascii.N_of_ascii c) <? 128) && ascii_only r
  end.

Fixpoint count_upper (s : string) : nat :=
  match s with
  | EmptyString => O
  | String c r => ((if is_upper c then 1 else 0) + count_upper r)%nat
  end.

(** [int] multiplication and Go's truncated division. *)
Definition int_mul (a b : Z) : Z := wrap_int (a * b).
Definition int_add (a b : Z) : Z := wrap_int (a + b).
Definition int_quot (a b : Z) : result Z :=
  if b =? 0 then Panic else Ok (wrap_int (Z.quot a b)).

Section WithLibrary.

(** The standard library's [strings.ToLower] and [strings.TrimSpace], and
    the values the code only hands on: floats, and values of the kinds
    [isZeroValue] leaves to [reflect.DeepEqual]. *)
Variables ToLower TrimSpace : string -> string.
Context {Float : Type}.
Variable float_is_zero : Float -> bool.
Context {Other : Type}.
Variable deep_equal_zero : Other -> bool.

(** [func toSnakeCase(str string) string] *)
Definition toSnakeCase (str : string) : string :=
  ToLower (underscores true str).

(** A Go value as [reflect] sees it: its kind and what [isZeroValue]
    reads.  [plain] tells a [string] from a named string type. *)
#[local] Unset Elimination Schemes.
Inductive Value : Type :=
  | VString (plain : bool) (s : string)
  | VBool (b : bool)
  | VInt (z : Z)
  | VUint (n : Z)
  | VFloat (f : Float)
  | VSlice (elems : option (list Value))
  | VMap (len : option nat)
  | VChan (len : option nat)
  | VPtr (target : option Value)
  | VInterface (dynamic : option Value)
  | VOther (x : Other).
#[local] Set Elimination Schemes.

(** [interface{}]: nil or a value. *)
Definition any : Type := option Value.

Definition Operator : Type := string.
Definition OperatorEquals : Operator := "=".
Definition OperatorNotEquals : Operator := "!=".
Definition OperatorContains : Operator := "CONTAINS".
Definition OperatorGreaterThan : Operator := ">".
Definition OperatorLessThan : Operator := "<".
Definition OperatorGreaterOrEqual : Operator := ">=".
Definition OperatorLessOrEqual : Operator := "<=".
Definition OperatorIn : Operator := "IN".
Definition OperatorNotIn : Operator := "NOT IN".
Definition OperatorIsNull : Operator := "IS NULL".
Definition OperatorIsNotNull : Operator := "IS NOT NULL".
Definition OperatorStartsWith : Operator := "STARTS_WITH".
Definition OperatorEndsWith : Operator := "ENDS_WITH".

Record FilterField : Type := mkFilterField {
  ColumnName : string;
  FilterOperator : Operator;
  FilterValue : any }.

(** The calls made on the [*gorm.DB] chain, in order. *)
Inductive GormCall : Type :=
  | Distinct
  | Where (query : string) (args : list any)
  | Preload (relationship : string) (args : list any)
  | Group (name : string)
  | Having (query : any) (args : list any)
  | Order (value : string)
  | Offset (offset : Z)
  | Limit (limit : Z).

Definition DB : Type := list GormCall.

Record PreloadConfig : Type := mkPreloadConfig {
  Relationship : string;
  Conditions : list any;
  CustomPreload : option (DB -> DB) }.

Definition SortOrder : Type := string.
Definition SortOrderAsc : SortOrder := "ASC".
Definition SortOrderDesc : SortOrder := "DESC".

Record SortConfig : Type := mkSortConfig {
  SortField : string;
  SortDirection : SortOrder }.

Record PaginationConfig : Type := mkPaginationConfig {
  Page : Z;
  PageSize : Z }.

Record QueryBuilder : Type := mkQueryBuilder {
  db : DB;
  filters : list FilterField;
  preloads : list PreloadConfig;
  sorts : list SortConfig;
  pagination : option PaginationConfig;
  distinct : bool;
  groupBy : list string;
  having : list any }.

(** [func NewQueryBuilder(db *gorm.DB) *QueryBuilder] *)
Definition NewQueryBuilder (d : DB) : QueryBuilder :=
  mkQueryBuilder d [] [] [] None false [] [].

Definition with_filters (fs : list FilterField) (qb : QueryBuilder)
  : QueryBuilder :=
  mkQueryBuilder (db qb) fs (preloads qb) (sorts qb) (pagination qb)
                 (distinct qb) (groupBy qb) (having qb).

(** [func isZeroValue(v reflect.Value) bool] *)
Definition isZeroValue (v : Value) : bool :=
  match v with
  | VSlice None | VMap None | VChan None => true
  | VSlice (Some l) => Nat.eqb (length l) 0
  | VMap (Some n) | VChan (Some n) => Nat.eqb n 0
  | VString _ s => String.eqb s ""
  | VBool b => negb b
  | VInt z => z =? 0
  | VUint n => n =? 0
  | VFloat f => float_is_zero f
  | VInterface None | VPtr None => true
  | VInterface (Some _) | VPtr (Some _) => false
  | VOther x => deep_equal_zero x
  end.

(** A struct field as [reflect] gives it: its name, the value of the
    [filter] key of its tag (empty when absent), whether it is exported,
    and its value. *)
Record StructField : Type := mkStructField {
  FieldName : string;
  FilterTag : string;
  CanInterface : bool;
  FieldValue : Value }.

(** What [ApplyFilters] is given: nil, a struct, a pointer to a struct,
    another pointer (nil, or to something that is not a struct), or a
    value of another kind. *)
Inductive FilterStruct : Type :=
  | NilInterface
  | Struct (fields : list StructField)
  | PtrToStruct (fields : list StructField)
  | PtrToOther
  | NotAStruct.

(** The body of the loop over the fields. *)
Definition field_filter (f : StructField) : option FilterField :=
  if negb (CanInterface f) then None
  else
    let filterTag :=
      if String.eqb (FilterTag f) "" then toSnakeCase (FieldName f)
      else FilterTag f in
    let parts := Split_comma filterTag in
    let columnName := List.hd EmptyString parts in
    let operator :=
      match parts with
      | _ :: p1 :: _ => TrimSpace p1
      | _ => OperatorEquals
      end in
    if negb (isZeroValue (FieldValue f))
    then Some (mkFilterField columnName operator (Some (FieldValue f)))
    else None.

Definition apply_fields (fields : list StructField) (qb : QueryBuilder)
  : QueryBuilder :=
  with_filters (filters qb ++ omap field_filter fields) qb.

(** [func (qb *QueryBuilder) ApplyFilters(filterStruct interface{})] *)
Definition ApplyFilters (filterStruct : FilterStruct) (qb : QueryBuilder)
  : QueryBuilder :=
  match filterStruct with
  | NilInterface => qb
  | Struct fields => apply_fields fields qb
  | PtrToStruct fields => apply_fields fields qb
  | PtrToOther => qb
  | NotAStruct => qb
  end.

(** [AddFilter], [AddFilters], [AddPreload], [AddCustomPreload],
    [AddSort], [SetPagination], [SetDistinct], [AddGroupBy], [AddHaving] *)
Definition AddFilter (columnName : string) (operator : Operator)
    (value : any) (qb : QueryBuilder) : QueryBuilder :=
  with_filters (filters qb ++ [mkFilterField columnName operator value]) qb.

Definition AddFilters (fs : list FilterField) (qb : QueryBuilder)
  : QueryBuilder :=
  with_filters (filters qb ++ fs) qb.

Definition AddPreload (relationship : string) (conditions : list any)
    (qb : QueryBuilder) : QueryBuilder :=
  mkQueryBuilder (db qb) (filters qb)
    (preloads qb ++ [mkPreloadConfig relationship conditions None])
    (sorts qb) (pagination qb) (distinct qb) (groupBy qb) (having qb).

Definition AddCustomPreload (relationship : string) (customFunc : DB -> DB)
    (qb : QueryBuilder) : QueryBuilder :=
  mkQueryBuilder (db qb) (filters qb)
    (preloads qb ++ [mkPreloadConfig relationship [] (Some customFunc)])
    (sorts qb) (pagination qb) (distinct qb) (groupBy qb) (having qb).

Definition AddSort (field : string) (order : SortOrder) (qb : QueryBuilder)
  : QueryBuilder :=
  mkQueryBuilder (db qb) (filters qb) (preloads qb)
    (sorts qb ++ [mkSortConfig field order])
    (pagination qb) (distinct qb) (groupBy qb) (having qb).

Definition SetPagination (page pageSize : Z) (qb : QueryBuilder)
  : QueryBuilder :=
  mkQueryBuilder (db qb) (filters qb) (preloads qb) (sorts qb)
    (Some (mkPaginationConfig page pageSize))
    (distinct qb) (groupBy qb) (having qb).

Definition SetDistinct (d : bool) (qb : QueryBuilder) : QueryBuilder :=
  mkQueryBuilder (db qb) (filters qb) (preloads qb) (sorts qb)
    (pagination qb) d (groupBy qb) (having qb).

Definition AddGroupBy (fields : list string) (qb : QueryBuilder)
  : QueryBuilder :=
  mkQueryBuilder (db qb) (filters qb) (preloads qb) (sorts qb)
    (pagination qb) (distinct qb) (groupBy qb ++ fields) (having qb).

Definition AddHaving (query : any) (args : list any) (qb : QueryBuilder)
  : QueryBuilder :=
  mkQueryBuilder (db qb) (filters qb) (preloads qb) (sorts qb)
    (pagination qb) (distinct qb) (groupBy qb)
    ((having qb ++ [query]) ++ args).

(** [filter.Value.(string)]: panics unless the value is a [string]. *)
Definition assert_string (v : any) : result string :=
  match v with
  | Some (VString true s) => Ok s
  | _ => Panic
  end.

Definition like (query : DB) (filter : FilterField)
    (pattern : string -> string) : result DB :=
  match assert_string (FilterValue filter) with
  | Ok s =>
      Ok (query ++ [Where (ColumnName filter ++ " LIKE ?")%string
                          [Some (VString true (pattern s))]])
  | Panic => Panic
  end.

(** [func applyFilter(query *gorm.DB, filter FilterField) *gorm.DB] *)
Definition applyFilter (query : DB) (filter : FilterField) : result DB :=
  let op := FilterOperator filter in
  let col := ColumnName filter in
  if String.eqb op OperatorContains then
    like query filter (fun s => "%" ++ s ++ "%")%string
  else if String.eqb op OperatorStartsWith then
    like query filter (fun s => s ++ "%")%string
  else if String.eqb op OperatorEndsWith then
    like query filter (fun s => "%" ++ s)%string
  else if String.eqb op OperatorIn then
    Ok (query ++ [Where (col ++ " IN ?")%string [FilterValue filter]])
  else if String.eqb op OperatorNotIn then
    Ok (query ++ [Where (col ++ " NOT IN ?")%string [FilterValue filter]])
  else if String.eqb op OperatorIsNull then
    Ok (query ++ [Where (col ++ " IS NULL")%string []])
  else if String.eqb op OperatorIsNotNull then
    Ok (query ++ [Where (col ++ " IS NOT NULL")%string []])
  else
    Ok (query ++ [Where (col ++ " " ++ op ++ " ?")%string
                        [FilterValue filter]]).

Fixpoint apply_filters (query : DB) (fs : list FilterField) : result DB :=
  match fs with
  | [] => Ok query
  | f :: rest =>
      match applyFilter query f with
      | Ok q => apply_filters q rest
      | Panic => Panic
      end
  end.

Definition apply_preload (query : DB) (preload : PreloadConfig) : DB :=
  match CustomPreload preload with
  | Some f => f query
  | None =>
      match Conditions preload with
      | _ :: _ =>
          query ++ [Preload (Relationship preload) (Conditions preload)]
      | [] => query ++ [Preload (Relationship preload) []]
      end
  end.

Definition apply_sort (query : DB) (sort : SortConfig) : DB :=
  query ++ [Order (SortField sort ++ " " ++ SortDirection sort)%string].

(** [func (qb *QueryBuilder) Build() *gorm.DB] *)
Definition Build (qb : QueryBuilder) : result DB :=
  let query := db qb in
  let query := if distinct qb then query ++ [Distinct] else query in
  match apply_filters query (filters qb) with
  | Panic => Panic
  | Ok query =>
      let query := fold_left apply_preload (preloads qb) query in
      let query :=
        match groupBy qb with
        | _ :: _ => query ++ [Group (Join_comma_space (groupBy qb))]
        | [] => query
        end in
      let query :=
        match having qb with
        | h0 :: rest => query ++ [Having h0 rest]
        | [] => query
        end in
      let query := fold_left apply_sort (sorts qb) query in
      let query :=
        match pagination qb with
        | Some pg =>
            let offset := int_mul (int_sub (Page pg) 1) (PageSize pg) in
            query ++ [Offset offset; Limit (PageSize pg)]
        | None => query
        end in
      Ok query
  end.

(** internal/shared/query/helpers.go: [CommonFilters] *)
Definition SearchByName (name : string) : FilterField :=
  mkFilterField "name" OperatorContains (Some (VString true name)).

Definition FilterByStatus (status : string) : FilterField :=
  mkFilterField "status" OperatorEquals (Some (VString true status)).

Definition FilterByActive (active : bool) : FilterField :=
  mkFilterField "active" OperatorEquals (Some (VBool active)).

Definition FilterByIDs (ids : option (list Z)) : FilterField :=
  mkFilterField "id" OperatorIn (Some (VSlice (fmap (map VInt) ids))).

(** [func (cf *CommonFilters) FilterByDateRange(columnName, from, to)] *)
Definition FilterByDateRange (columnName : string) (from to : any)
  : list FilterField :=
  let filters := [] in
  let filters :=
    match from with
    | Some _ =>
        filters ++ [mkFilterField columnName OperatorGreaterOrEqual from]
    | None => filters
    end in
  match to with
  | Some _ => filters ++ [mkFilterField columnName OperatorLessOrEqual to]
  | None => filters
  end.

Definition FilterByUserID (userID : Z) : FilterField :=
  mkFilterField "user_id" OperatorEquals (Some (VInt userID)).

Definition FilterByProductID (productID : Z) : FilterField :=
  mkFilterField "product_id" OperatorEquals (Some (VInt productID)).

(** [func FindWithPagination[T any](db, page, pageSize, result)]: the two
    statements run on the database are given by what they return,
    [Count] its error and the total, [Find] its error and the rows for an
    offset and a limit. *)
Record PaginatedResult (T : Type) : Type := mkPaginatedResult {
  Data : list T;
  Total : Z;
  ResultPage : Z;
  ResultPageSize : Z;
  TotalPages : Z }.

Definition FindWithPagination {T : Type}
    (Count : option error * Z)
    (Find : Z -> Z -> option error * list T)
    (page pageSize : Z)
  : result (option (PaginatedResult T) * option error) :=
  match Count with
  | (Some err, _) => Ok (None, Some err)
  | (None, total) =>
      let offset := int_mul (int_sub page 1) pageSize in
      match int_quot (int_sub (int_add total pageSize) 1) pageSize with
      | Panic => Panic
      | Ok totalPages =>
          match Find offset pageSize with
          | (Some err, _) => Ok (None, Some err)
          | (None, rows) =>
              Ok (Some (mkPaginatedResult T rows total page pageSize
                                          totalPages), None)
          end
      end
  end.

(** *** Notions used to state what the builder does *)

(** The fields [ApplyFilters] turns into filters. *)
Definition selected (f : StructField) : bool :=
  CanInterface f && negb (isZeroValue (FieldValue f)).

(** The three operators whose value must be a [string]. *)
Definition is_like (op : Operator) : bool :=
  String.eqb op OperatorContains || String.eqb op OperatorStartsWith
  || String.eqb op OperatorEndsWith.

(** The [Preload] and [Order] calls of a plain preload and of a sort. *)
Definition preload_call (p : PreloadConfig) : GormCall :=
  Preload (Relationship p) (Conditions p).

Definition order_call (srt : SortConfig) : GormCall :=
  Order (SortField srt ++ " " ++ SortDirection srt)%string.

Definition distinct_part (qb : QueryBuilder) : DB :=
  if distinct qb then [Distinct] else [].

Definition group_part (qb : QueryBuilder) : DB :=
  match groupBy qb with
  | _ :: _ => [Group (Join_comma_space (groupBy qb))]
  | [] => []
  end.

Definition having_part (qb : QueryBuilder) : DB :=
  match having qb with
  | h0 :: rest => [Having h0 rest]
  | [] => []
  end.

Definition pagination_part (qb : QueryBuilder) : DB :=
  match pagination qb with
  | Some pg =>
      [Offset (int_mul (int_sub (Page pg) 1) (PageSize pg));
       Limit (PageSize pg)]
  | None => []
  end.

End WithLibrary.

(** No comma among the bytes of a string. *)
Fixpoint no_comma (s : string) : bool :=
  match s with
  | EmptyString => true
  | String c r => negb (Ascii.eqb c ","%char) && no_comma r
  end.

End Query.

(** ** internal/shared/query/filter_test.go: the filter struct *)

Module TestFilter.
Import Query.

(** [TestFilter] of the query tests.  Of a float only its being zero is
    recorded; no field is of another kind; the operators of the tags
    carry no space to trim. *)
Definition zero_float (f : bool) : bool := f.
Definition zero_other (x : unit) : bool := true.
Definition trim (s : string) : string := s.

Definition fields (name : string) (minStock maxStock : Z)
    (ids : option (list Z)) (minPriceIsZero : bool)
  : list (StructField (Float:=bool) (Other:=unit)) :=
  [mkStructField "Name" "name,CONTAINS" true (VString true name);
   mkStructField "MinStock" "stock,>=" true (VInt minStock);
   mkStructField "MaxStock" "stock,<=" true (VInt maxStock);
   mkStructField "IDs" "id,IN" true (VSlice (fmap (map VInt) ids));
   mkStructField "MinPrice" "price,>=" true (VFloat minPriceIsZero)].

End TestFilter.

(** * Proofs *)

(** ** Machine integers *)

Lemma wrap_int_id (z : Z) : is_int z -> wrap_int z = z.
Proof.
  unfold is_int, int_min, int_max, wrap_int. intros Hz.
  rewrite Z.mod_small; lia.
Qed.

Lemma wrap_int_range (z : Z) : is_int (wrap_int z).
Proof.
  unfold is_int, int_min, int_max, wrap_int.
  pose proof (Z.mod_pos_bound (z + 2 ^ 63) (2 ^ 64)). lia.
Qed.

Lemma wrap_int_fixed (z : Z) : wrap_int z = z -> is_int z.
Proof. intros <-. apply wrap_int_range. Qed.

Lemma int_sub_exact (a b : Z) : is_int (a - b) -> int_sub a b = a - b.
Proof. apply wrap_int_id. Qed.

(** A reservation of a non-negative quantity never leaves the range. *)
Lemma int_sub_reserve (stock qty : Z) :
  is_int stock -> 0 <= qty <= stock -> int_sub stock qty = stock - qty.
Proof.
  unfold is_int, int_min, int_max. intros Hs Hq.
  apply int_sub_exact. unfold is_int, int_min, int_max. lia.
Qed.

(** ** Sequencing *)

Section Sequencing.
Context {W : Type}.

Lemma bind_Ok {A B} (m : M W A) (k : A -> M W B) s a s' :
  m s = (Ok a, s') -> (m ≫= k) s = k a s'.
Proof. intros E. unfold mbind, M_bind, bind. by rewrite E. Qed.

Lemma bind_Panic {A B} (m : M W A) (k : A -> M W B) s s' :
  m s = (Panic, s') -> (m ≫= k) s = (Panic, s').
Proof. intros E. unfold mbind, M_bind, bind. by rewrite E. Qed.

Lemma with_products_same (s : State W) : with_products (products s) s = s.
Proof. by destruct s. Qed.

Lemma with_orders_same (s : State W) : with_orders (orders s) s = s.
Proof. by destruct s. Qed.

End Sequencing.

(** ** The aggregates *)

Section DomainFacts.
Context {W : Type}.
Implicit Types (s : State W) (l : loc) (pv : Product) (ov : Order).

Lemma load_Product_Some s l pv :
  products s !! l = Some pv -> load_Product (Some l) s = (Ok pv, s).
Proof. intros E. unfold load_Product. simpl. by rewrite E. Qed.

Lemma load_User_Some s u (uv : User) :
  deref (users s) u = Some uv -> load_User u s = (Ok uv, s).
Proof. intros E. unfold load_User. by rewrite E. Qed.

Lemma store_Product_Some s l pv pv' :
  products s !! l = Some pv ->
  store_Product (Some l) pv' s
  = (Ok tt, with_products (<[l := pv']> (products s)) s).
Proof.
  intros E. unfold store_Product.
  destruct (decide (is_Some (products s !! l))) as [|N]; [done|].
  destruct N. by exists pv.
Qed.

Lemma store_Order_Some s l ov ov' :
  orders s !! l = Some ov ->
  store_Order (Some l) ov' s
  = (Ok tt, with_orders (<[l := ov']> (orders s)) s).
Proof.
  intros E. unfold store_Order.
  destruct (decide (is_Some (orders s !! l))) as [|N]; [done|].
  destruct N. by exists ov.
Qed.

Lemma Reserve_enough s l pv qty :
  products s !! l = Some pv ->
  qty <= Product_Stock pv ->
  Reserve (Some l) qty s = (Ok None, reserved l pv qty s).
Proof.
  intros E Hq. unfold Reserve.
  rewrite (bind_Ok _ _ _ _ _ (load_Product_Some _ _ _ E)).
  destruct (Z.ltb_spec (Product_Stock pv) qty) as [|_]; [lia|].
  by rewrite (bind_Ok _ _ _ _ _ (store_Product_Some _ _ _ _ E)).
Qed.

Lemma Reserve_short s l pv qty :
  products s !! l = Some pv ->
  Product_Stock pv < qty ->
  Reserve (Some l) qty s = (Ok (Some insufficient_stock), s).
Proof.
  intros E Hq. unfold Reserve.
  rewrite (bind_Ok _ _ _ _ _ (load_Product_Some _ _ _ E)).
  destruct (Z.ltb_spec (Product_Stock pv) qty) as [_|]; [done|lia].
Qed.

Lemma Reserve_nil s p qty :
  deref (products s) p = None -> Reserve p qty s = (Panic, s).
Proof.
  intros E. unfold Reserve. apply bind_Panic.
  unfold load_Product. by rewrite E.
Qed.

Lemma new_loc_fresh {T} (h : gmap loc T) : h !! new_loc h = None.
Proof. apply not_elem_of_dom, is_fresh. Qed.

Lemma NewOrder_run s uid pid qty :
  NewOrder uid pid qty s
  = (Ok (Some (new_loc (orders s))),
     with_new_order (pending_order uid pid qty) s).
Proof. reflexivity. Qed.

Lemma Confirm_Some s l ov :
  orders s !! l = Some ov ->
  Confirm (Some l) s
  = (Ok tt, with_orders (<[l := set_Status "CONFIRMED" ov]> (orders s)) s).
Proof.
  intros E. unfold Confirm.
  assert (L : load_Order (Some l) s = (Ok ov, s)).
  { unfold load_Order. simpl. by rewrite E. }
  rewrite (bind_Ok _ _ _ _ _ L). by apply store_Order_Some with ov.
Qed.

Lemma Confirm_nil s o :
  deref (orders s) o = None -> Confirm o s = (Panic, s).
Proof.
  intros E. unfold Confirm. apply bind_Panic.
  unfold load_Order. by rewrite E.
Qed.

Lemma NewOrder_Confirm s uid pid qty :
  (o ← NewOrder uid pid qty; Confirm o;; mret o) s
  = (Ok (Some (new_loc (orders s))),
     with_new_order (confirmed_order uid pid qty) s).
Proof.
  rewrite (bind_Ok _ _ _ _ _ (NewOrder_run s uid pid qty)).
  erewrite bind_Ok.
  2:{ apply Confirm_Some. simpl. apply lookup_insert_eq. }
  unfold mret, M_ret, ret, with_new_order, with_orders. simpl.
  by rewrite insert_insert_eq.
Qed.

End DomainFacts.

(** ** The handler *)

Section HandlerFacts.
Context {W : Type}.
Variable h : PlaceOrderHandler W.
Implicit Types (s : State W) (l : loc) (cmd : PlaceOrderCommand).

Lemma UserRepo_GetByID_calls id s r s1 :
  UserRepo_GetByID h id s = (r, s1) ->
  calls s1 = calls s ++ [Call_UserRepo_GetByID id]
  /\ products s1 = products s /\ orders s1 = orders s.
Proof.
  unfold UserRepo_GetByID, log, on_users, mbind, M_bind, bind. simpl.
  destruct (UserRepository_GetByID _ _ _ _) as [[[a|] uh] w];
    intros [= <- <-]; done.
Qed.

Lemma ProductRepo_GetByID_calls id s r s1 :
  ProductRepo_GetByID h id s = (r, s1) ->
  calls s1 = calls s ++ [Call_ProductRepo_GetByID id]
  /\ users s1 = users s /\ orders s1 = orders s.
Proof.
  unfold ProductRepo_GetByID, log, on_products, mbind, M_bind, bind. simpl.
  destruct (ProductRepository_GetByID _ _ _ _) as [[[a|] uh] w];
    intros [= <- <-]; done.
Qed.

Lemma ProductRepo_UpdateStock_calls p s r s1 :
  ProductRepo_UpdateStock h p s = (r, s1) ->
  calls s1
  = calls s ++ [Call_ProductRepo_UpdateStock p (deref (products s) p)]
  /\ users s1 = users s /\ orders s1 = orders s.
Proof.
  unfold ProductRepo_UpdateStock, snapshot_Product, log, on_products,
    mbind, M_bind, bind. simpl.
  destruct (ProductRepository_UpdateStock _ _ _ _) as [[[a|] uh] w];
    intros [= <- <-]; done.
Qed.

Lemma OrderRepo_Save_calls o s r s1 :
  OrderRepo_Save h o s = (r, s1) ->
  calls s1 = calls s ++ [Call_OrderRepo_Save o (deref (orders s) o)]
  /\ users s1 = users s /\ products s1 = products s.
Proof.
  unfold OrderRepo_Save, snapshot_Order, log, on_orders,
    mbind, M_bind, bind. simpl.
  destruct (OrderRepository_Save _ _ _ _) as [[[a|] uh] w];
    intros [= <- <-]; done.
Qed.

(** Both lookups succeed and the stock suffices: the handler reserves,
    builds the confirmed order and goes on to the two writes. *)
Lemma Handle_reaches_writes cmd s u l uv pv s1 s2 :
  UserRepo_GetByID h (UserID cmd) s = (Ok (u, None), s1) ->
  ProductRepo_GetByID h (ProductID cmd) s1 = (Ok (Some l, None), s2) ->
  deref (users s2) u = Some uv ->
  products s2 !! l = Some pv ->
  Quantity cmd <= Product_Stock pv ->
  Handle h cmd s
  = writes h (Some l) (Some (new_loc (orders s2)))
           (before_writes l pv uv (Quantity cmd) s2).
Proof.
  intros H1 H2 Hu Hp Hq. unfold Handle.
  rewrite (bind_Ok _ _ _ _ _ H1). cbn beta iota.
  rewrite (bind_Ok _ _ _ _ _ H2). cbn beta iota.
  rewrite (bind_Ok _ _ _ _ _ (Reserve_enough _ _ _ _ Hp Hq)).
  erewrite bind_Ok; [|by apply load_User_Some].
  erewrite bind_Ok.
  2:{ apply load_Product_Some. simpl. apply lookup_insert_eq. }
  rewrite (bind_Ok _ _ _ _ _ (NewOrder_run _ _ _ _)).
  erewrite bind_Ok.
  2:{ apply Confirm_Some. simpl. apply lookup_insert_eq. }
  unfold before_writes, with_new_order, with_orders, writes. simpl.
  by rewrite insert_insert_eq.
Qed.

End HandlerFacts.

(** * The claims *)

(** ** Product.Reserve *)

(** C3 (amended). For every Product and quantity: when stock >= quantity
    and stock - quantity is still an [int], [Reserve] returns nil and the
    new state is the old one with the stock of that one cell decremented
    by exactly quantity; when stock < quantity, [Reserve] returns the
    "insufficient stock" error and the state, the Product included, is
    the old one. *)
Theorem Reserve_spec {W} (s : State W) (l : loc) (pv : Product) (qty : Z) :
  products s !! l = Some pv ->
  (qty <= Product_Stock pv -> is_int (Product_Stock pv - qty) ->
   Reserve (Some l) qty s
   = (Ok None,
      with_products
        (<[l := set_Stock (Product_Stock pv - qty) pv]> (products s)) s))
  /\ (Product_Stock pv < qty ->
      Reserve (Some l) qty s = (Ok (Some insufficient_stock), s)).
Proof.
  intros E. split.
  - intros Hq Hr. rewrite (Reserve_enough s l pv qty E Hq).
    unfold reserved. by rewrite int_sub_exact.
  - intros Hq. by apply Reserve_short with pv.
Qed.

(** Stock 10, reserve 2: the cell holds 8.  Stock 1, reserve 5: refused,
    nothing changes. *)
Lemma Reserve_spec_witness :
  Reserve (Some 1%positive) 2 (Mock.arrange true 10 None)
  = (Ok None,
     with_products {[ 1%positive := mkProduct 1 "Test Product" 8 ]}
                   (Mock.arrange true 10 None))
  /\ Reserve (Some 1%positive) 5 (Mock.arrange true 1 None)
     = (Ok (Some insufficient_stock), Mock.arrange true 1 None).
Proof.
  split.
  - refine (proj1 (Reserve_spec (Mock.arrange true 10 None) 1%positive
                     (mkProduct 1 "Test Product" 10) 2 _) _ _).
    + reflexivity.
    + simpl. lia.
    + unfold is_int, int_min, int_max. simpl. lia.
  - refine (proj2 (Reserve_spec (Mock.arrange true 1 None) 1%positive
                     (mkProduct 1 "Test Product" 1) 5 _) _).
    + reflexivity.
    + simpl. lia.
Defined.

(** C3, as stated, fails: stock 10 is at least the quantity -2^63, the
    call succeeds, and the stock it leaves is 10 - (-2^63) wrapped
    around, not the stock decremented by the quantity. *)
Lemma Reserve_decrement_overflows :
  let s := Mock.arrange true 10 None in
  let p := Some 1%positive in
  is_int 10 /\ is_int int_min /\ int_min <= 10
  /\ run (Reserve p int_min) s = Ok None
  /\ Product_Stock <$> deref (products (exec (Reserve p int_min) s)) p
     = Some (-9223372036854775798)
  /\ -9223372036854775798 <> 10 - int_min.
Proof.
  unfold is_int, int_min, int_max. repeat split; try lia; reflexivity.
Qed.

(** X8. Within the range of [int] and for a quantity that is not negative,
    a reservation keeps a non-negative stock non-negative. *)
Lemma Reserve_keeps_stock_nonneg {W} (s : State W) l pv pv' qty :
  products s !! l = Some pv ->
  is_int (Product_Stock pv) -> 0 <= Product_Stock pv -> 0 <= qty ->
  products (exec (Reserve (Some l) qty) s) !! l = Some pv' ->
  0 <= Product_Stock pv'.
Proof.
  intros E Hi Hs Hq. unfold exec.
  destruct (Z.le_gt_cases qty (Product_Stock pv)) as [Hle|Hgt].
  - rewrite (Reserve_enough s l pv qty E Hle). simpl.
    rewrite lookup_insert_eq. intros [= <-]. simpl.
    rewrite int_sub_reserve by (done || lia). lia.
  - rewrite (Reserve_short s l pv qty E Hgt). simpl.
    rewrite E. by intros [= <-].
Qed.

(** C7 (the failing input). A product with stock 10 and the quantity
    -2^63: the check [Stock < qty] does not fire, the subtraction wraps
    around, and the stock is negative, in the cell and, through [Handle],
    in what the repository holds. *)
Theorem Reserve_drives_stock_negative :
  let s := Mock.arrange true 10 None in
  let p := Some 1%positive in
  let cmd := mkPlaceOrderCommand 1 1 int_min in
  run (Reserve p int_min) s = Ok None
  /\ Product_Stock <$> deref (products (exec (Reserve p int_min) s)) p
     = Some (-9223372036854775798)
  /\ run (Handle Mock.handler cmd) s = Ok None
  /\ Mock.stored_stock 1 (exec (Handle Mock.handler cmd) s)
     = Some (-9223372036854775798).
Proof. repeat split. Qed.

(** ** Handle: the failure paths *)

Section HandleClaims.
Context {W : Type}.
Variable h : PlaceOrderHandler W.
Implicit Types (s : State W) (l : loc) (cmd : PlaceOrderCommand).

(** C4. When the user lookup returns an error, whichever it is, [Handle]
    returns the "user not found" error, the user lookup is the only
    repository call made, and no product or order cell has changed. *)
Theorem Handle_user_lookup_fails cmd s u e s1 :
  UserRepo_GetByID h (UserID cmd) s = (Ok (u, Some e), s1) ->
  Handle h cmd s = (Ok (Some user_not_found), s1)
  /\ calls s1 = calls s ++ [Call_UserRepo_GetByID (UserID cmd)]
  /\ products s1 = products s
  /\ orders s1 = orders s.
Proof.
  intros H1. split.
  - unfold Handle. by rewrite (bind_Ok _ _ _ _ _ H1).
  - apply (UserRepo_GetByID_calls h _ _ _ _ H1).
Qed.

(** C2. User and product resolved, quantity strictly above the stock:
    [Handle] returns the "insufficient stock" error of [Reserve] and ends
    in the very state the product lookup left, so the log holds the two
    lookups and neither [UpdateStock] nor [Save], and the fetched
    product still has its stock. *)
Theorem Handle_insufficient_stock cmd s u l pv s1 s2 :
  UserRepo_GetByID h (UserID cmd) s = (Ok (u, None), s1) ->
  ProductRepo_GetByID h (ProductID cmd) s1 = (Ok (Some l, None), s2) ->
  products s2 !! l = Some pv ->
  Product_Stock pv < Quantity cmd ->
  Handle h cmd s = (Ok (Some insufficient_stock), s2)
  /\ calls s2 = calls s ++ [Call_UserRepo_GetByID (UserID cmd);
                            Call_ProductRepo_GetByID (ProductID cmd)]
  /\ filter is_write (calls (exec (Handle h cmd) s))
     = filter is_write (calls s)
  /\ products (exec (Handle h cmd) s) !! l = Some pv.
Proof.
  intros H1 H2 Hp Hq.
  assert (E : Handle h cmd s = (Ok (Some insufficient_stock), s2)).
  { unfold Handle.
    rewrite (bind_Ok _ _ _ _ _ H1). cbn beta iota.
    rewrite (bind_Ok _ _ _ _ _ H2). cbn beta iota.
    by rewrite (bind_Ok _ _ _ _ _ (Reserve_short _ _ _ _ Hp Hq)). }
  destruct (UserRepo_GetByID_calls h _ _ _ _ H1) as [C1 _].
  destruct (ProductRepo_GetByID_calls h _ _ _ _ H2) as [C2 _].
  assert (C : calls s2 = calls s ++ [Call_UserRepo_GetByID (UserID cmd);
                            Call_ProductRepo_GetByID (ProductID cmd)]).
  { rewrite C2, C1. by rewrite <- app_assoc. }
  unfold exec. rewrite E. simpl. repeat split; try done.
  rewrite C, filter_app. simpl. by rewrite app_nil_r.
Qed.

End HandleClaims.

(** ** Handle: the two writes *)

Section WriteClaims.
Context {W : Type}.
Variable h : PlaceOrderHandler W.
Implicit Types (s : State W) (l : loc) (cmd : PlaceOrderCommand).

Lemma before_writes_product l pv uv qty s :
  products (before_writes l pv uv qty s) !! l
  = Some (set_Stock (int_sub (Product_Stock pv) qty) pv).
Proof. simpl. apply lookup_insert_eq. Qed.

Lemma before_writes_order l pv uv qty s :
  orders (before_writes l pv uv qty s) !! new_loc (orders s)
  = Some (confirmed_order (User_ID uv) (Product_ID pv) qty).
Proof. simpl. apply lookup_insert_eq. Qed.

(** The log of the lookups, of [UpdateStock] and, when it is reached,
    of [Save]. *)
Lemma lookups_log cmd s r1 r2 s1 s2 :
  UserRepo_GetByID h (UserID cmd) s = (r1, s1) ->
  ProductRepo_GetByID h (ProductID cmd) s1 = (r2, s2) ->
  calls s2 = calls s ++ [Call_UserRepo_GetByID (UserID cmd);
                         Call_ProductRepo_GetByID (ProductID cmd)].
Proof.
  intros H1 H2.
  destruct (UserRepo_GetByID_calls h _ _ _ _ H1) as [C1 _].
  destruct (ProductRepo_GetByID_calls h _ _ _ _ H2) as [C2 _].
  rewrite C2, C1. by rewrite <- app_assoc.
Qed.

Lemma UpdateStock_log l pv uv qty s r s3 :
  ProductRepo_UpdateStock h (Some l) (before_writes l pv uv qty s)
  = (r, s3) ->
  calls s3
  = calls s ++ [Call_ProductRepo_UpdateStock (Some l)
                  (Some (set_Stock (int_sub (Product_Stock pv) qty) pv))]
  /\ orders s3 !! new_loc (orders s)
     = Some (confirmed_order (User_ID uv) (Product_ID pv) qty).
Proof.
  intros H3.
  destruct (ProductRepo_UpdateStock_calls h _ _ _ _ H3) as (C & _ & O).
  split.
  - rewrite C. unfold deref. by rewrite before_writes_product.
  - rewrite O. apply before_writes_order.
Qed.

Lemma Save_log l pv uv qty s r r' s3 s4 :
  ProductRepo_UpdateStock h (Some l) (before_writes l pv uv qty s)
  = (r, s3) ->
  OrderRepo_Save h (Some (new_loc (orders s))) s3 = (r', s4) ->
  calls s4
  = calls s ++ [Call_ProductRepo_UpdateStock (Some l)
                  (Some (set_Stock (int_sub (Product_Stock pv) qty) pv));
                Call_OrderRepo_Save (Some (new_loc (orders s)))
                  (Some (confirmed_order (User_ID uv) (Product_ID pv) qty))]
  /\ products s4 = products s3.
Proof.
  intros H3 H4.
  destruct (UpdateStock_log _ _ _ _ _ _ _ H3) as [C O].
  destruct (OrderRepo_Save_calls h _ _ _ _ H4) as (C' & _ & P).
  split; [|done].
  rewrite C', C. unfold deref. rewrite O. by rewrite <- app_assoc.
Qed.

(** C5. Lookups and stock check pass, [UpdateStock] returns nil and [Save]
    then returns an error: [Handle] returns that very error and stops in
    the state [Save] left.  The log shows the one [UpdateStock], with the
    decremented stock, followed by the [Save] and by nothing else, and
    the product cells are as [UpdateStock] left them. *)
Theorem Handle_save_fails_after_stock_update cmd s u l uv pv e s1 s2 s3 s4 :
  UserRepo_GetByID h (UserID cmd) s = (Ok (u, None), s1) ->
  ProductRepo_GetByID h (ProductID cmd) s1 = (Ok (Some l, None), s2) ->
  deref (users s2) u = Some uv ->
  products s2 !! l = Some pv ->
  Quantity cmd <= Product_Stock pv ->
  ProductRepo_UpdateStock h (Some l)
    (before_writes l pv uv (Quantity cmd) s2) = (Ok None, s3) ->
  OrderRepo_Save h (Some (new_loc (orders s2))) s3 = (Ok (Some e), s4) ->
  Handle h cmd s = (Ok (Some e), s4)
  /\ calls s4
     = calls s ++
       [Call_UserRepo_GetByID (UserID cmd);
        Call_ProductRepo_GetByID (ProductID cmd);
        Call_ProductRepo_UpdateStock (Some l)
          (Some (set_Stock (int_sub (Product_Stock pv) (Quantity cmd)) pv));
        Call_OrderRepo_Save (Some (new_loc (orders s2)))
          (Some (confirmed_order (User_ID uv) (Product_ID pv)
                                 (Quantity cmd)))]
  /\ products s4 = products s3.
Proof.
  intros H1 H2 Hu Hp Hq H3 H4.
  destruct (Save_log _ _ _ _ _ _ _ _ _ H3 H4) as [C P].
  repeat split; [| |done].
  - rewrite (Handle_reaches_writes h cmd s u l uv pv s1 s2) by done.
    unfold writes. rewrite (bind_Ok _ _ _ _ _ H3). exact H4.
  - rewrite C, (lookups_log _ _ _ _ _ _ H1 H2). by rewrite <- app_assoc.
Qed.

(** C1 (amended). User and product resolved under the requested ids,
    stock >= quantity with stock - quantity still an [int], and both
    [UpdateStock] and [Save] return nil: [Handle] returns nil, the stock
    handed to [UpdateStock] is the original stock minus quantity, and
    [Save] is called exactly once, with a CONFIRMED order of that
    userID, productID and quantity. *)
Theorem Handle_success cmd s u l uv pv s1 s2 s3 s4 :
  UserRepo_GetByID h (UserID cmd) s = (Ok (u, None), s1) ->
  ProductRepo_GetByID h (ProductID cmd) s1 = (Ok (Some l, None), s2) ->
  deref (users s2) u = Some uv -> User_ID uv = UserID cmd ->
  products s2 !! l = Some pv -> Product_ID pv = ProductID cmd ->
  Quantity cmd <= Product_Stock pv ->
  is_int (Product_Stock pv - Quantity cmd) ->
  ProductRepo_UpdateStock h (Some l)
    (before_writes l pv uv (Quantity cmd) s2) = (Ok None, s3) ->
  OrderRepo_Save h (Some (new_loc (orders s2))) s3 = (Ok None, s4) ->
  Handle h cmd s = (Ok None, s4)
  /\ calls s4
     = calls s ++
       [Call_UserRepo_GetByID (UserID cmd);
        Call_ProductRepo_GetByID (ProductID cmd);
        Call_ProductRepo_UpdateStock (Some l)
          (Some (set_Stock (Product_Stock pv - Quantity cmd) pv));
        Call_OrderRepo_Save (Some (new_loc (orders s2)))
          (Some (confirmed_order (UserID cmd) (ProductID cmd)
                                 (Quantity cmd)))].
Proof.
  intros H1 H2 Hu Hui Hp Hpi Hq Hr H3 H4.
  destruct (Save_log _ _ _ _ _ _ _ _ _ H3 H4) as [C _].
  split.
  - rewrite (Handle_reaches_writes h cmd s u l uv pv s1 s2) by done.
    unfold writes. rewrite (bind_Ok _ _ _ _ _ H3). exact H4.
  - rewrite C, (lookups_log _ _ _ _ _ _ H1 H2), <- app_assoc.
    by rewrite (int_sub_exact _ _ Hr), Hui, Hpi.
Qed.

End WriteClaims.

(** ** Handle: quantities that are not positive *)

Section QuantityClaims.
Context {W : Type}.
Variable h : PlaceOrderHandler W.
Implicit Types (s : State W) (l : loc) (cmd : PlaceOrderCommand).

(** C8 (amended). User and product resolved, stock >= 0, quantity <= 0:
    the stock check of [Reserve] passes and [Handle] goes on to its
    writes.  For a quantity < 0 with stock - quantity within [int], the
    stock has grown by the absolute value of the quantity, that stock is
    what [UpdateStock] is called with, and, when [UpdateStock] returns nil,
    [Save] is called with a CONFIRMED order of that negative quantity. *)
Theorem Handle_nonpositive_quantity cmd s u l uv pv s1 s2 :
  UserRepo_GetByID h (UserID cmd) s = (Ok (u, None), s1) ->
  ProductRepo_GetByID h (ProductID cmd) s1 = (Ok (Some l, None), s2) ->
  deref (users s2) u = Some uv ->
  products s2 !! l = Some pv ->
  0 <= Product_Stock pv ->
  Quantity cmd <= 0 ->
  let bw := before_writes l pv uv (Quantity cmd) s2 in
  let o := Some (new_loc (orders s2)) in
  let grown := set_Stock (Product_Stock pv + Z.abs (Quantity cmd)) pv in
  Reserve (Some l) (Quantity cmd) s2
  = (Ok None, reserved l pv (Quantity cmd) s2)
  /\ Handle h cmd s = writes h (Some l) o bw
  /\ (Quantity cmd < 0 ->
      Product_Stock pv - Quantity cmd <= int_max ->
      products bw !! l = Some grown
      /\ calls (exec (ProductRepo_UpdateStock h (Some l)) bw)
         = calls s ++
           [Call_UserRepo_GetByID (UserID cmd);
            Call_ProductRepo_GetByID (ProductID cmd);
            Call_ProductRepo_UpdateStock (Some l) (Some grown)]
      /\ (run (ProductRepo_UpdateStock h (Some l)) bw = Ok None ->
          calls (exec (Handle h cmd) s)
          = calls s ++
            [Call_UserRepo_GetByID (UserID cmd);
             Call_ProductRepo_GetByID (ProductID cmd);
             Call_ProductRepo_UpdateStock (Some l) (Some grown);
             Call_OrderRepo_Save o
               (Some (confirmed_order (User_ID uv) (Product_ID pv)
                                      (Quantity cmd)))])).
Proof.
  intros H1 H2 Hu Hp Hs Hq bw o grown.
  assert (Hle : Quantity cmd <= Product_Stock pv) by lia.
  assert (HW : Handle h cmd s = writes h (Some l) o bw)
    by (by apply Handle_reaches_writes with u s1).
  split; [by apply Reserve_enough|]. split; [done|].
  intros Hneg Hmax.
  assert (Hg : set_Stock (int_sub (Product_Stock pv) (Quantity cmd)) pv
               = grown).
  { unfold grown. rewrite int_sub_exact.
    - f_equal. lia.
    - unfold is_int, int_min. lia. }
  pose proof (lookups_log h _ _ _ _ _ _ H1 H2) as CL.
  unfold exec, run.
  destruct (ProductRepo_UpdateStock h (Some l) bw) as [r s3] eqn:H3.
  destruct (UpdateStock_log h _ _ _ _ _ _ _ H3) as [C3 _].
  split; [|split].
  - unfold bw. by rewrite before_writes_product, Hg.
  - simpl. by rewrite C3, CL, Hg, <- app_assoc.
  - simpl. intros ->. rewrite HW. unfold writes.
    rewrite (bind_Ok _ _ _ _ _ H3).
    destruct (OrderRepo_Save h o s3) as [r' s4] eqn:H4.
    destruct (Save_log h _ _ _ _ _ _ _ _ _ H3 H4) as [C4 _].
    simpl. by rewrite C4, CL, Hg, <- app_assoc.
Qed.

End QuantityClaims.

(** ** Order: creation and confirmation *)

Section OrderClaims.
Context {W : Type}.
Implicit Types (s : State W) (l : loc) (ov : Order).

Lemma set_Status_same ov st :
  Order_Status ov = st -> set_Status st ov = ov.
Proof. destruct ov. simpl. by intros ->. Qed.

Lemma Confirm_confirmed s l ov :
  orders s !! l = Some ov -> Order_Status ov = "CONFIRMED" ->
  Confirm (Some l) s = (Ok tt, s).
Proof.
  intros E C. rewrite (Confirm_Some s l ov E), (set_Status_same _ _ C).
  by rewrite (insert_id _ _ _ E), with_orders_same.
Qed.

Lemma Confirm_times_confirmed n s l ov :
  orders s !! l = Some ov -> Order_Status ov = "CONFIRMED" ->
  Confirm_times n (Some l) s = (Ok tt, s).
Proof.
  intros E C. induction n as [|n IH]; [done|]. simpl.
  by rewrite (bind_Ok _ _ _ _ _ (Confirm_confirmed s l ov E C)).
Qed.

(** C9. On an order that is already CONFIRMED, [Confirm] returns in the
    unchanged state.  On any order, two calls in a row, and any number
    n + 1 of calls in a row, end exactly as one call does. *)
Theorem Confirm_idempotent s l ov :
  orders s !! l = Some ov ->
  (Order_Status ov = "CONFIRMED" -> Confirm (Some l) s = (Ok tt, s))
  /\ (Confirm (Some l);; Confirm (Some l)) s = Confirm (Some l) s
  /\ forall n, Confirm_times (S n) (Some l) s = Confirm (Some l) s.
Proof.
  intros E.
  pose proof (Confirm_Some s l ov E) as C1.
  set (s' := with_orders (<[l := set_Status "CONFIRMED" ov]> (orders s)) s)
    in C1.
  assert (E' : orders s' !! l = Some (set_Status "CONFIRMED" ov))
    by apply lookup_insert_eq.
  split; [by apply Confirm_confirmed|]. split.
  - rewrite (bind_Ok _ _ _ _ _ C1), C1.
    by apply Confirm_confirmed with (set_Status "CONFIRMED" ov).
  - intros n. simpl. rewrite (bind_Ok _ _ _ _ _ C1), C1.
    by apply Confirm_times_confirmed with (set_Status "CONFIRMED" ov).
Qed.

End OrderClaims.

(** ** Every run of the handler *)

Section AllRuns.
Context {W : Type}.
Variable h : PlaceOrderHandler W.
Implicit Types (s : State W) (l : loc) (cmd : PlaceOrderCommand).

(** The log of every run has one of the four shapes. *)
Lemma Handle_log_shape cmd s :
  exists new,
    calls (exec (Handle h cmd) s) = calls s ++ new /\ log_shape cmd new.
Proof.
  unfold exec.
  destruct (UserRepo_GetByID h (UserID cmd) s) as [r1 s1] eqn:H1.
  destruct (UserRepo_GetByID_calls h _ _ _ _ H1) as [C1 _].
  assert (stop1 : forall r, Handle h cmd s = (r, s1) ->
            exists new, calls (Handle h cmd s).2 = calls s ++ new
                        /\ log_shape cmd new).
  { intros r ->. eexists. split; [exact C1|]. left. reflexivity. }
  destruct r1 as [[u [e|]]|].
  { apply (stop1 (Ok (Some user_not_found))). unfold Handle.
    by rewrite (bind_Ok _ _ _ _ _ H1). }
  2:{ apply (stop1 Panic). unfold Handle. by rewrite (bind_Panic _ _ _ _ H1). }
  clear stop1.
  destruct (ProductRepo_GetByID h (ProductID cmd) s1) as [r2 s2] eqn:H2.
  pose proof (lookups_log h _ _ _ _ _ _ H1 H2) as C2.
  assert (stop2 : forall r s', calls s' = calls s2 ->
            Handle h cmd s = (r, s') ->
            exists new, calls (Handle h cmd s).2 = calls s ++ new
                        /\ log_shape cmd new).
  { intros r s' Cs ->. eexists. split; [simpl; rewrite Cs; exact C2|].
    right. left. reflexivity. }
  assert (U : forall B (k : ptr * option error -> M W B),
            (UserRepo_GetByID h (UserID cmd) ≫= k) s = k (u, None) s1)
    by (intros; by apply bind_Ok).
  destruct r2 as [[p [e|]]|].
  { apply (stop2 (Ok (Some product_not_found)) s2 eq_refl). unfold Handle.
    rewrite U. cbn beta iota. by rewrite (bind_Ok _ _ _ _ _ H2). }
  2:{ apply (stop2 Panic s2 eq_refl). unfold Handle.
      rewrite U. cbn beta iota. by rewrite (bind_Panic _ _ _ _ H2). }
  assert (P : forall B (k : ptr * option error -> M W B),
            (ProductRepo_GetByID h (ProductID cmd) ≫= k) s1 = k (p, None) s2)
    by (intros; by apply bind_Ok).
  destruct (deref (products s2) p) as [pv|] eqn:Hp.
  2:{ apply (stop2 Panic s2 eq_refl). unfold Handle.
      rewrite U. cbn beta iota. rewrite P. cbn beta iota.
      by rewrite (bind_Panic _ _ _ _ (Reserve_nil _ _ _ Hp)). }
  destruct p as [l|]; [simpl in Hp|done].
  destruct (Z.lt_ge_cases (Product_Stock pv) (Quantity cmd)) as [Hq|Hq].
  { apply (stop2 (Ok (Some insufficient_stock)) s2 eq_refl). unfold Handle.
    rewrite U. cbn beta iota. rewrite P. cbn beta iota.
    by rewrite (bind_Ok _ _ _ _ _ (Reserve_short _ _ _ _ Hp Hq)). }
  destruct (deref (users s2) u) as [uv|] eqn:Hu.
  2:{ apply (stop2 Panic (reserved l pv (Quantity cmd) s2) eq_refl).
      unfold Handle.
      rewrite U. cbn beta iota. rewrite P. cbn beta iota.
      rewrite (bind_Ok _ _ _ _ _ (Reserve_enough _ _ _ _ Hp Hq)).
      apply bind_Panic. unfold load_User. simpl. by rewrite Hu. }
  clear stop2 U P.
  rewrite (Handle_reaches_writes h cmd s u l uv pv s1 s2) by done.
  unfold writes.
  destruct (ProductRepo_UpdateStock h (Some l)
              (before_writes l pv uv (Quantity cmd) s2)) as [r3 s3] eqn:H3.
  destruct (UpdateStock_log h _ _ _ _ _ _ _ H3) as [C3 _].
  assert (stop3 : forall (r : result (option error)) (a : State W),
            a = s3 ->
            exists new, calls a = calls s ++ new /\ log_shape cmd new).
  { intros _ a ->. eexists. split.
    - rewrite C3, C2, <- app_assoc. reflexivity.
    - right. right. left. eexists _, _. reflexivity. }
  destruct r3 as [[e|]|].
  { rewrite (bind_Ok _ _ _ _ _ H3). by apply (stop3 (Ok (Some e))). }
  2:{ rewrite (bind_Panic _ _ _ _ H3). by apply (stop3 Panic). }
  rewrite (bind_Ok _ _ _ _ _ H3).
  destruct (OrderRepo_Save h (Some (new_loc (orders s2))) s3)
    as [r4 s4] eqn:H4.
  destruct (Save_log h _ _ _ _ _ _ _ _ _ H3 H4) as [C4 _].
  eexists. split.
  - simpl. rewrite C4, C2, <- app_assoc. reflexivity.
  - right. right. right. eexists _, _, _, _, _. reflexivity.
Qed.

End AllRuns.

Section LifecycleClaim.
Context {W : Type}.
Variable h : PlaceOrderHandler W.

(** C6. [NewOrder] puts a PENDING order with identity 0 in a cell that
    was not in use; [Confirm], on an order of any status, sets the status
    to CONFIRMED and nothing else, so the order made by [NewOrder] goes
    from PENDING to CONFIRMED and none goes back; and in every run of
    [Handle], every [Save] in the log shows a CONFIRMED order. *)
Theorem order_lifecycle (cmd : PlaceOrderCommand) (s : State W)
    (uid pid qty : Z) (l : loc) (ov : Order) :
  NewOrder uid pid qty s
  = (Ok (Some (new_loc (orders s))),
     with_new_order (pending_order uid pid qty) s)
  /\ orders s !! new_loc (orders s) = None
  /\ Order_Status (pending_order uid pid qty) = "PENDING"
  /\ Order_ID (pending_order uid pid qty) = 0
  /\ Confirm (Some l) (with_orders (<[l := ov]> (orders s)) s)
     = (Ok tt, with_orders (<[l := set_Status "CONFIRMED" ov]> (orders s)) s)
  /\ (o ← NewOrder uid pid qty; Confirm o;; mret o) s
     = (Ok (Some (new_loc (orders s))),
        with_new_order (confirmed_order uid pid qty) s)
  /\ exists new,
       calls (exec (Handle h cmd) s) = calls s ++ new
       /\ forallb saves_confirmed new = true.
Proof.
  split; [reflexivity|]. split; [apply new_loc_fresh|].
  split; [reflexivity|]. split; [reflexivity|]. split.
  { erewrite Confirm_Some by apply lookup_insert_eq.
    unfold with_orders. simpl. by rewrite insert_insert_eq. }
  split; [apply NewOrder_Confirm|].
  destruct (Handle_log_shape h cmd s) as (new & C & Sh).
  exists new. split; [exact C|].
  destruct Sh as [->|[->|[(p & now & ->)|(p & now & o & u & i & ->)]]];
    reflexivity.
Qed.

End LifecycleClaim.

(** ** The user's Active flag *)

Section Alike.
Context {W : Type}.
Variable u : ptr.
Implicit Types (s : State W) (l : loc).

Lemma alike_bind {A B} (V : A -> A -> Prop) (V' : B -> B -> Prop)
    (m m' : M W A) (k k' : A -> M W B) :
  alike (W:=W) u V m m' ->
  (forall a a', V a a' -> alike (W:=W) u V' (k a) (k' a')) ->
  alike (W:=W) u V' (m ≫= k) (m' ≫= k').
Proof.
  intros Hm Hk s s' Hs. specialize (Hm s s' Hs).
  unfold mbind, M_bind, bind.
  destruct (m s) as [[a|] t], (m' s') as [[a'|] t']; try done.
  destruct Hm as [Va Ht]. by apply Hk.
Qed.

Lemma alike_ret {A} (V : A -> A -> Prop) (a a' : A) :
  V a a' -> alike (W:=W) u V (mret a) (mret a').
Proof. intros Va s s' Hs. done. Qed.

Ltac same_cells :=
  intros [] [] (? & ? & ? & ? & ?); simpl in *; subst.

Lemma alike_log c : alike (W:=W) u eq (log c) (log c).
Proof. same_cells. unfold log. simpl. done. Qed.

Lemma alike_on_products {A B} (f : method W (gmap loc Product) A B) a :
  alike (W:=W) u eq (on_products f a) (on_products f a).
Proof.
  same_cells. unfold on_products. simpl.
  destruct (f a _ _) as [[[b|] hh] ww]; done.
Qed.

Lemma alike_on_orders {A B} (f : method W (gmap loc Order) A B) a :
  alike (W:=W) u eq (on_orders f a) (on_orders f a).
Proof.
  same_cells. unfold on_orders. simpl.
  destruct (f a _ _) as [[[b|] hh] ww]; done.
Qed.

Lemma alike_snapshot_Product p :
  alike (W:=W) u eq (snapshot_Product p) (snapshot_Product p).
Proof. same_cells. unfold snapshot_Product. simpl. done. Qed.

Lemma alike_snapshot_Order o :
  alike (W:=W) u eq (snapshot_Order o) (snapshot_Order o).
Proof. same_cells. unfold snapshot_Order. simpl. done. Qed.

Lemma alike_load_Product p : alike (W:=W) u eq (load_Product p) (load_Product p).
Proof.
  same_cells. unfold load_Product. simpl.
  destruct (deref _ p); done.
Qed.

Lemma alike_store_Product p v :
  alike (W:=W) u eq (store_Product p v) (store_Product p v).
Proof.
  same_cells. unfold store_Product. simpl.
  destruct p as [l|]; [|done]. destruct (decide _); done.
Qed.

Lemma alike_load_Order o : alike (W:=W) u eq (load_Order o) (load_Order o).
Proof.
  same_cells. unfold load_Order. simpl.
  destruct (deref _ o); done.
Qed.

Lemma alike_store_Order o v :
  alike (W:=W) u eq (store_Order o v) (store_Order o v).
Proof.
  same_cells. unfold store_Order. simpl.
  destruct o as [l|]; [|done]. destruct (decide _); done.
Qed.

Lemma alike_alloc_Order v : alike (W:=W) u eq (alloc_Order v) (alloc_Order v).
Proof. same_cells. unfold alloc_Order. simpl. done. Qed.

(** The one read of a user cell: only the [ID] is handed on. *)
Lemma alike_load_User :
  alike (W:=W) u (fun a a' => User_ID a = User_ID a') (load_User u) (load_User u).
Proof.
  intros s s' Hs. pose proof Hs as (_ & _ & _ & _ & E). unfold load_User.
  destruct (deref (users s) u), (deref (users s') u);
    simpl in E; try done.
  split; [by injection E|done].
Qed.

Lemma alike_Reserve p qty : alike (W:=W) u eq (Reserve p qty) (Reserve p qty).
Proof.
  unfold Reserve. eapply alike_bind; [apply alike_load_Product|].
  intros v ? <-. destruct (_ <? _); [by apply alike_ret|].
  eapply alike_bind; [apply alike_store_Product|].
  intros _ _ _. by apply alike_ret.
Qed.

Lemma alike_Confirm o : alike (W:=W) u eq (Confirm o) (Confirm o).
Proof.
  unfold Confirm. eapply alike_bind; [apply alike_load_Order|].
  intros v ? <-. apply alike_store_Order.
Qed.

End Alike.

Section ActiveClaim.
Context {W : Type}.
Implicit Types (s : State W) (cmd : PlaceOrderCommand).

Lemma agree_refl u s : agree u s s.
Proof. by repeat split. Qed.

(** Two handlers with the same product and order repositories, past a
    user lookup that resolved the same pointer in states that agree:
    the two runs end alike. *)
Lemma Handle_alike_after_user (h1 h2 : PlaceOrderHandler W)
    cmd s s' u s1 s1' :
  ProductRepo h1 = ProductRepo h2 -> OrderRepo h1 = OrderRepo h2 ->
  UserRepo_GetByID h1 (UserID cmd) s = (Ok (u, None), s1) ->
  UserRepo_GetByID h2 (UserID cmd) s' = (Ok (u, None), s1') ->
  agree u s1 s1' ->
  (Handle h1 cmd s).1 = (Handle h2 cmd s').1
  /\ agree u (Handle h1 cmd s).2 (Handle h2 cmd s').2.
Proof.
  intros HP HO H1 H2 Hs. unfold Handle.
  rewrite (bind_Ok _ _ _ _ _ H1), (bind_Ok _ _ _ _ _ H2). cbn beta iota.
  unfold ProductRepo_GetByID, ProductRepo_UpdateStock, OrderRepo_Save.
  rewrite HP, HO.
  match goal with
  | |- (?m s1).1 = _ /\ _ => assert (A : alike u eq m m)
  end.
  2:{ specialize (A s1 s1' Hs). revert A.
      match goal with
      | |- context [(?m s1).1] =>
          destruct (m s1) as [[a|] t], (m s1') as [[a'|] t']
      end; simpl; try done. by intros [-> ?]. }
  eapply alike_bind.
  { eapply alike_bind; [apply alike_log|].
    intros _ _ _. apply alike_on_products. }
  intros [p err] ? <-. destruct err; [by apply alike_ret|].
  eapply alike_bind; [apply alike_Reserve|].
  intros err ? <-. destruct err; [by apply alike_ret|].
  eapply alike_bind; [apply alike_load_User|]. intros uv uv' Hid.
  eapply alike_bind; [apply alike_load_Product|]. intros pv ? <-.
  rewrite Hid.
  eapply alike_bind; [apply alike_alloc_Order|]. intros o ? <-.
  eapply alike_bind; [apply alike_Confirm|]. intros _ _ _.
  eapply alike_bind.
  { eapply alike_bind; [apply alike_snapshot_Product|]. intros now ? <-.
    eapply alike_bind; [apply alike_log|].
    intros _ _ _. apply alike_on_products. }
  intros err ? <-. destruct err; [by apply alike_ret|].
  eapply alike_bind; [apply alike_snapshot_Order|]. intros now ? <-.
  eapply alike_bind; [apply alike_log|].
  intros _ _ _. apply alike_on_orders.
Qed.

Lemma UserRepo_GetByID_resolve (h : PlaceOrderHandler W) b id s :
  UserRepo_GetByID (with_UserRepo (resolve_with_Active b (UserRepo h)) h)
                   id s
  = let '(r, U, w) :=
      UserRepository_GetByID (UserRepo h) id (users s) (world s) in
    let s' := with_calls (calls s ++ [Call_UserRepo_GetByID id]) s in
    match r with
    | Ok (Some l, None) =>
        (r, with_world w (with_users (alter (set_Active b) l U) s'))
    | _ => (r, with_world w (with_users U s'))
    end.
Proof.
  unfold UserRepo_GetByID, log, on_users, mbind, M_bind, bind. simpl.
  by destruct (UserRepository_GetByID _ _ _ _) as [[[[[l|] [e|]]|] U] w].
Qed.

(** C10. Let the user repository hand back the resolved user with the
    [Active] flag set to [b1], or to [b2]: the two runs of [Handle]
    return the same result, make the same repository calls with the same
    arguments, and leave the same product cells, order cells and world.
    With the test doubles, an inactive user 1 orders 2 of product 1 with
    stock 10: [Handle] returns nil and the stored stock is 8. *)
Theorem Handle_ignores_Active (h : PlaceOrderHandler W) cmd s (b1 b2 : bool) :
  let h1 := with_UserRepo (resolve_with_Active b1 (UserRepo h)) h in
  let h2 := with_UserRepo (resolve_with_Active b2 (UserRepo h)) h in
  (run (Handle h1 cmd) s = run (Handle h2 cmd) s
   /\ calls (exec (Handle h1 cmd) s) = calls (exec (Handle h2 cmd) s)
   /\ products (exec (Handle h1 cmd) s) = products (exec (Handle h2 cmd) s)
   /\ orders (exec (Handle h1 cmd) s) = orders (exec (Handle h2 cmd) s)
   /\ world (exec (Handle h1 cmd) s) = world (exec (Handle h2 cmd) s))
  /\ (let got := Handle Mock.handler (mkPlaceOrderCommand 1 1 2)
                        (Mock.arrange false 10 None) in
      got.1 = Ok None /\ Mock.stored_stock 1 got.2 = Some 8).
Proof.
  intros h1 h2. split; [|by split].
  pose proof (UserRepo_GetByID_resolve h b1 (UserID cmd) s) as G1.
  pose proof (UserRepo_GetByID_resolve h b2 (UserID cmd) s) as G2.
  fold h1 in G1. fold h2 in G2.
  destruct (UserRepository_GetByID (UserRepo h) (UserID cmd) (users s)
              (world s)) as [[r U] w].
  unfold run, exec.
  assert (via : forall u s1 s1',
            UserRepo_GetByID h1 (UserID cmd) s = (Ok (u, None), s1) ->
            UserRepo_GetByID h2 (UserID cmd) s = (Ok (u, None), s1') ->
            agree u s1 s1' ->
            (Handle h1 cmd s).1 = (Handle h2 cmd s).1
            /\ calls (Handle h1 cmd s).2 = calls (Handle h2 cmd s).2
            /\ products (Handle h1 cmd s).2 = products (Handle h2 cmd s).2
            /\ orders (Handle h1 cmd s).2 = orders (Handle h2 cmd s).2
            /\ world (Handle h1 cmd s).2 = world (Handle h2 cmd s).2).
  { intros u s1 s1' E1 E2 Hs.
    destruct (Handle_alike_after_user h1 h2 cmd s s u s1 s1'
                eq_refl eq_refl E1 E2 Hs) as (R & P & O & Wd & C & _).
    done. }
  destruct r as [[[l|] [e|]]|].
  - (* an error: both runs stop in the same state *)
    unfold Handle.
    rewrite (bind_Ok _ _ _ _ _ G1), (bind_Ok _ _ _ _ _ G2). done.
  - (* a user is resolved *)
    apply (via _ _ _ G1 G2). repeat split. simpl.
    rewrite !lookup_alter_eq. by destruct (U !! l).
  - unfold Handle.
    rewrite (bind_Ok _ _ _ _ _ G1), (bind_Ok _ _ _ _ _ G2). done.
  - (* nil without error *)
    apply (via _ _ _ G1 G2), agree_refl.
  - unfold Handle.
    rewrite (bind_Panic _ _ _ _ G1), (bind_Panic _ _ _ _ G2). done.
Qed.

End ActiveClaim.

(** * The scenarios of the handler's tests *)

(** C4 at the user-not-found test: no user 999. *)
Lemma Handle_user_lookup_fails_witness :
  let s := Mock.arrange true 10 None in
  let cmd := mkPlaceOrderCommand 999 1 2 in
  let s1 := with_calls [Call_UserRepo_GetByID 999] s in
  Handle Mock.handler cmd s = (Ok (Some user_not_found), s1)
  /\ calls s1 = calls s ++ [Call_UserRepo_GetByID (UserID cmd)]
  /\ products s1 = products s
  /\ orders s1 = orders s.
Proof.
  exact (Handle_user_lookup_fails Mock.handler
           (mkPlaceOrderCommand 999 1 2) (Mock.arrange true 10 None)
           None (errors_New "user not found") _ eq_refl).
Defined.

(** C2 at the insufficient-stock test: stock 1, quantity 5. *)
Lemma Handle_insufficient_stock_witness :
  let s := Mock.arrange true 1 None in
  let cmd := mkPlaceOrderCommand 1 1 5 in
  let s2 := with_calls [Call_UserRepo_GetByID 1;
                        Call_ProductRepo_GetByID 1] s in
  Handle Mock.handler cmd s = (Ok (Some insufficient_stock), s2)
  /\ calls s2 = calls s ++ [Call_UserRepo_GetByID 1;
                            Call_ProductRepo_GetByID 1]
  /\ filter is_write (calls (exec (Handle Mock.handler cmd) s))
     = filter is_write (calls s)
  /\ products (exec (Handle Mock.handler cmd) s) !! 1%positive
     = Some (mkProduct 1 "Test Product" 1).
Proof.
  refine (Handle_insufficient_stock Mock.handler
            (mkPlaceOrderCommand 1 1 5) (Mock.arrange true 1 None)
            (Some 1%positive) 1%positive (mkProduct 1 "Test Product" 1)
            _ _ eq_refl eq_refl eq_refl _).
  simpl. lia.
Defined.

(** C5 at the repository-error test: stock 10, quantity 2, the order
    repository fails.  The error comes back, the repository holds stock
    8 and no order. *)
Lemma Handle_save_fails_after_stock_update_witness :
  let s := Mock.arrange true 10 (Some Mock.db_down) in
  let cmd := mkPlaceOrderCommand 1 1 2 in
  let got := Handle Mock.handler cmd s in
  (got.1 = Ok (Some Mock.db_down)
   /\ calls got.2
      = [Call_UserRepo_GetByID 1;
         Call_ProductRepo_GetByID 1;
         Call_ProductRepo_UpdateStock (Some 1%positive)
           (Some (mkProduct 1 "Test Product" 8));
         Call_OrderRepo_Save (Some 1%positive)
           (Some (confirmed_order 1 1 2))])
  /\ Mock.stored_stock 1 got.2 = Some 8
  /\ Mock.stored_orders got.2 = [].
Proof.
  intros s cmd got.
  pose proof (Handle_save_fails_after_stock_update Mock.handler cmd s
                (Some 1%positive) 1%positive
                (mkUser 1 true "test@example.com")
                (mkProduct 1 "Test Product" 10) Mock.db_down
                _ _ _ _ eq_refl eq_refl eq_refl eq_refl
                ltac:(simpl; lia) eq_refl eq_refl) as (E & C & _).
  split; [|by split].
  unfold got. rewrite E. split; [reflexivity|exact C].
Defined.

(** C1 at the success test: stock 10, quantity 2. *)
Lemma Handle_success_witness :
  let s := Mock.arrange true 10 None in
  let cmd := mkPlaceOrderCommand 1 1 2 in
  let got := Handle Mock.handler cmd s in
  (got.1 = Ok None
   /\ calls got.2
      = [Call_UserRepo_GetByID 1;
         Call_ProductRepo_GetByID 1;
         Call_ProductRepo_UpdateStock (Some 1%positive)
           (Some (mkProduct 1 "Test Product" 8));
         Call_OrderRepo_Save (Some 1%positive)
           (Some (confirmed_order 1 1 2))])
  /\ Mock.stored_stock 1 got.2 = Some 8
  /\ Mock.stored_orders got.2
     = [Some (set_Order_ID 1 (confirmed_order 1 1 2))].
Proof.
  intros s cmd got.
  pose proof (Handle_success Mock.handler cmd s
                (Some 1%positive) 1%positive
                (mkUser 1 true "test@example.com")
                (mkProduct 1 "Test Product" 10)
                _ _ _ _ eq_refl eq_refl eq_refl eq_refl eq_refl eq_refl
                ltac:(simpl; lia)
                ltac:(unfold is_int, int_min, int_max; simpl; lia)
                eq_refl eq_refl) as (E & C).
  split; [|by split].
  unfold got. rewrite E. split; [reflexivity|exact C].
Defined.

(** C1, as stated, fails in three ways.  At the repository-error test the
    user and the product exist and 10 >= 2, yet [Handle] returns an
    error.  With an [UpdateStock] that is refused, no order reaches
    [Save].  With stock 10 and quantity -2^63 the stock handed to
    [UpdateStock] is not 10 - (-2^63). *)
Lemma Handle_success_as_stated_fails :
  (let s := Mock.arrange true 10 (Some Mock.db_down) in
   let cmd := mkPlaceOrderCommand 1 1 2 in
   run (UserRepo_GetByID Mock.handler 1) s = Ok (Some 1%positive, None)
   /\ run (ProductRepo_GetByID Mock.handler 1) s
      = Ok (Some 1%positive, None)
   /\ Mock.stored_stock 1 s = Some 10 /\ 2 <= 10
   /\ run (Handle Mock.handler cmd) s = Ok (Some Mock.db_down))
  /\ (let s := Mock.arrange true 10 None in
      let cmd := mkPlaceOrderCommand 1 1 2 in
      let got := Handle Mock.handler_refusing_UpdateStock cmd s in
      got.1 = Ok (Some Mock.db_down)
      /\ filter is_Save (calls got.2) = [])
  /\ (let s := Mock.arrange true 10 None in
      let cmd := mkPlaceOrderCommand 1 1 int_min in
      let got := Handle Mock.handler cmd s in
      Mock.stored_stock 1 s = Some 10 /\ int_min <= 10
      /\ got.1 = Ok None
      /\ filter is_UpdateStock (calls got.2)
         = [Call_ProductRepo_UpdateStock (Some 1%positive)
              (Some (mkProduct 1 "Test Product" (-9223372036854775798)))]
      /\ -9223372036854775798 <> 10 - int_min).
Proof.
  unfold int_min. repeat split; try lia; reflexivity.
Qed.

(** C8 at stock 10 and quantity -3: the order goes through, the stock
    handed to [UpdateStock] and held afterwards is 13. *)
Lemma Handle_nonpositive_quantity_witness :
  let s := Mock.arrange true 10 None in
  let cmd := mkPlaceOrderCommand 1 1 (-3) in
  let got := Handle Mock.handler cmd s in
  calls got.2
  = [Call_UserRepo_GetByID 1;
     Call_ProductRepo_GetByID 1;
     Call_ProductRepo_UpdateStock (Some 1%positive)
       (Some (mkProduct 1 "Test Product" 13));
     Call_OrderRepo_Save (Some 1%positive)
       (Some (confirmed_order 1 1 (-3)))]
  /\ got.1 = Ok None
  /\ Mock.stored_stock 1 got.2 = Some 13.
Proof.
  intros s cmd got.
  pose proof (Handle_nonpositive_quantity Mock.handler cmd s
                (Some 1%positive) 1%positive
                (mkUser 1 true "test@example.com")
                (mkProduct 1 "Test Product" 10)
                _ _ eq_refl eq_refl eq_refl eq_refl
                ltac:(simpl; lia) ltac:(simpl; lia)) as (_ & _ & Neg).
  destruct (Neg ltac:(simpl; lia) ltac:(unfold int_max; simpl; lia))
    as (_ & _ & Saved).
  split; [exact (Saved eq_refl)|by split].
Defined.

(** C8, as stated, fails in two ways.  With stock 10 and quantity -2^63
    the check passes and the order is saved, but the stock handed to
    [UpdateStock] has not grown by 2^63: it is negative.  With stock 10,
    quantity -3 and an [UpdateStock] that is refused, the stock 13 is
    handed to [UpdateStock] but no order reaches [Save]. *)
Lemma Handle_nonpositive_quantity_as_stated_fails :
  (let s := Mock.arrange true 10 None in
   let cmd := mkPlaceOrderCommand 1 1 int_min in
   let got := Handle Mock.handler cmd s in
   Mock.stored_stock 1 s = Some 10 /\ 0 <= 10 /\ int_min < 0
   /\ got.1 = Ok None
   /\ filter is_UpdateStock (calls got.2)
      = [Call_ProductRepo_UpdateStock (Some 1%positive)
           (Some (mkProduct 1 "Test Product" (-9223372036854775798)))]
   /\ -9223372036854775798 <> 10 + Z.abs int_min
   /\ -9223372036854775798 < 10)
  /\ (let s := Mock.arrange true 10 None in
      let cmd := mkPlaceOrderCommand 1 1 (-3) in
      let got := Handle Mock.handler_refusing_UpdateStock cmd s in
      filter is_UpdateStock (calls got.2)
      = [Call_ProductRepo_UpdateStock (Some 1%positive)
           (Some (mkProduct 1 "Test Product" 13))]
      /\ filter is_Save (calls got.2) = []
      /\ Mock.stored_orders got.2 = []).
Proof.
  unfold int_min. repeat split; try lia; reflexivity.
Qed.

(** C9 on the order [NewOrder 1 1 2] makes, pending and confirmed. *)
Lemma Confirm_idempotent_witness :
  let s := with_new_order (pending_order 1 1 2) (Mock.arrange true 10 None) in
  let s' :=
    with_new_order (confirmed_order 1 1 2) (Mock.arrange true 10 None) in
  let o := Some 1%positive in
  Confirm o s' = (Ok tt, s')
  /\ (Confirm o;; Confirm o) s = Confirm o s
  /\ Confirm_times 3 o s = Confirm o s.
Proof.
  intros s s' o.
  destruct (Confirm_idempotent s 1%positive (pending_order 1 1 2) eq_refl)
    as (_ & Twice & Many).
  destruct (Confirm_idempotent s' 1%positive (confirmed_order 1 1 2) eq_refl)
    as (Same & _ & _).
  split; [exact (Same eq_refl)|]. split; [exact Twice|exact (Many 2%nat)].
Defined.

(** * Further properties of the handler *)

Section MorePaths.
Context {W : Type}.
Variable h : PlaceOrderHandler W.
Implicit Types (s : State W) (l : loc) (cmd : PlaceOrderCommand).

(** X1. The product lookup returns an error, whichever it is: [Handle]
    replaces it by "product not found" and stops in the state the lookup
    left.  The two lookups are the only calls made; no order cell and no
    user cell has changed since the user lookup. *)
Theorem Handle_product_lookup_fails cmd s u p e s1 s2 :
  UserRepo_GetByID h (UserID cmd) s = (Ok (u, None), s1) ->
  ProductRepo_GetByID h (ProductID cmd) s1 = (Ok (p, Some e), s2) ->
  Handle h cmd s = (Ok (Some product_not_found), s2)
  /\ calls s2 = calls s ++ [Call_UserRepo_GetByID (UserID cmd);
                            Call_ProductRepo_GetByID (ProductID cmd)]
  /\ users s2 = users s1
  /\ orders s2 = orders s.
Proof.
  intros H1 H2.
  destruct (UserRepo_GetByID_calls h _ _ _ _ H1) as (_ & _ & O1).
  destruct (ProductRepo_GetByID_calls h _ _ _ _ H2) as (_ & U2 & O2).
  repeat split.
  - unfold Handle. rewrite (bind_Ok _ _ _ _ _ H1). cbn beta iota.
    by rewrite (bind_Ok _ _ _ _ _ H2).
  - apply (lookups_log h _ _ _ _ _ _ H1 H2).
  - exact U2.
  - by rewrite O2.
Qed.

(** X2. [UpdateStock] returns an error: [Handle] returns that very error and
    stops in the state [UpdateStock] left.  [Save] is not called, although
    the confirmed order is already in memory, and the stock that was
    handed to [UpdateStock] is the decremented one: the reservation made
    in place is not taken back. *)
Theorem Handle_update_stock_fails cmd s u l uv pv e s1 s2 s3 :
  UserRepo_GetByID h (UserID cmd) s = (Ok (u, None), s1) ->
  ProductRepo_GetByID h (ProductID cmd) s1 = (Ok (Some l, None), s2) ->
  deref (users s2) u = Some uv ->
  products s2 !! l = Some pv ->
  Quantity cmd <= Product_Stock pv ->
  ProductRepo_UpdateStock h (Some l)
    (before_writes l pv uv (Quantity cmd) s2) = (Ok (Some e), s3) ->
  Handle h cmd s = (Ok (Some e), s3)
  /\ calls s3
     = calls s ++
       [Call_UserRepo_GetByID (UserID cmd);
        Call_ProductRepo_GetByID (ProductID cmd);
        Call_ProductRepo_UpdateStock (Some l)
          (Some (set_Stock (int_sub (Product_Stock pv) (Quantity cmd)) pv))]
  /\ orders s3 !! new_loc (orders s2)
     = Some (confirmed_order (User_ID uv) (Product_ID pv) (Quantity cmd)).
Proof.
  intros H1 H2 Hu Hp Hq H3.
  destruct (UpdateStock_log h _ _ _ _ _ _ _ H3) as [C O].
  repeat split; [| |exact O].
  - rewrite (Handle_reaches_writes h cmd s u l uv pv s1 s2) by done.
    unfold writes. by rewrite (bind_Ok _ _ _ _ _ H3).
  - rewrite C, (lookups_log h _ _ _ _ _ _ H1 H2). by rewrite <- app_assoc.
Qed.

(** X3. The user repository returns a nil pointer and no error: [Handle]
    goes on, reserves the stock in place and then panics on [u.ID].  No
    write is attempted, but the product cell is already decremented. *)
Theorem Handle_nil_user_panics cmd s u l pv s1 s2 :
  UserRepo_GetByID h (UserID cmd) s = (Ok (u, None), s1) ->
  ProductRepo_GetByID h (ProductID cmd) s1 = (Ok (Some l, None), s2) ->
  deref (users s2) u = None ->
  products s2 !! l = Some pv ->
  Quantity cmd <= Product_Stock pv ->
  Handle h cmd s = (Panic, reserved l pv (Quantity cmd) s2)
  /\ calls (reserved l pv (Quantity cmd) s2)
     = calls s ++ [Call_UserRepo_GetByID (UserID cmd);
                   Call_ProductRepo_GetByID (ProductID cmd)]
  /\ products (reserved l pv (Quantity cmd) s2) !! l
     = Some (set_Stock (int_sub (Product_Stock pv) (Quantity cmd)) pv).
Proof.
  intros H1 H2 Hu Hp Hq. repeat split.
  - unfold Handle. rewrite (bind_Ok _ _ _ _ _ H1). cbn beta iota.
    rewrite (bind_Ok _ _ _ _ _ H2). cbn beta iota.
    rewrite (bind_Ok _ _ _ _ _ (Reserve_enough _ _ _ _ Hp Hq)).
    apply bind_Panic. unfold load_User. simpl. by rewrite Hu.
  - apply (lookups_log h _ _ _ _ _ _ H1 H2).
  - simpl. apply lookup_insert_eq.
Qed.

(** X4. The product repository returns a nil pointer and no error: [Handle]
    panics inside [Reserve], in the state the lookup left. *)
Theorem Handle_nil_product_panics cmd s u p s1 s2 :
  UserRepo_GetByID h (UserID cmd) s = (Ok (u, None), s1) ->
  ProductRepo_GetByID h (ProductID cmd) s1 = (Ok (p, None), s2) ->
  deref (products s2) p = None ->
  Handle h cmd s = (Panic, s2)
  /\ calls s2 = calls s ++ [Call_UserRepo_GetByID (UserID cmd);
                            Call_ProductRepo_GetByID (ProductID cmd)].
Proof.
  intros H1 H2 Hp. split.
  - unfold Handle. rewrite (bind_Ok _ _ _ _ _ H1). cbn beta iota.
    rewrite (bind_Ok _ _ _ _ _ H2). cbn beta iota.
    by rewrite (bind_Panic _ _ _ _ (Reserve_nil _ _ _ Hp)).
  - apply (lookups_log h _ _ _ _ _ _ H1 H2).
Qed.

(** Every run: the result of [Handle] and what it added to the log. *)
Lemma Handle_outcome cmd s :
  exists new,
    calls (exec (Handle h cmd) s) = calls s ++ new
    /\ outcome cmd (run (Handle h cmd) s) new.
Proof.
  unfold exec, run.
  destruct (UserRepo_GetByID h (UserID cmd) s) as [r1 s1] eqn:H1.
  destruct (UserRepo_GetByID_calls h _ _ _ _ H1) as [C1 _].
  assert (stop1 : forall r, r = Ok (Some user_not_found) \/ r = Panic ->
            Handle h cmd s = (r, s1) ->
            exists new, calls (Handle h cmd s).2 = calls s ++ new
                        /\ outcome cmd (Handle h cmd s).1 new).
  { intros r Hr ->. eexists. split; [exact C1|]. left. by split. }
  destruct r1 as [[u [e|]]|].
  { apply (stop1 (Ok (Some user_not_found))); [by left|]. unfold Handle.
    by rewrite (bind_Ok _ _ _ _ _ H1). }
  2:{ apply (stop1 Panic); [by right|]. unfold Handle.
      by rewrite (bind_Panic _ _ _ _ H1). }
  clear stop1.
  destruct (ProductRepo_GetByID h (ProductID cmd) s1) as [r2 s2] eqn:H2.
  pose proof (lookups_log h _ _ _ _ _ _ H1 H2) as C2.
  assert (stop2 : forall r s',
            r = Ok (Some product_not_found)
            \/ r = Ok (Some insufficient_stock) \/ r = Panic ->
            calls s' = calls s2 ->
            Handle h cmd s = (r, s') ->
            exists new, calls (Handle h cmd s).2 = calls s ++ new
                        /\ outcome cmd (Handle h cmd s).1 new).
  { intros r s' Hr Cs ->. eexists. split; [simpl; rewrite Cs; exact C2|].
    right. left. by split. }
  assert (U : forall B (k : ptr * option error -> M W B),
            (UserRepo_GetByID h (UserID cmd) ≫= k) s = k (u, None) s1)
    by (intros; by apply bind_Ok).
  destruct r2 as [[p [e|]]|].
  { apply (stop2 (Ok (Some product_not_found)) s2); [by left|done|].
    unfold Handle.
    rewrite U. cbn beta iota. by rewrite (bind_Ok _ _ _ _ _ H2). }
  2:{ apply (stop2 Panic s2); [by right; right|done|]. unfold Handle.
      rewrite U. cbn beta iota. by rewrite (bind_Panic _ _ _ _ H2). }
  assert (P : forall B (k : ptr * option error -> M W B),
            (ProductRepo_GetByID h (ProductID cmd) ≫= k) s1 = k (p, None) s2)
    by (intros; by apply bind_Ok).
  destruct (deref (products s2) p) as [pv|] eqn:Hp.
  2:{ apply (stop2 Panic s2); [by right; right|done|]. unfold Handle.
      rewrite U. cbn beta iota. rewrite P. cbn beta iota.
      by rewrite (bind_Panic _ _ _ _ (Reserve_nil _ _ _ Hp)). }
  destruct p as [l|]; [simpl in Hp|done].
  destruct (Z.lt_ge_cases (Product_Stock pv) (Quantity cmd)) as [Hq|Hq].
  { apply (stop2 (Ok (Some insufficient_stock)) s2);
      [by right; left|done|].
    unfold Handle.
    rewrite U. cbn beta iota. rewrite P. cbn beta iota.
    by rewrite (bind_Ok _ _ _ _ _ (Reserve_short _ _ _ _ Hp Hq)). }
  destruct (deref (users s2) u) as [uv|] eqn:Hu.
  2:{ apply (stop2 Panic (reserved l pv (Quantity cmd) s2));
        [by right; right|done|].
      unfold Handle.
      rewrite U. cbn beta iota. rewrite P. cbn beta iota.
      rewrite (bind_Ok _ _ _ _ _ (Reserve_enough _ _ _ _ Hp Hq)).
      apply bind_Panic. unfold load_User. simpl. by rewrite Hu. }
  clear stop2 U P.
  rewrite (Handle_reaches_writes h cmd s u l uv pv s1 s2) by done.
  unfold writes.
  destruct (ProductRepo_UpdateStock h (Some l)
              (before_writes l pv uv (Quantity cmd) s2)) as [r3 s3] eqn:H3.
  destruct (UpdateStock_log h _ _ _ _ _ _ _ H3) as [C3 _].
  assert (stop3 : forall (r : result (option error)) (a : State W),
            r <> Ok None -> a = s3 ->
            exists new, calls a = calls s ++ new /\ outcome cmd r new).
  { intros r a Hr ->. eexists. split.
    - rewrite C3, C2, <- app_assoc. reflexivity.
    - right. right. left. by exists l, pv. }
  destruct r3 as [[e|]|].
  { rewrite (bind_Ok _ _ _ _ _ H3). by apply (stop3 (Ok (Some e))). }
  2:{ rewrite (bind_Panic _ _ _ _ H3). by apply (stop3 Panic). }
  rewrite (bind_Ok _ _ _ _ _ H3).
  destruct (OrderRepo_Save h (Some (new_loc (orders s2))) s3)
    as [r4 s4] eqn:H4.
  destruct (Save_log h _ _ _ _ _ _ _ _ _ H3 H4) as [C4 _].
  eexists. split.
  - simpl. rewrite C4, C2, <- app_assoc. reflexivity.
  - right. right. right. by eexists l, pv, _, _, _.
Qed.


(** X6. An error that [Handle] returns before it has called [UpdateStock] is
    one of its three own: "user not found", "product not found" or the
    "insufficient stock" of [Reserve].  Errors of the lookups are never
    passed on. *)
Theorem Handle_errors_before_writes cmd s e :
  run (Handle h cmd) s = Ok (Some e) ->
  exists new,
    calls (exec (Handle h cmd) s) = calls s ++ new
    /\ (existsb is_UpdateStock new = false ->
        e = user_not_found \/ e = product_not_found
        \/ e = insufficient_stock).
Proof.
  intros R. destruct (Handle_outcome cmd s) as (new & C & O).
  exists new. split; [exact C|]. rewrite R in O.
  destruct O as [(_ & [E|?])|[(_ & [E|[E|?]])|[(l & pv & -> & _)
                |(l & pv & o & uid & pid & -> & _)]]]; try done.
  - injection E as ->. by left.
  - injection E as ->. by right; left.
  - injection E as ->. by right; right.
Qed.

End MorePaths.

(** ** Reservations in a row *)

Section ReserveTwice.
Context {W : Type}.
Implicit Types (s : State W) (l : loc) (pv : Product).

Lemma reserved_reserved s l pv a b :
  reserved l (set_Stock (int_sub (Product_Stock pv) a) pv) b
           (reserved l pv a s)
  = with_products
      (<[l := set_Stock (int_sub (int_sub (Product_Stock pv) a) b) pv]>
         (products s)) s.
Proof.
  unfold reserved, with_products. simpl. by rewrite insert_insert_eq.
Qed.

(** X7. Two reservations of quantities a, b >= 0 on a stock within [int].
    When a + b <= stock they end exactly as one reservation of a + b,
    with stock - a - b left.  When a <= stock < a + b the second is
    refused and the first stays: the pair is not all-or-nothing. *)
Theorem Reserve_twice s l pv a b :
  products s !! l = Some pv ->
  is_int (Product_Stock pv) -> 0 <= a -> 0 <= b ->
  (a + b <= Product_Stock pv ->
   (Reserve (Some l) a;; Reserve (Some l) b) s = Reserve (Some l) (a + b) s
   /\ products (exec (Reserve (Some l) a;; Reserve (Some l) b) s) !! l
      = Some (set_Stock (Product_Stock pv - a - b) pv))
  /\ (a <= Product_Stock pv < a + b ->
      (Reserve (Some l) a;; Reserve (Some l) b) s
      = (Ok (Some insufficient_stock),
         with_products
           (<[l := set_Stock (Product_Stock pv - a) pv]> (products s)) s)).
Proof.
  intros E Hi Ha Hb.
  assert (Sa : a <= Product_Stock pv ->
               int_sub (Product_Stock pv) a = Product_Stock pv - a)
    by (intros; apply int_sub_reserve; [done|lia]).
  assert (E' : forall q, products (reserved l pv q s) !! l
                         = Some (set_Stock (int_sub (Product_Stock pv) q) pv))
    by (intros; apply lookup_insert_eq).
  split.
  - intros Hab.
    assert (Sab : int_sub (int_sub (Product_Stock pv) a) b
                  = int_sub (Product_Stock pv) (a + b)).
    { rewrite Sa by lia. unfold int_sub. f_equal. lia. }
    assert (Run : (Reserve (Some l) a;; Reserve (Some l) b) s
                  = Reserve (Some l) (a + b) s).
    { rewrite (bind_Ok _ _ _ _ _ (Reserve_enough s l pv a E ltac:(lia))).
      rewrite (Reserve_enough _ l _ b (E' a)) by (simpl; rewrite Sa; lia).
      rewrite (Reserve_enough s l pv (a + b) E Hab).
      rewrite reserved_reserved, Sab. done. }
    split; [exact Run|].
    unfold exec. rewrite Run, (Reserve_enough s l pv (a + b) E Hab).
    cbn [snd]. rewrite E'. do 2 f_equal.
    rewrite int_sub_reserve by (done || lia). lia.
  - intros [Hle Hlt].
    rewrite (bind_Ok _ _ _ _ _ (Reserve_enough s l pv a E Hle)).
    rewrite (Reserve_short _ l _ b (E' a)) by (simpl; rewrite Sa; lia).
    unfold reserved. by rewrite Sa.
Qed.

End ReserveTwice.

(** Stock 10: reserving 3 and then 4 is reserving 7; reserving 8 and then
    4 refuses the second and leaves 2. *)
Lemma Reserve_twice_witness :
  let s := Mock.arrange true 10 None in
  let p := Some 1%positive in
  (Reserve p 3;; Reserve p 4) s = Reserve p 7 s
  /\ (Reserve p 8;; Reserve p 4) s
     = (Ok (Some insufficient_stock),
        with_products {[ 1%positive := mkProduct 1 "Test Product" 2 ]} s).
Proof.
  intros s p.
  assert (I : is_int 10) by (unfold is_int, int_min, int_max; lia).
  destruct (Reserve_twice s 1%positive (mkProduct 1 "Test Product" 10) 3 4
              eq_refl I ltac:(lia) ltac:(lia)) as [Fit _].
  destruct (Reserve_twice s 1%positive (mkProduct 1 "Test Product" 10) 8 4
              eq_refl I ltac:(lia) ltac:(lia)) as [_ Short].
  split.
  - exact (proj1 (Fit ltac:(simpl; lia))).
  - exact (Short ltac:(simpl; lia)).
Defined.

(** Stock 10, quantity 4 leaves 6; quantity 11 is refused and leaves 10. *)
Lemma Reserve_keeps_stock_nonneg_witness :
  0 <= Product_Stock (mkProduct 1 "Test Product" 6)
  /\ 0 <= Product_Stock (mkProduct 1 "Test Product" 10).
Proof.
  assert (I : is_int 10) by (unfold is_int, int_min, int_max; lia).
  split.
  - exact (Reserve_keeps_stock_nonneg (Mock.arrange true 10 None) 1%positive
             (mkProduct 1 "Test Product" 10) _ 4
             eq_refl I ltac:(simpl; lia) ltac:(lia) eq_refl).
  - exact (Reserve_keeps_stock_nonneg (Mock.arrange true 10 None) 1%positive
             (mkProduct 1 "Test Product" 10) _ 11
             eq_refl I ltac:(simpl; lia) ltac:(lia) eq_refl).
Defined.

(** ** The further paths on the test doubles *)

(** The product-not-found test: no product 999. *)
Lemma Handle_product_lookup_fails_witness :
  let s := Mock.arrange true 10 None in
  let cmd := mkPlaceOrderCommand 1 999 2 in
  let s2 := with_calls [Call_UserRepo_GetByID 1;
                        Call_ProductRepo_GetByID 999] s in
  Handle Mock.handler cmd s = (Ok (Some product_not_found), s2)
  /\ calls s2 = calls s ++ [Call_UserRepo_GetByID 1;
                            Call_ProductRepo_GetByID 999]
  /\ users s2 = users s
  /\ orders s2 = orders s.
Proof.
  exact (Handle_product_lookup_fails Mock.handler
           (mkPlaceOrderCommand 1 999 2) (Mock.arrange true 10 None)
           (Some 1%positive) None (errors_New "product not found")
           _ _ eq_refl eq_refl).
Defined.

(** Stock 10, quantity 2, [UpdateStock] refused: the error comes back, no
    order is held, and the double's product, reached through its own
    pointer, already shows stock 8. *)
Lemma Handle_update_stock_fails_witness :
  let s := Mock.arrange true 10 None in
  let cmd := mkPlaceOrderCommand 1 1 2 in
  let got := Handle Mock.handler_refusing_UpdateStock cmd s in
  (got.1 = Ok (Some Mock.db_down)
   /\ calls got.2
      = [Call_UserRepo_GetByID 1;
         Call_ProductRepo_GetByID 1;
         Call_ProductRepo_UpdateStock (Some 1%positive)
           (Some (mkProduct 1 "Test Product" 8))])
  /\ Mock.stored_orders got.2 = []
  /\ Mock.stored_stock 1 got.2 = Some 8.
Proof.
  intros s cmd got.
  pose proof (Handle_update_stock_fails Mock.handler_refusing_UpdateStock
                cmd s (Some 1%positive) 1%positive
                (mkUser 1 true "test@example.com")
                (mkProduct 1 "Test Product" 10) Mock.db_down
                _ _ _ eq_refl eq_refl eq_refl eq_refl
                ltac:(simpl; lia) eq_refl) as (E & C & _).
  split; [|by split].
  unfold got. rewrite E. split; [reflexivity|exact C].
Defined.

(** A user map that holds a nil pointer under id 1: the lookup returns
    nil without error and [Handle] panics, with the stock already 8. *)
Lemma Handle_nil_user_panics_witness :
  let s0 := Mock.arrange true 10 None in
  let s :=
    with_world
      (Mock.with_userRepo (Mock.mkMockUserRepository {[ 1 := None ]} None)
                          (world s0)) s0 in
  let cmd := mkPlaceOrderCommand 1 1 2 in
  (Handle Mock.handler cmd s).1 = Panic
  /\ Mock.stored_stock 1 (Handle Mock.handler cmd s).2 = Some 8.
Proof.
  intros s0 s cmd.
  pose proof (Handle_nil_user_panics Mock.handler cmd s None 1%positive
                (mkProduct 1 "Test Product" 10) _ _
                eq_refl eq_refl eq_refl eq_refl ltac:(simpl; lia))
    as (E & _ & _).
  rewrite E. by split.
Defined.

(** A product map that holds a nil pointer under id 1. *)
Lemma Handle_nil_product_panics_witness :
  let s0 := Mock.arrange true 10 None in
  let s :=
    with_world
      (Mock.with_productRepo
         (Mock.mkMockProductRepository {[ 1 := None ]} None) (world s0))
      s0 in
  let cmd := mkPlaceOrderCommand 1 1 2 in
  (Handle Mock.handler cmd s).1 = Panic
  /\ calls (Handle Mock.handler cmd s).2
     = [Call_UserRepo_GetByID 1; Call_ProductRepo_GetByID 1].
Proof.
  intros s0 s cmd.
  pose proof (Handle_nil_product_panics Mock.handler cmd s
                (Some 1%positive) None _ _ eq_refl eq_refl eq_refl)
    as (E & C).
  rewrite E. split; [reflexivity|exact C].
Defined.


(** The insufficient-stock test returns an error without a write. *)
Lemma Handle_errors_before_writes_witness :
  let s := Mock.arrange true 1 None in
  let cmd := mkPlaceOrderCommand 1 1 5 in
  exists new,
    calls (exec (Handle Mock.handler cmd) s) = calls s ++ new
    /\ (existsb is_UpdateStock new = false ->
        insufficient_stock = user_not_found
        \/ insufficient_stock = product_not_found
        \/ insufficient_stock = insufficient_stock).
Proof.
  exact (Handle_errors_before_writes Mock.handler
           (mkPlaceOrderCommand 1 1 5) (Mock.arrange true 1 None)
           insufficient_stock eq_refl).
Defined.

(** * The test doubles *)

Section MockCalls.
Import Mock MockState.
Implicit Types (s : State World) (l : loc).

Lemma with_calls_only s c :
  with_world (world s) (with_users (users s) (with_calls c s))
  = with_calls c s.
Proof. by destruct s. Qed.

(** The lookups of the doubles read the maps only. *)
Lemma Mock_UserRepo_GetByID id s :
  UserRepo_GetByID handler id s
  = (Ok (match mock_users_err (userRepo (world s)) with
         | Some e => (None, Some e)
         | None =>
             match mock_users (userRepo (world s)) !! id with
             | Some user => (user, None)
             | None => (None, Some (errors_New "user not found"))
             end
         end),
     with_calls (calls s ++ [Call_UserRepo_GetByID id]) s).
Proof.
  destruct s as [U P O w c].
  unfold UserRepo_GetByID, log, on_users, mbind, M_bind, bind,
    handler, MockUserRepository_GetByID.
  cbn [UserRepo UserRepository_GetByID users world calls with_calls
       with_users with_world products orders].
  destruct (mock_users_err (userRepo w)); [done|].
  by destruct (mock_users (userRepo w) !! id).
Qed.

Lemma Mock_ProductRepo_GetByID id s :
  ProductRepo_GetByID handler id s
  = (Ok (match mock_products_err (productRepo (world s)) with
         | Some e => (None, Some e)
         | None =>
             match mock_products (productRepo (world s)) !! id with
             | Some product => (product, None)
             | None => (None, Some (errors_New "product not found"))
             end
         end),
     with_calls (calls s ++ [Call_ProductRepo_GetByID id]) s).
Proof.
  destruct s as [U P O w c].
  unfold ProductRepo_GetByID, log, on_products, mbind, M_bind, bind,
    handler, MockProductRepository_GetByID.
  cbn [ProductRepo ProductRepository_GetByID users world calls with_calls
       with_products with_world products orders].
  destruct (mock_products_err (productRepo w)); [done|].
  by destruct (mock_products (productRepo w) !! id).
Qed.

Lemma Mock_ProductRepo_UpdateStock l pv s :
  mock_products_err (productRepo (world s)) = None ->
  products s !! l = Some pv ->
  ProductRepo_UpdateStock handler (Some l) s
  = (Ok None,
     with_world
       (with_productRepo
          (mkMockProductRepository
             (<[Product_ID pv := Some l]>
                (mock_products (productRepo (world s))))
             (mock_products_err (productRepo (world s))))
          (world s))
       (with_calls
          (calls s ++ [Call_ProductRepo_UpdateStock (Some l) (Some pv)]) s)).
Proof.
  destruct s as [U P O w c]. intros He Hl.
  unfold ProductRepo_UpdateStock, snapshot_Product, log, on_products,
    mbind, M_bind, bind, handler, MockProductRepository_UpdateStock,
    store_product_pointer.
  cbn [ProductRepo ProductRepository_UpdateStock users world calls
       with_calls with_products with_world products orders deref] in *.
  by rewrite He, Hl.
Qed.

Lemma Mock_OrderRepo_Save l ov s :
  mock_orders_err (orderRepo (world s)) = None ->
  orders s !! l = Some ov ->
  OrderRepo_Save handler (Some l) s
  = (Ok None,
     with_world
       (with_orderRepo
          (mkMockOrderRepository
             (<[next_order_id s := Some l]>
                (mock_orders (orderRepo (world s))))
             (mock_orders_err (orderRepo (world s))))
          (world s))
       (with_orders
          (<[l := set_Order_ID (next_order_id s) ov]> (orders s))
          (with_calls
             (calls s ++ [Call_OrderRepo_Save (Some l) (Some ov)]) s))).
Proof.
  destruct s as [U P O w c]. intros He Hl.
  unfold OrderRepo_Save, snapshot_Order, log, on_orders,
    mbind, M_bind, bind, handler, MockOrderRepository_Save, next_order_id.
  cbn [OrderRepo OrderRepository_Save users world calls
       with_calls with_orders with_world products orders deref] in *.
  by rewrite He, Hl.
Qed.

(** A placement on doubles that are ready, with enough stock and an
    order repository that is not set to fail. *)
Lemma Mock_Handle_placed cmd lu lp uv pv s :
  ready (UserID cmd) (ProductID cmd) lu lp uv pv s ->
  mock_orders_err (orderRepo (world s)) = None ->
  Quantity cmd <= Product_Stock pv ->
  Handle handler cmd s = (Ok None, placed lp uv pv cmd s).
Proof.
  intros (Eu & Ep & Mu & Hu & Mp & Hp) Eo Hq.
  pose proof (Mock_UserRepo_GetByID (UserID cmd) s) as H1.
  rewrite Eu, Mu in H1.
  set (s1 := with_calls (calls s ++ [Call_UserRepo_GetByID (UserID cmd)]) s)
    in H1.
  pose proof (Mock_ProductRepo_GetByID (ProductID cmd) s1) as H2.
  change (world s1) with (world s) in H2. rewrite Ep, Mp in H2.
  set (s2 := with_calls _ s1) in H2.
  rewrite (Handle_reaches_writes handler cmd s (Some lu) lp uv pv s1 s2
             H1 H2 Hu Hp Hq).
  unfold writes.
  erewrite bind_Ok.
  2:{ apply Mock_ProductRepo_UpdateStock; [exact Ep|].
      apply before_writes_product. }
  cbn beta iota.
  erewrite Mock_OrderRepo_Save; [|exact Eo|apply lookup_insert_eq].
  f_equal. destruct s as [U P O [wu wp wo] c].
  unfold placed, next_order_id, before_writes, with_new_order, reserved,
    with_world, with_orders, with_calls, with_products, with_orderRepo,
    with_productRepo.
  cbn [users products orders world calls userRepo productRepo orderRepo
       Product_ID set_Stock s1 s2 with_calls].
  rewrite insert_insert_eq, <- !app_assoc. reflexivity.
Qed.

End MockCalls.

Section MockPlacement.
Import Mock MockState.
Implicit Types (s : State World) (l : loc) (cmd : PlaceOrderCommand).

Lemma dense_fresh (m : gmap Z ptr) :
  dense m -> m !! (Z.of_nat (size m) + 1) = None.
Proof.
  intros D. destruct (m !! _) eqn:E; [|done].
  assert (I : is_Some (m !! (Z.of_nat (size m) + 1))) by by eexists.
  apply D in I. lia.
Qed.

Lemma dense_insert (m : gmap Z ptr) (p : ptr) :
  dense m -> dense (<[Z.of_nat (size m) + 1 := p]> m).
Proof.
  intros D k.
  rewrite (map_size_insert_None _ _ _ (dense_fresh m D)).
  rewrite lookup_insert. case_decide as Hk.
  - subst k. split; [lia|by eexists].
  - rewrite (D k). lia.
Qed.

Lemma next_order_id_exact s :
  Z.of_nat (size (mock_orders (orderRepo (world s)))) < int_max ->
  next_order_id s = Z.of_nat (size (mock_orders (orderRepo (world s)))) + 1.
Proof.
  intros B. apply wrap_int_id. unfold is_int, int_min, int_max in *. lia.
Qed.

(** After a placement the doubles are ready again, for the same user and
    the same product with its new stock. *)
Lemma ready_placed cmd lu lp uv pv s :
  ready (UserID cmd) (ProductID cmd) lu lp uv pv s ->
  ready (UserID cmd) (ProductID cmd) lu lp uv
        (set_Stock (int_sub (Product_Stock pv) (Quantity cmd)) pv)
        (placed lp uv pv cmd s).
Proof.
  intros (Eu & Ep & Mu & Hu & Mp & Hp). unfold ready, placed.
  cbn [world users products userRepo productRepo mock_products
       mock_products_err].
  repeat split; try done.
  - rewrite lookup_insert. by case_decide.
  - apply lookup_insert_eq.
Qed.

(** X9. The placement of the success test, in general: user and product
    registered, stock >= quantity, no repository set to fail.  [Handle]
    returns nil; a later lookup of the product finds the stock decremented
    by the quantity (Go subtraction); the order is registered under the
    next id, and its cell holds that id and a CONFIRMED order of the
    user's and product's ids; no user cell has changed. *)
Theorem Mock_Handle_success cmd lu lp uv pv s :
  ready (UserID cmd) (ProductID cmd) lu lp uv pv s ->
  mock_orders_err (orderRepo (world s)) = None ->
  Quantity cmd <= Product_Stock pv ->
  let got := Handle handler cmd s in
  let lo := new_loc (orders s) in
  got.1 = Ok None
  /\ stored_stock (ProductID cmd) got.2
     = Some (int_sub (Product_Stock pv) (Quantity cmd))
  /\ MockOrderRepository_GetByID (next_order_id s)
       (orders got.2) (world got.2)
     = (Ok (Some lo, None), orders got.2, world got.2)
  /\ orders got.2 !! lo
     = Some (set_Order_ID (next_order_id s)
               (confirmed_order (User_ID uv) (Product_ID pv) (Quantity cmd)))
  /\ orders s !! lo = None
  /\ users got.2 = users s.
Proof.
  intros R Eo Hq got lo. unfold got.
  rewrite (Mock_Handle_placed cmd lu lp uv pv s R Eo Hq).
  destruct (ready_placed cmd lu lp uv pv s R) as (_ & _ & _ & _ & Mp & Hp).
  cbn [fst snd]. split; [done|]. split.
  { unfold stored_stock, ptr in *. rewrite Mp. simpl.
    by rewrite lookup_insert_eq. }
  split.
  { unfold MockOrderRepository_GetByID, placed.
    cbn [world orderRepo mock_orders mock_orders_err].
    by rewrite Eo, lookup_insert_eq. }
  split; [apply lookup_insert_eq|]. split; [apply new_loc_fresh|done].
Qed.

(** X10. Two placements in a row by the same user on the same product, with
    quantities q1, q2 >= 0 and q1 + q2 <= stock, on doubles whose order
    ids are 1..n: both return nil, the stock found afterwards is
    stock - q1 - q2, and the two orders are registered under n + 1 and
    n + 2, in two different cells. *)
Theorem Mock_Handle_twice uid pid q1 q2 lu lp uv pv s :
  let cmd1 := mkPlaceOrderCommand uid pid q1 in
  let cmd2 := mkPlaceOrderCommand uid pid q2 in
  let n := Z.of_nat (size (mock_orders (orderRepo (world s)))) in
  ready uid pid lu lp uv pv s ->
  mock_orders_err (orderRepo (world s)) = None ->
  dense (mock_orders (orderRepo (world s))) ->
  n + 1 < int_max ->
  is_int (Product_Stock pv) -> 0 <= q1 -> 0 <= q2 ->
  q1 + q2 <= Product_Stock pv ->
  let s1 := exec (Handle handler cmd1) s in
  let s2 := exec (Handle handler cmd2) s1 in
  run (Handle handler cmd1) s = Ok None
  /\ run (Handle handler cmd2) s1 = Ok None
  /\ stored_stock pid s2 = Some (Product_Stock pv - q1 - q2)
  /\ (exists l1 l2,
        l1 <> l2
        /\ mock_orders (orderRepo (world s2)) !! (n + 1) = Some (Some l1)
        /\ mock_orders (orderRepo (world s2)) !! (n + 2) = Some (Some l2)
        /\ orders s2 !! l1
           = Some (set_Order_ID (n + 1)
                     (confirmed_order (User_ID uv) (Product_ID pv) q1))
        /\ orders s2 !! l2
           = Some (set_Order_ID (n + 2)
                     (confirmed_order (User_ID uv) (Product_ID pv) q2)))
  /\ dense (mock_orders (orderRepo (world s2))).
Proof.
  intros cmd1 cmd2 n R Eo D B Hi H1 H2 H12 s1 s2.
  set (pv1 := set_Stock (int_sub (Product_Stock pv) q1) pv).
  assert (S1 : int_sub (Product_Stock pv) q1 = Product_Stock pv - q1)
    by (apply int_sub_reserve; [done|lia]).
  assert (P1 : Handle handler cmd1 s = (Ok None, placed lp uv pv cmd1 s))
    by (apply Mock_Handle_placed with lu; [done|done|simpl; lia]).
  assert (Es1 : s1 = placed lp uv pv cmd1 s) by (unfold s1, exec; by rewrite P1).
  assert (I1 : next_order_id s = n + 1)
    by (apply next_order_id_exact; fold n; lia).
  pose proof (ready_placed cmd1 lu lp uv pv s R) as R1. fold pv1 in R1.
  rewrite <- Es1 in R1.
  assert (M1 : mock_orders (orderRepo (world s1))
               = <[n + 1 := Some (new_loc (orders s))]>
                   (mock_orders (orderRepo (world s)))).
  { rewrite Es1. unfold placed. cbn [world orderRepo mock_orders].
    by rewrite I1. }
  assert (Eo1 : mock_orders_err (orderRepo (world s1)) = None)
    by (rewrite Es1; exact Eo).
  assert (N1 : Z.of_nat (size (mock_orders (orderRepo (world s1)))) = n + 1).
  { rewrite M1. unfold n.
    rewrite (map_size_insert_None _ _ _ (dense_fresh _ D)). lia. }
  assert (I2 : next_order_id s1 = n + 2).
  { rewrite next_order_id_exact; rewrite N1; lia. }
  assert (P2 : Handle handler cmd2 s1 = (Ok None, placed lp uv pv1 cmd2 s1)).
  { apply Mock_Handle_placed with lu; [exact R1|exact Eo1|].
    unfold pv1. simpl. rewrite S1. lia. }
  assert (Es2 : s2 = placed lp uv pv1 cmd2 s1)
    by (unfold s2, exec; by rewrite P2).
  assert (O1 : orders s1
               = <[new_loc (orders s) :=
                     set_Order_ID (n + 1)
                       (confirmed_order (User_ID uv) (Product_ID pv) q1)]>
                   (orders s)).
  { rewrite Es1. unfold placed. cbn [orders]. by rewrite I1. }
  split; [unfold run; by rewrite P1|].
  split; [unfold run; by rewrite P2|].
  pose proof (ready_placed cmd2 lu lp uv pv1 s1 R1)
    as (_ & _ & _ & _ & Mp2 & Hp2).
  rewrite <- Es2 in Mp2, Hp2.
  split.
  { unfold cmd2 in Mp2, Hp2. cbn [ProductID Quantity] in Mp2, Hp2.
    unfold stored_stock, ptr in *. rewrite Mp2. cbn [deref]. rewrite Hp2.
    simpl.
    f_equal. rewrite S1. rewrite int_sub_reserve; [lia| |lia].
    unfold is_int, int_min, int_max in *. lia. }
  assert (M2 : mock_orders (orderRepo (world s2))
               = <[n + 2 := Some (new_loc (orders s1))]>
                   (mock_orders (orderRepo (world s1)))).
  { rewrite Es2. unfold placed. cbn [world orderRepo mock_orders].
    by rewrite I2. }
  assert (O2 : orders s2
               = <[new_loc (orders s1) :=
                     set_Order_ID (n + 2)
                       (confirmed_order (User_ID uv) (Product_ID pv) q2)]>
                   (orders s1)).
  { rewrite Es2. unfold placed. cbn [orders]. by rewrite I2. }
  assert (Ne : new_loc (orders s) <> new_loc (orders s1)).
  { intros E. pose proof (new_loc_fresh (orders s1)) as F.
    rewrite <- E, O1, lookup_insert_eq in F. done. }
  split.
  - exists (new_loc (orders s)), (new_loc (orders s1)).
    split; [exact Ne|]. rewrite M2, M1.
    split; [rewrite lookup_insert_ne by lia; apply lookup_insert_eq|].
    split; [apply lookup_insert_eq|]. rewrite O2.
    split; [|apply lookup_insert_eq].
    rewrite lookup_insert_ne by (by apply not_eq_sym).
    rewrite O1. apply lookup_insert_eq.
  - rewrite M2. replace (n + 2) with
      (Z.of_nat (size (mock_orders (orderRepo (world s1)))) + 1) by lia.
    apply dense_insert. rewrite M1. by apply dense_insert.
Qed.

End MockPlacement.

Section MockFailures.
Import Mock MockState.
Implicit Types (s : State World) (l : loc) (cmd : PlaceOrderCommand).

(** X11. On the doubles, with an order repository that is not set to fail, an
    error returned by [Handle] means that nothing happened: the error is
    one of the three of [Handle] itself, and user cells, product cells,
    order cells and the three maps are what they were. *)
Theorem Mock_Handle_error_changes_nothing cmd s e :
  mock_orders_err (orderRepo (world s)) = None ->
  run (Handle handler cmd) s = Ok (Some e) ->
  let t := exec (Handle handler cmd) s in
  (e = user_not_found \/ e = product_not_found \/ e = insufficient_stock)
  /\ users t = users s /\ products t = products s
  /\ orders t = orders s /\ world t = world s.
Proof.
  intros Eo. unfold run, exec.
  pose proof (Mock_UserRepo_GetByID (UserID cmd) s) as H1.
  set (s1 := with_calls (calls s ++ [Call_UserRepo_GetByID (UserID cmd)]) s)
    in H1.
  pose proof (Mock_ProductRepo_GetByID (ProductID cmd) s1) as H2.
  change (world s1) with (world s) in H2.
  set (s2 := with_calls _ s1) in H2.
  assert (stop : forall r t, Handle handler cmd s = (Ok (Some r), t) ->
            (t = s1 \/ t = s2) ->
            r = user_not_found \/ r = product_not_found
            \/ r = insufficient_stock ->
            (Handle handler cmd s).1 = Ok (Some e) ->
            (e = user_not_found \/ e = product_not_found
             \/ e = insufficient_stock)
            /\ users (Handle handler cmd s).2 = users s
            /\ products (Handle handler cmd s).2 = products s
            /\ orders (Handle handler cmd s).2 = orders s
            /\ world (Handle handler cmd s).2 = world s).
  { intros r t -> Ht Hr [= <-]. split; [exact Hr|].
    by destruct Ht as [->| ->]. }
  assert (U : forall B u err (k : ptr * option error -> M World B),
            UserRepo_GetByID handler (UserID cmd) s = (Ok (u, err), s1) ->
            (UserRepo_GetByID handler (UserID cmd) ≫= k) s = k (u, err) s1)
    by (intros; by apply bind_Ok).
  assert (P : forall B p err (k : ptr * option error -> M World B),
            ProductRepo_GetByID handler (ProductID cmd) s1
            = (Ok (p, err), s2) ->
            (ProductRepo_GetByID handler (ProductID cmd) ≫= k) s1
            = k (p, err) s2)
    by (intros; by apply bind_Ok).
  destruct (mock_users_err (userRepo (world s))) as [eu|] eqn:Eu.
  { apply (stop user_not_found s1); [|by left|by left].
    unfold Handle. by rewrite (U _ _ _ _ H1). }
  destruct (mock_users (userRepo (world s)) !! UserID cmd) as [u|] eqn:Mu.
  2:{ apply (stop user_not_found s1); [|by left|by left].
      unfold Handle. by rewrite (U _ _ _ _ H1). }
  destruct (mock_products_err (productRepo (world s))) as [ep|] eqn:Ep.
  { apply (stop product_not_found s2); [|by right|by right; left].
    unfold Handle. rewrite (U _ _ _ _ H1). cbn beta iota.
    by rewrite (P _ _ _ _ H2). }
  destruct (mock_products (productRepo (world s)) !! ProductID cmd)
    as [p|] eqn:Mp.
  2:{ apply (stop product_not_found s2); [|by right|by right; left].
      unfold Handle. rewrite (U _ _ _ _ H1). cbn beta iota.
      by rewrite (P _ _ _ _ H2). }
  destruct (deref (products s) p) as [pv|] eqn:Hp.
  2:{ intros R. exfalso. revert R. unfold Handle.
      rewrite (U _ _ _ _ H1). cbn beta iota.
      rewrite (P _ _ _ _ H2). cbn beta iota.
      by rewrite (bind_Panic _ _ _ _ (Reserve_nil s2 p _ Hp)). }
  destruct p as [lp|]; [simpl in Hp|done].
  destruct (Z.lt_ge_cases (Product_Stock pv) (Quantity cmd)) as [Hq|Hq].
  { apply (stop insufficient_stock s2); [|by right|by right; right].
    unfold Handle. rewrite (U _ _ _ _ H1). cbn beta iota.
    rewrite (P _ _ _ _ H2). cbn beta iota.
    by rewrite (bind_Ok _ _ _ _ _ (Reserve_short s2 lp pv _ Hp Hq)). }
  destruct (deref (users s) u) as [uv|] eqn:Hu.
  2:{ intros R. exfalso. revert R. unfold Handle.
      rewrite (U _ _ _ _ H1). cbn beta iota.
      rewrite (P _ _ _ _ H2). cbn beta iota.
      rewrite (bind_Ok _ _ _ _ _ (Reserve_enough s2 lp pv _ Hp Hq)).
      erewrite bind_Panic; [done|].
      unfold load_User. cbn [users reserved with_products s2 s1 with_calls].
      by rewrite Hu. }
  destruct u as [lu|]; [simpl in Hu|done].
  rewrite (Mock_Handle_placed cmd lu lp uv pv s); [done| |done|done].
  by repeat split.
Qed.

(** X12. The same placement against a product repository that hands out the
    double's own pointer but refuses [UpdateStock]: [Handle] returns the
    refusal and the three maps are untouched, yet a later lookup of the
    product finds the stock decremented, because [Reserve] wrote through
    the pointer the double holds. *)
Theorem Mock_refused_UpdateStock_takes_stock cmd lu lp uv pv s :
  ready (UserID cmd) (ProductID cmd) lu lp uv pv s ->
  Quantity cmd <= Product_Stock pv ->
  let got := Handle handler_refusing_UpdateStock cmd s in
  got.1 = Ok (Some db_down)
  /\ world got.2 = world s
  /\ stored_stock (ProductID cmd) s = Some (Product_Stock pv)
  /\ stored_stock (ProductID cmd) got.2
     = Some (int_sub (Product_Stock pv) (Quantity cmd)).
Proof.
  intros (Eu & Ep & Mu & Hu & Mp & Hp) Hq got.
  pose proof (Mock_UserRepo_GetByID (UserID cmd) s) as H1.
  rewrite Eu, Mu in H1.
  set (s1 := with_calls (calls s ++ [Call_UserRepo_GetByID (UserID cmd)]) s)
    in H1.
  pose proof (Mock_ProductRepo_GetByID (ProductID cmd) s1) as H2.
  change (world s1) with (world s) in H2. rewrite Ep, Mp in H2.
  set (s2 := with_calls _ s1) in H2.
  assert (E : Handle handler_refusing_UpdateStock cmd s
              = (Ok (Some db_down),
                 with_calls
                   (calls s2 ++
                      [Call_ProductRepo_UpdateStock (Some lp)
                         (Some (set_Stock
                                  (int_sub (Product_Stock pv) (Quantity cmd))
                                  pv))])
                   (before_writes lp pv uv (Quantity cmd) s2))).
  { rewrite (Handle_reaches_writes handler_refusing_UpdateStock cmd s
               (Some lu) lp uv pv s1 s2 H1 H2 Hu Hp Hq).
    unfold writes.
    assert (H3 : ProductRepo_UpdateStock handler_refusing_UpdateStock
                   (Some lp) (before_writes lp pv uv (Quantity cmd) s2)
                 = (Ok (Some db_down),
                    with_calls
                      (calls s2 ++
                         [Call_ProductRepo_UpdateStock (Some lp)
                            (Some (set_Stock
                                     (int_sub (Product_Stock pv)
                                              (Quantity cmd)) pv))])
                      (before_writes lp pv uv (Quantity cmd) s2))).
    { unfold ProductRepo_UpdateStock, snapshot_Product, log, on_products,
        mbind, M_bind, bind, handler_refusing_UpdateStock,
        refuse_UpdateStock.
      cbn [ProductRepo ProductRepository_UpdateStock deref].
      rewrite before_writes_product. by destruct s. }
    by rewrite (bind_Ok _ _ _ _ _ H3). }
  unfold got. rewrite E. cbn [fst snd]. split; [done|]. split; [done|].
  unfold stored_stock, ptr in *.
  cbn [world with_calls before_writes with_new_order with_orders reserved
       with_products products s2 s1].
  rewrite Mp. cbn [deref]. rewrite Hp, lookup_insert_eq. done.
Qed.

End MockFailures.

Section MockRoundTrips.
Import Mock MockState.

(** X13. Saving a user and looking it up under its id gives the same pointer
    back; lookups under other ids answer as before; cells and the other
    two repositories are untouched. *)
Theorem MockUserRepository_Save_GetByID (h : gmap loc User) (w : World)
    (u : ptr) (uv : User) :
  mock_users_err (userRepo w) = None ->
  deref h u = Some uv ->
  exists w',
    MockUserRepository_Save u h w = (Ok None, h, w')
    /\ MockUserRepository_GetByID (User_ID uv) h w' = (Ok (u, None), h, w')
    /\ (forall id, id <> User_ID uv ->
          (MockUserRepository_GetByID id h w').1.1
          = (MockUserRepository_GetByID id h w).1.1)
    /\ productRepo w' = productRepo w /\ orderRepo w' = orderRepo w.
Proof.
  intros Ee Hu. unfold MockUserRepository_Save. rewrite Ee, Hu.
  eexists. split; [reflexivity|].
  unfold MockUserRepository_GetByID.
  cbn [userRepo with_userRepo mock_users mock_users_err productRepo
       orderRepo].
  rewrite ?Ee, lookup_insert_eq. repeat split.
  intros id Hid. rewrite lookup_insert_ne by done.
  by destruct (_ !! id).
Qed.

(** X14. [UpdateStock] of the product double is its [Save]: it registers the
    pointer under the product's id, also for a product that was never
    saved, and a lookup under that id gives the pointer back. *)
Theorem MockProductRepository_UpdateStock_GetByID (h : gmap loc Product)
    (w : World) (p : ptr) (pv : Product) :
  mock_products_err (productRepo w) = None ->
  deref h p = Some pv ->
  exists w',
    MockProductRepository_UpdateStock p h w = (Ok None, h, w')
    /\ MockProductRepository_Save p h w = (Ok None, h, w')
    /\ MockProductRepository_GetByID (Product_ID pv) h w'
       = (Ok (p, None), h, w')
    /\ (forall id, id <> Product_ID pv ->
          (MockProductRepository_GetByID id h w').1.1
          = (MockProductRepository_GetByID id h w).1.1)
    /\ userRepo w' = userRepo w /\ orderRepo w' = orderRepo w.
Proof.
  intros Ee Hp.
  unfold MockProductRepository_UpdateStock, MockProductRepository_Save,
    store_product_pointer.
  rewrite Ee, Hp. eexists. split; [reflexivity|]. split; [reflexivity|].
  unfold MockProductRepository_GetByID.
  cbn [productRepo with_productRepo mock_products mock_products_err
       userRepo orderRepo].
  rewrite ?Ee, lookup_insert_eq. repeat split.
  intros id Hid. rewrite lookup_insert_ne by done.
  by destruct (_ !! id).
Qed.

(** X15. Saving an order in a repository whose ids are 1..n: the order cell
    gets the id n + 1 and keeps its other fields, a lookup under n + 1
    gives the pointer back, the orders under 1..n are still registered
    as before, and the ids are now 1..n + 1. *)
Theorem MockOrderRepository_Save_GetByID (h : gmap loc Order) (w : World)
    (l : loc) (ov : Order) :
  let m := mock_orders (orderRepo w) in
  let n := Z.of_nat (size m) in
  mock_orders_err (orderRepo w) = None ->
  h !! l = Some ov ->
  dense m ->
  n < int_max ->
  exists w',
    MockOrderRepository_Save (Some l) h w
    = (Ok None, <[l := set_Order_ID (n + 1) ov]> h, w')
    /\ MockOrderRepository_GetByID (n + 1)
         (<[l := set_Order_ID (n + 1) ov]> h) w'
       = (Ok (Some l, None), <[l := set_Order_ID (n + 1) ov]> h, w')
    /\ (forall id, 1 <= id <= n ->
          mock_orders (orderRepo w') !! id = m !! id)
    /\ size (mock_orders (orderRepo w')) = S (size m)
    /\ dense (mock_orders (orderRepo w'))
    /\ userRepo w' = userRepo w /\ productRepo w' = productRepo w.
Proof.
  intros m n Ee Hl D B.
  assert (I : wrap_int (n + 1) = n + 1).
  { apply wrap_int_id. unfold is_int, int_min, int_max, n in *. lia. }
  unfold MockOrderRepository_Save. cbn [deref]. rewrite Ee, Hl.
  fold m. fold n. rewrite I.
  eexists. split; [reflexivity|].
  unfold MockOrderRepository_GetByID.
  cbn [orderRepo with_orderRepo mock_orders mock_orders_err userRepo
       productRepo].
  rewrite ?Ee, lookup_insert_eq. split; [reflexivity|].
  split; [intros id Hid; by rewrite lookup_insert_ne by lia|].
  split; [apply map_size_insert_None, (dense_fresh m D)|].
  split; [apply (dense_insert m _ D)|done].
Qed.

End MockRoundTrips.

(** ** Activating a user *)

Section ActivateFacts.
Import Mock.
Implicit Types (s : State World) (l : loc) (cmd : PlaceOrderCommand).

Lemma Activate_Some {W} (s : State W) l (uv : User) :
  users s !! l = Some uv ->
  Activate (Some l) s
  = (Ok tt, with_users (<[l := set_Active true uv]> (users s)) s).
Proof.
  intros E. unfold Activate.
  assert (L : load_User (Some l) s = (Ok uv, s)).
  { unfold load_User. simpl. by rewrite E. }
  rewrite (bind_Ok _ _ _ _ _ L). unfold store_User.
  destruct (decide (is_Some (users s !! l))) as [|N]; [done|].
  destruct N. by exists uv.
Qed.

(** X16. [Activate] sets the flag of that one user cell and keeps its [ID] and
    [Email]; and on the doubles, a placement after [Activate] returns
    what it returns without it, makes the same calls and leaves the same
    product cells, order cells and maps. *)
Theorem Handle_after_Activate cmd s l uv :
  users s !! l = Some uv ->
  let s' := exec (Activate (Some l)) s in
  users s' = <[l := mkUser (User_ID uv) true (User_Email uv)]> (users s)
  /\ run (Handle handler cmd) s' = run (Handle handler cmd) s
  /\ calls (exec (Handle handler cmd) s') = calls (exec (Handle handler cmd) s)
  /\ products (exec (Handle handler cmd) s')
     = products (exec (Handle handler cmd) s)
  /\ orders (exec (Handle handler cmd) s')
     = orders (exec (Handle handler cmd) s)
  /\ world (exec (Handle handler cmd) s')
     = world (exec (Handle handler cmd) s).
Proof.
  intros E s'.
  assert (Es : s' = with_users (<[l := set_Active true uv]> (users s)) s)
    by (unfold s', exec; by rewrite (Activate_Some s l uv E)).
  split; [by rewrite Es|].
  pose proof (Mock_UserRepo_GetByID (UserID cmd) s) as H1.
  pose proof (Mock_UserRepo_GetByID (UserID cmd) s') as H1'.
  replace (world s') with (world s) in H1' by (by rewrite Es).
  replace (calls s') with (calls s) in H1' by (by rewrite Es).
  unfold run, exec.
  destruct (match mock_users_err (userRepo (world s)) with
            | Some e => _ | None => _ end) as [u [e|]].
  - unfold Handle.
    rewrite (bind_Ok _ _ _ _ _ H1), (bind_Ok _ _ _ _ _ H1').
    cbn beta iota. rewrite Es. done.
  - destruct (Handle_alike_after_user handler handler cmd s' s u _ _
                eq_refl eq_refl H1' H1) as (R & P & O & Wd & C & _).
    + rewrite Es. repeat split. cbn [users with_users with_calls].
      destruct u as [lu|]; [|done]. cbn [deref].
      rewrite lookup_insert. case_decide as Hl; [|done].
      subst lu. by rewrite E.
    + done.
Qed.

End ActivateFacts.

(** ** The doubles at the arrangement of the tests *)

Lemma dense_empty : MockState.dense ∅.
Proof.
  intros k. rewrite lookup_empty, map_size_empty. split.
  - by intros [? ?].
  - simpl. lia.
Qed.

Lemma arrange_ready active stock :
  MockState.ready 1 1 1%positive 1%positive
    (mkUser 1 active "test@example.com") (mkProduct 1 "Test Product" stock)
    (Mock.arrange active stock None).
Proof. by repeat split. Qed.

(** The success test: stock 10, quantity 2, order 1 registered. *)
Lemma Mock_Handle_success_witness :
  let s := Mock.arrange true 10 None in
  let got := Handle Mock.handler (mkPlaceOrderCommand 1 1 2) s in
  got.1 = Ok None
  /\ Mock.stored_stock 1 got.2 = Some 8
  /\ Mock.MockOrderRepository_GetByID 1 (orders got.2) (world got.2)
     = (Ok (Some 1%positive, None), orders got.2, world got.2)
  /\ orders got.2 !! 1%positive
     = Some (set_Order_ID 1 (confirmed_order 1 1 2))
  /\ orders s !! 1%positive = None
  /\ users got.2 = users s.
Proof.
  exact (Mock_Handle_success (mkPlaceOrderCommand 1 1 2)
           1%positive 1%positive _ _ _ (arrange_ready true 10) eq_refl
           ltac:(simpl; lia)).
Defined.

(** Stock 10, quantities 2 and 3: stock 5 and orders 1 and 2. *)
Lemma Mock_Handle_twice_witness :
  let s := Mock.arrange true 10 None in
  let s1 := exec (Handle Mock.handler (mkPlaceOrderCommand 1 1 2)) s in
  let s2 := exec (Handle Mock.handler (mkPlaceOrderCommand 1 1 3)) s1 in
  Mock.stored_stock 1 s2 = Some 5
  /\ exists l1 l2,
       l1 <> l2
       /\ Mock.mock_orders (Mock.orderRepo (world s2)) !! 1 = Some (Some l1)
       /\ Mock.mock_orders (Mock.orderRepo (world s2)) !! 2 = Some (Some l2)
       /\ orders s2 !! l1 = Some (set_Order_ID 1 (confirmed_order 1 1 2))
       /\ orders s2 !! l2 = Some (set_Order_ID 2 (confirmed_order 1 1 3)).
Proof.
  intros s s1 s2.
  destruct (Mock_Handle_twice 1 1 2 3 1%positive 1%positive
              (mkUser 1 true "test@example.com")
              (mkProduct 1 "Test Product" 10) s
              (arrange_ready true 10) eq_refl dense_empty
              ltac:(vm_compute; reflexivity)
              ltac:(unfold is_int, int_min, int_max; simpl; lia)
              ltac:(lia) ltac:(lia) ltac:(simpl; lia))
    as (_ & _ & St & Or & _).
  split; [exact St|exact Or].
Defined.

(** The insufficient-stock test: nothing has changed. *)
Lemma Mock_Handle_error_changes_nothing_witness :
  let s := Mock.arrange true 1 None in
  let t := exec (Handle Mock.handler (mkPlaceOrderCommand 1 1 5)) s in
  (insufficient_stock = user_not_found
   \/ insufficient_stock = product_not_found
   \/ insufficient_stock = insufficient_stock)
  /\ users t = users s /\ products t = products s
  /\ orders t = orders s /\ world t = world s.
Proof.
  exact (Mock_Handle_error_changes_nothing (mkPlaceOrderCommand 1 1 5)
           (Mock.arrange true 1 None) insufficient_stock eq_refl eq_refl).
Defined.

(** Stock 10, quantity 2, [UpdateStock] refused: stock 8 all the same. *)
Lemma Mock_refused_UpdateStock_takes_stock_witness :
  let s := Mock.arrange true 10 None in
  let got :=
    Handle Mock.handler_refusing_UpdateStock (mkPlaceOrderCommand 1 1 2) s in
  got.1 = Ok (Some Mock.db_down)
  /\ world got.2 = world s
  /\ Mock.stored_stock 1 s = Some 10
  /\ Mock.stored_stock 1 got.2 = Some 8.
Proof.
  exact (Mock_refused_UpdateStock_takes_stock (mkPlaceOrderCommand 1 1 2)
           1%positive 1%positive _ _ _ (arrange_ready true 10)
           ltac:(simpl; lia)).
Defined.

(** A second user, saved and found again. *)
Lemma MockUserRepository_Save_GetByID_witness :
  let s := Mock.arrange true 10 None in
  let h := <[2%positive := mkUser 2 false "second@example.com"]> (users s) in
  exists w',
    Mock.MockUserRepository_Save (Some 2%positive) h (world s)
    = (Ok None, h, w')
    /\ Mock.MockUserRepository_GetByID 2 h w'
       = (Ok (Some 2%positive, None), h, w')
    /\ Mock.MockUserRepository_GetByID 1 h w'
       = (Ok (Some 1%positive, None), h, w').
Proof.
  intros s h.
  destruct (MockUserRepository_Save_GetByID h (world s) (Some 2%positive)
              (mkUser 2 false "second@example.com") eq_refl eq_refl)
    as (w' & Sv & Get & Other & _).
  exists w'. split; [exact Sv|]. split; [exact Get|].
  injection Sv as <-. reflexivity.
Defined.

(** A product that was never saved, registered by [UpdateStock]. *)
Lemma MockProductRepository_UpdateStock_GetByID_witness :
  let s := Mock.arrange true 10 None in
  let h := <[2%positive := mkProduct 2 "Second" 4]> (products s) in
  Mock.MockProductRepository_GetByID 2 h (world s)
  = (Ok (None, Some (errors_New "product not found")), h, world s)
  /\ exists w',
       Mock.MockProductRepository_UpdateStock (Some 2%positive) h (world s)
       = (Ok None, h, w')
       /\ Mock.MockProductRepository_GetByID 2 h w'
          = (Ok (Some 2%positive, None), h, w').
Proof.
  intros s h. split; [reflexivity|].
  destruct (MockProductRepository_UpdateStock_GetByID h (world s)
              (Some 2%positive) (mkProduct 2 "Second" 4) eq_refl eq_refl)
    as (w' & Up & _ & Get & _).
  exists w'. by split.
Defined.

(** The first order saved in an empty repository gets id 1. *)
Lemma MockOrderRepository_Save_GetByID_witness :
  let s := Mock.arrange true 10 None in
  let h := {[ 1%positive := confirmed_order 1 1 2 ]} in
  let h' := {[ 1%positive := set_Order_ID 1 (confirmed_order 1 1 2) ]} in
  exists w',
    Mock.MockOrderRepository_Save (Some 1%positive) h (world s)
    = (Ok None, h', w')
    /\ Mock.MockOrderRepository_GetByID 1 h' w'
       = (Ok (Some 1%positive, None), h', w')
    /\ MockState.dense (Mock.mock_orders (Mock.orderRepo w')).
Proof.
  intros s h h'.
  destruct (MockOrderRepository_Save_GetByID h (world s) 1%positive
              (confirmed_order 1 1 2) eq_refl eq_refl dense_empty
              ltac:(vm_compute; reflexivity))
    as (w' & Sv & Get & _ & _ & D & _).
  exists w'. split; [exact Sv|]. split; [exact Get|exact D].
Defined.

(** An inactive user 1 is activated; the placement is the same. *)
Lemma Handle_after_Activate_witness :
  let s := Mock.arrange false 10 None in
  let cmd := mkPlaceOrderCommand 1 1 2 in
  let s' := exec (Activate (Some 1%positive)) s in
  users s' = {[ 1%positive := mkUser 1 true "test@example.com" ]}
  /\ run (Handle Mock.handler cmd) s' = run (Handle Mock.handler cmd) s
  /\ world (exec (Handle Mock.handler cmd) s')
     = world (exec (Handle Mock.handler cmd) s).
Proof.
  intros s cmd s'.
  destruct (Handle_after_Activate cmd s 1%positive
              (mkUser 1 false "test@example.com") eq_refl)
    as (U & R & _ & _ & _ & Wd).
  split; [exact U|]. split; [exact R|exact Wd].
Defined.

(** * The database configuration *)

Section ConfigFacts.
Import Config.

Lemma getEnv_nonempty env key d : d <> "" -> getEnv env key d <> "".
Proof.
  intros Hd. unfold getEnv.
  destruct (String.eqb (Getenv env key) "") eqn:E; simpl; [done|].
  by apply String.eqb_neq.
Qed.

(** X17. [getEnv] returns the variable when it is set to a non-empty value; a
    variable set to the empty string counts as not set, and the default
    is returned for both. *)
Theorem getEnv_empty_is_unset (env : gmap string string) (key d v : string) :
  (env !! key = Some v -> v <> "" -> getEnv env key d = v)
  /\ getEnv (<[key := ""]> env) key d = d
  /\ getEnv (delete key env) key d = d.
Proof.
  unfold getEnv, Getenv. split; [|split].
  - intros -> Hv. simpl. apply String.eqb_neq in Hv. by rewrite Hv.
  - by rewrite lookup_insert_eq.
  - by rewrite lookup_delete_eq.
Qed.

(** X18. Whatever the environment, no field of the configuration is empty,
    and so the DSN always names a host, a port, a user, a password, a
    database and an SSL mode. *)
Theorem GetDatabaseConfig_never_empty (env : gmap string string) :
  let c := GetDatabaseConfig env in
  Host c <> "" /\ Port c <> "" /\ User c <> "" /\ Password c <> ""
  /\ DBName c <> "" /\ SSLMode c <> "".
Proof. simpl. repeat split; by apply getEnv_nonempty. Qed.

Lemma split_at_space (a1 a2 r1 r2 : string) :
  no_space a1 = true -> no_space a2 = true ->
  (a1 ++ String " " r1 = a2 ++ String " " r2)%string ->
  a1 = a2 /\ r1 = r2.
Proof.
  revert a2. induction a1 as [|c a1 IH]; intros [|c2 a2] N1 N2 E;
    simpl in *.
  - by injection E.
  - injection E as <- _. by rewrite Ascii.eqb_refl in N2.
  - injection E as -> _. by rewrite Ascii.eqb_refl in N1.
  - injection E as -> E. apply andb_prop in N1 as [_ N1].
    apply andb_prop in N2 as [_ N2].
    destruct (IH a2 N1 N2 E) as [-> ->]. done.
Qed.

Lemma append_inj_l (p a b : string) : (p ++ a = p ++ b)%string -> a = b.
Proof. induction p as [|c p IH]; simpl; [done|]. intros [= E]. by apply IH. Qed.

(** X19. [BuildDSN] does not quote its values.  Two different configurations
    can give the same DSN; but configurations whose host, port, user,
    password and database name hold no space are told apart by their
    DSN. *)
Theorem BuildDSN_injective_without_spaces :
  (exists c1 c2, c1 <> c2 /\ BuildDSN c1 = BuildDSN c2)
  /\ forall c1 c2,
       no_space (Host c1) = true -> no_space (Host c2) = true ->
       no_space (Port c1) = true -> no_space (Port c2) = true ->
       no_space (User c1) = true -> no_space (User c2) = true ->
       no_space (Password c1) = true -> no_space (Password c2) = true ->
       no_space (DBName c1) = true -> no_space (DBName c2) = true ->
       BuildDSN c1 = BuildDSN c2 -> c1 = c2.
Proof.
  split.
  - exists (mkDatabaseConfig "h port=1" "2" "u" "p" "d" "s"),
           (mkDatabaseConfig "h" "1 port=2" "u" "p" "d" "s").
    split; [discriminate|reflexivity].
  - intros [h1 p1 u1 w1 d1 m1] [h2 p2 u2 w2 d2 m2]. unfold BuildDSN.
    cbn [Host Port User Password DBName SSLMode].
    intros Nh1 Nh2 Np1 Np2 Nu1 Nu2 Nw1 Nw2 Nd1 Nd2 E.
    apply (append_inj_l "host=") in E.
    apply (split_at_space h1 h2) in E as [-> E]; [|done|done].
    apply (append_inj_l "port=") in E.
    apply (split_at_space p1 p2) in E as [-> E]; [|done|done].
    apply (append_inj_l "user=") in E.
    apply (split_at_space u1 u2) in E as [-> E]; [|done|done].
    apply (append_inj_l "password=") in E.
    apply (split_at_space w1 w2) in E as [-> E]; [|done|done].
    apply (append_inj_l "dbname=") in E.
    apply (split_at_space d1 d2) in E as [-> E]; [|done|done].
    apply (append_inj_l "sslmode=") in E. by subst.
Qed.

End ConfigFacts.

(** * The query builder *)

Section SnakeCase.
Import Query.

Lemma is_upper_code c :
  is_upper c = true <-> 65 <= Z.of_N (N_of_ascii c) <= 90.
Proof. unfold is_upper. rewrite andb_true_iff, !Z.leb_le. done. Qed.

Lemma lower_ascii_code c :
  Z.of_N (N_of_ascii (lower_ascii c))
  = if is_upper c then Z.of_N (N_of_ascii c) + 32 else Z.of_N (N_of_ascii c).
Proof.
  unfold lower_ascii. destruct (is_upper c) eqn:U; [|done].
  apply is_upper_code in U. rewrite N_ascii_embedding; lia.
Qed.

Lemma lower_ascii_not_upper c : is_upper (lower_ascii c) = false.
Proof.
  destruct (is_upper (lower_ascii c)) eqn:U; [|done].
  apply is_upper_code in U. rewrite lower_ascii_code in U.
  destruct (is_upper c) eqn:U'.
  - apply is_upper_code in U'. lia.
  - assert (is_upper c = true) by (by apply is_upper_code). congruence.
Qed.

Lemma lower_bytes_no_upper s : count_upper (lower_bytes s) = 0%nat.
Proof.
  induction s as [|c s IH]; [done|]. simpl.
  by rewrite lower_ascii_not_upper, IH.
Qed.

Lemma lower_bytes_ascii_only s :
  ascii_only s = true -> ascii_only (lower_bytes s) = true.
Proof.
  induction s as [|c s IH]; [done|]. simpl.
  intros [Hc Hs]%andb_prop. rewrite (IH Hs), andb_true_r.
  apply Z.ltb_lt in Hc. apply Z.ltb_lt. rewrite lower_ascii_code.
  destruct (is_upper c) eqn:U; [|done].
  apply is_upper_code in U. lia.
Qed.

Lemma lower_bytes_length s : String.length (lower_bytes s) = String.length s.
Proof. induction s as [|c s IH]; [done|]. simpl. by rewrite IH. Qed.

Lemma lower_bytes_same s : count_upper s = 0%nat -> lower_bytes s = s.
Proof.
  induction s as [|c s IH]; [done|]. simpl. unfold lower_ascii.
  destruct (is_upper c); [done|]. simpl. intros E. by rewrite IH.
Qed.

Lemma underscores_same b s : count_upper s = 0%nat -> underscores b s = s.
Proof.
  revert b. induction s as [|c s IH]; intros b; [done|]. simpl.
  destruct (is_upper c); [done|]. simpl. intros E.
  rewrite andb_false_r. by rewrite IH.
Qed.

Lemma underscores_ascii_only b s :
  ascii_only s = true -> ascii_only (underscores b s) = true.
Proof.
  revert b. induction s as [|c s IH]; intros b; [done|]. simpl.
  intros [Hc Hs]%andb_prop.
  destruct (negb b && is_upper c); simpl; by rewrite Hc, (IH _ Hs).
Qed.

Lemma underscores_length s :
  String.length (underscores false s)
  = (String.length s + count_upper s)%nat.
Proof.
  induction s as [|c s IH]; [done|]. simpl.
  destruct (is_upper c); simpl; rewrite IH; lia.
Qed.

(** For what follows [strings.ToLower] is only asked to lower the bytes
    'A'..'Z' of a string of ASCII characters and to keep the others. *)
Variable ToLower : string -> string.
Hypothesis ToLower_ascii :
  forall s, ascii_only s = true -> ToLower s = lower_bytes s.

(** X20. [toSnakeCase] on a name of ASCII characters: every capital after the
    first position gets an underscore of its own, also inside an acronym,
    so the result is longer by the number of those capitals; no capital
    is left; and converting again changes nothing. *)
Theorem toSnakeCase_ascii (str : string) :
  ascii_only str = true ->
  toSnakeCase ToLower str = lower_bytes (underscores true str)
  /\ String.length (toSnakeCase ToLower str)
     = (String.length str
        + match str with
          | EmptyString => 0
          | String _ r => count_upper r
          end)%nat
  /\ count_upper (toSnakeCase ToLower str) = 0%nat
  /\ toSnakeCase ToLower (toSnakeCase ToLower str) = toSnakeCase ToLower str.
Proof.
  intros A. unfold toSnakeCase.
  pose proof (underscores_ascii_only true str A) as A1.
  rewrite (ToLower_ascii _ A1).
  split; [done|]. split; [|split].
  - rewrite lower_bytes_length. destruct str as [|c r]; [done|].
    simpl. by rewrite underscores_length.
  - apply lower_bytes_no_upper.
  - pose proof (lower_bytes_no_upper (underscores true str)) as N.
    rewrite (underscores_same _ _ N).
    rewrite (ToLower_ascii _ (lower_bytes_ascii_only _ A1)).
    by apply lower_bytes_same.
Qed.

End SnakeCase.

(** Field names of the filter structs: "MinStock", and "UserIDs" with
    its acronym. *)
Lemma toSnakeCase_ascii_witness :
  Query.toSnakeCase Query.lower_bytes "MinStock" = "min_stock"
  /\ Query.toSnakeCase Query.lower_bytes "UserIDs" = "user_i_ds"
  /\ String.length (Query.toSnakeCase Query.lower_bytes "UserIDs") = 9%nat.
Proof.
  destruct (toSnakeCase_ascii Query.lower_bytes (fun s _ => eq_refl)
              "MinStock" eq_refl) as (E1 & _).
  destruct (toSnakeCase_ascii Query.lower_bytes (fun s _ => eq_refl)
              "UserIDs" eq_refl) as (E2 & L2 & _).
  split; [exact E1|]. split; [exact E2|exact L2].
Defined.

Section Tags.
Import Query.

Lemma Split_comma_no_comma a : no_comma a = true -> Split_comma a = [a].
Proof.
  induction a as [|c a IH]; [done|]. simpl.
  intros [Hc Ha]%andb_prop. apply negb_true_iff in Hc. rewrite Hc.
  by rewrite (IH Ha).
Qed.

Lemma Split_comma_app a b :
  no_comma a = true ->
  Split_comma (a ++ String "," b) = a :: Split_comma b.
Proof.
  induction a as [|c a IH]; [done|]. simpl.
  intros [Hc Ha]%andb_prop. apply negb_true_iff in Hc. rewrite Hc.
  by rewrite (IH Ha).
Qed.

Variables ToLower TrimSpace : string -> string.
Context {Float Other : Type}.
Variable float_is_zero : Float -> bool.
Variable deep_equal_zero : Other -> bool.

Local Abbreviation field_filter :=
  (Query.field_filter ToLower TrimSpace float_is_zero deep_equal_zero).
Local Abbreviation ApplyFilters :=
  (Query.ApplyFilters ToLower TrimSpace float_is_zero deep_equal_zero).
Local Abbreviation selected :=
  (Query.selected float_is_zero deep_equal_zero).

Lemma field_filter_unselected (f : StructField) :
  selected f = false -> field_filter f = None.
Proof.
  unfold Query.field_filter, Query.selected.
  destruct (CanInterface f); [|done]. simpl.
  by destruct (isZeroValue _ _ (FieldValue f)).
Qed.

Lemma field_filter_selected (f : StructField) :
  selected f = true ->
  exists col op,
    field_filter f = Some (mkFilterField col op (Some (FieldValue f))).
Proof.
  unfold Query.field_filter, Query.selected.
  destruct (CanInterface f); [|done]. simpl.
  destruct (isZeroValue _ _ (FieldValue f)); [done|]. simpl.
  intros _. by eexists _, _.
Qed.

(** X21. The tag format: an exported field with a value that is not zero
    becomes a filter on that value.  Without a tag the column is the
    snake-case field name and the operator "="; a tag without comma is
    the column, with "="; in a tag "column,operator" the operator is
    trimmed, the column is not, and anything after a second comma is
    ignored. *)
Theorem field_filter_tag (f : StructField) (col op rest : string) :
  selected f = true ->
  no_comma col = true -> no_comma op = true ->
  (FilterTag f = "" -> no_comma (toSnakeCase ToLower (FieldName f)) = true ->
   field_filter f
   = Some (mkFilterField (toSnakeCase ToLower (FieldName f)) OperatorEquals
                         (Some (FieldValue f))))
  /\ (FilterTag f = col -> col <> "" ->
      field_filter f
      = Some (mkFilterField col OperatorEquals (Some (FieldValue f))))
  /\ (FilterTag f = (col ++ "," ++ op)%string ->
      field_filter f
      = Some (mkFilterField col (TrimSpace op) (Some (FieldValue f))))
  /\ (FilterTag f = (col ++ "," ++ op ++ "," ++ rest)%string ->
      field_filter f
      = Some (mkFilterField col (TrimSpace op) (Some (FieldValue f)))).
Proof.
  unfold Query.selected, Query.field_filter.
  intros [Hc Hz]%andb_prop Ncol Nop. rewrite Hc, Hz. simpl.
  assert (Ne : forall t : string, String.eqb (col ++ String "," t) "" = false).
  { intros t. by destruct col. }
  split; [|split; [|split]].
  - intros -> Hn. simpl. by rewrite (Split_comma_no_comma _ Hn).
  - intros -> Hne. apply String.eqb_neq in Hne. rewrite Hne.
    by rewrite (Split_comma_no_comma _ Ncol).
  - intros ->. change ("," ++ op)%string with (String "," op).
    rewrite Ne, (Split_comma_app _ _ Ncol).
    by rewrite (Split_comma_no_comma _ Nop).
  - intros ->.
    change ("," ++ op ++ "," ++ rest)%string
      with (String "," (op ++ String "," rest)).
    rewrite Ne, (Split_comma_app _ _ Ncol).
    by rewrite (Split_comma_app _ _ Nop).
Qed.

Lemma omap_field_filter (fs : list StructField) :
  map FilterValue (omap field_filter fs)
  = map (fun f => Some (FieldValue f)) (List.filter selected fs).
Proof.
  induction fs as [|f fs IH]; [done|]. simpl.
  destruct (selected f) eqn:S.
  - destruct (field_filter_selected f S) as (col & op & ->). simpl.
    f_equal. exact IH.
  - rewrite (field_filter_unselected f S). exact IH.
Qed.

Lemma with_filters_same (qb : QueryBuilder (Float:=Float) (Other:=Other)) :
  with_filters (filters qb ++ []) qb = qb.
Proof. destruct qb. unfold with_filters. simpl. by rewrite app_nil_r. Qed.

(** X22. [ApplyFilters] keeps the filters the builder has and appends one per
    exported field whose value is not zero, in field order and with that
    value; a pointer to the struct does the same; nil, other pointers and
    other kinds change nothing; and a struct whose exported fields are all
    zero, such as a minimum stock of 0, adds no filter at all. *)
Theorem ApplyFilters_selected (fs : list StructField) (qb : QueryBuilder) :
  let qb' := ApplyFilters (Struct fs) qb in
  map FilterValue (filters qb')
  = map FilterValue (filters qb)
    ++ map (fun f => Some (FieldValue f)) (List.filter selected fs)
  /\ firstn (length (filters qb)) (filters qb') = filters qb
  /\ ApplyFilters (PtrToStruct fs) qb = qb'
  /\ ApplyFilters NilInterface qb = qb
  /\ ApplyFilters PtrToOther qb = qb
  /\ ApplyFilters NotAStruct qb = qb
  /\ (forallb (fun f => negb (selected f)) fs = true -> qb' = qb).
Proof.
  simpl. unfold apply_fields. cbn [filters with_filters].
  split; [by rewrite map_app, omap_field_filter|].
  split.
  { rewrite firstn_app, Nat.sub_diag, firstn_all. simpl.
    by rewrite app_nil_r. }
  do 4 (split; [done|]).
  intros Z.
  assert (E : omap field_filter fs = []).
  { induction fs as [|f fs IH]; [done|]. simpl in *.
    apply andb_prop in Z as [Zf Zs]. apply negb_true_iff in Zf.
    rewrite (field_filter_unselected f Zf). by apply IH. }
  rewrite E. apply with_filters_same.
Qed.

End Tags.

Section BuildFacts.
Import Query.
Context {Float Other : Type}.
Implicit Types (qb : QueryBuilder (Float:=Float) (Other:=Other))
  (q : DB (Float:=Float) (Other:=Other))
  (f : FilterField (Float:=Float) (Other:=Other)).

(** What [applyFilter] adds does not depend on the query so far. *)
Lemma applyFilter_app q f :
  applyFilter q f
  = match applyFilter [] f with
    | Ok w => Ok (q ++ w)
    | Panic => Panic
    end.
Proof.
  unfold applyFilter, like.
  repeat (destruct (String.eqb _ _); [by destruct (assert_string _)|]);
    repeat (destruct (String.eqb _ _); [done|]); done.
Qed.

Lemma applyFilter_one f w :
  applyFilter [] f = Ok w -> exists sql args, w = [Where sql args].
Proof.
  unfold applyFilter, like.
  repeat (destruct (String.eqb _ _);
          [destruct (assert_string _); [|done]; intros [= <-];
           by eexists _, _|]);
    repeat (destruct (String.eqb _ _); [intros [= <-]; by eexists _, _|]).
  intros [= <-]. by eexists _, _.
Qed.


Lemma apply_filters_Ok q fs q' :
  apply_filters q fs = Ok q'
  <-> exists ws,
        Forall2 (fun f w => applyFilter [] f = Ok [w]) fs ws
        /\ q' = q ++ ws.
Proof.
  revert q. induction fs as [|f fs IH]; intros q; simpl.
  - split.
    + intros [= <-]. exists []. split; [constructor|by rewrite app_nil_r].
    + intros (ws & F & ->). inversion F. by rewrite app_nil_r.
  - rewrite (applyFilter_app q f).
    destruct (applyFilter [] f) as [w|] eqn:E.
    + destruct (applyFilter_one f w E) as (sql & args & ->).
      rewrite IH. split.
      * intros (ws & F & ->). exists (Where sql args :: ws).
        split; [by constructor|by rewrite <- app_assoc].
      * intros (ws & F & ->). inversion F as [|? w' ? ws' Hw F']; subst.
        rewrite E in Hw. injection Hw as <-. exists ws'. split; [done|].
        by rewrite <- app_assoc.
    + split; [done|]. intros (ws & F & _).
      inversion F as [|? w' ? ws' Hw F']; subst. by rewrite E in Hw.
Qed.


Lemma fold_apply_sort (ss : list SortConfig) q :
  fold_left apply_sort ss q = q ++ map order_call ss.
Proof.
  revert q. induction ss as [|s ss IH]; intros q; simpl.
  - by rewrite app_nil_r.
  - rewrite IH. unfold apply_sort, order_call. by rewrite <- app_assoc.
Qed.

Lemma fold_apply_preload (ps : list PreloadConfig) q :
  Forall (fun p => CustomPreload p = None) ps ->
  fold_left apply_preload ps q = q ++ map preload_call ps.
Proof.
  intros F. revert q. induction F as [|p ps Hp F IH]; intros q; simpl.
  - by rewrite app_nil_r.
  - rewrite IH. unfold apply_preload, preload_call. rewrite Hp.
    destruct (Conditions p); by rewrite <- app_assoc.
Qed.


(** X24. Without custom preloads, the calls [Build] adds to the query come in
    one order whatever the order of the builder calls: DISTINCT, one
    WHERE per filter in the order the filters were added, the preloads,
    GROUP BY, HAVING, the ORDER BY clauses, and OFFSET with LIMIT. *)
Theorem Build_clause_order qb q :
  Forall (fun p => CustomPreload p = None) (preloads qb) ->
  Build qb = Ok q ->
  exists ws,
    Forall2 (fun f w => applyFilter [] f = Ok [w]) (filters qb) ws
    /\ q = db qb ++ distinct_part qb ++ ws
           ++ map preload_call (preloads qb)
           ++ group_part qb ++ having_part qb
           ++ map order_call (sorts qb) ++ pagination_part qb.
Proof.
  intros NoCustom. unfold Build.
  destruct (apply_filters _ (filters qb)) as [q1|] eqn:E; [|done].
  apply apply_filters_Ok in E as (ws & F & ->).
  rewrite (fold_apply_preload _ _ NoCustom), fold_apply_sort.
  intros [= <-]. exists ws. split; [exact F|].
  unfold distinct_part, group_part, having_part, pagination_part.
  destruct (distinct qb), (groupBy qb), (having qb), (pagination qb);
    simpl; rewrite <- ?app_assoc, ?app_nil_r; simpl;
    rewrite <- ?app_assoc; done.
Qed.

(** X25. With a pagination set, the query [Build] returns ends in OFFSET and
    LIMIT, the limit being the page size and the offset
    (page - 1) * pageSize in [int] arithmetic.  The page is not checked:
    page 1 gives offset 0, and page 0 a negative offset. *)
Theorem Build_pagination qb q page pageSize :
  pagination qb = Some (mkPaginationConfig page pageSize) ->
  Build qb = Ok q ->
  (exists q0,
     q = q0 ++ [Offset (int_mul (int_sub page 1) pageSize); Limit pageSize])
  /\ (is_int (page - 1) -> is_int ((page - 1) * pageSize) ->
      int_mul (int_sub page 1) pageSize = (page - 1) * pageSize).
Proof.
  intros Pg. unfold Build. rewrite Pg.
  destruct (apply_filters _ (filters qb)) as [q1|]; [|done].
  intros [= <-]. split; [by eexists|].
  intros I1 I2. unfold int_mul. rewrite (int_sub_exact _ _ I1).
  by apply wrap_int_id.
Qed.

(** X26. A date range built by [FilterByDateRange] and added to a new builder:
    [Build] adds "column >= ?" for the lower bound and then
    "column <= ?" for the upper bound, each only when the bound is not
    nil, and nothing when both are nil. *)
Theorem FilterByDateRange_Build (d : DB (Float:=Float) (Other:=Other))
    (columnName : string) (from to : any) :
  Build (AddFilters (FilterByDateRange columnName from to)
                    (NewQueryBuilder d))
  = Ok (d
        ++ match from with
           | Some _ => [Where (columnName ++ " >= ?")%string [from]]
           | None => []
           end
        ++ match to with
           | Some _ => [Where (columnName ++ " <= ?")%string [to]]
           | None => []
           end).
Proof.
  destruct from as [a|], to as [b|]; unfold Build; simpl;
    rewrite <- ?app_assoc, ?app_nil_r; reflexivity.
Qed.

(** X28. One filter on a new builder.  CONTAINS, STARTS_WITH and ENDS_WITH
    on a [string] become "column LIKE ?" with the value put as it is, not
    escaped, between, before or after "%"; [SearchByName] is CONTAINS on
    the column "name".  An operator that is none of the seven special
    ones is not checked: it is spliced into "column operator ?" as it
    is. *)
Theorem Build_single_filter (d : DB (Float:=Float) (Other:=Other))
    (col : string) (op : Operator) (s : string) (v : any) :
  let build1 o x := Build (AddFilter col o x (NewQueryBuilder d)) in
  let like_ p := Ok (d ++ [Where (col ++ " LIKE ?")%string
                                 [Some (VString true p)]]) in
  build1 OperatorContains (Some (VString true s))
  = like_ ("%" ++ s ++ "%")%string
  /\ build1 OperatorStartsWith (Some (VString true s))
     = like_ (s ++ "%")%string
  /\ build1 OperatorEndsWith (Some (VString true s))
     = like_ ("%" ++ s)%string
  /\ Build (AddFilters [SearchByName s] (NewQueryBuilder d))
     = Ok (d ++ [Where "name LIKE ?"
                       [Some (VString true ("%" ++ s ++ "%")%string)]])
  /\ (is_like op = false ->
      op <> OperatorIn -> op <> OperatorNotIn ->
      op <> OperatorIsNull -> op <> OperatorIsNotNull ->
      build1 op v = Ok (d ++ [Where (col ++ " " ++ op ++ " ?")%string [v]])).
Proof.
  simpl. do 4 (split; [reflexivity|]).
  unfold is_like. intros L N1 N2 N3 N4.
  apply orb_false_elim in L as [L E3]. apply orb_false_elim in L as [E1 E2].
  apply String.eqb_neq in N1, N2, N3, N4.
  unfold Build. simpl. unfold applyFilter. simpl.
  by rewrite E1, E2, E3, N1, N2, N3, N4.
Qed.

End BuildFacts.

Section Pagination.
Import Query.

Lemma wrap_int_add_l x y : wrap_int (wrap_int x + y) = wrap_int (x + y).
Proof.
  unfold wrap_int.
  replace ((x + 2 ^ 63) mod 2 ^ 64 - 2 ^ 63 + y + 2 ^ 63)
    with ((x + 2 ^ 63) mod 2 ^ 64 + y) by lia.
  rewrite Zplus_mod_idemp_l. do 2 f_equal. lia.
Qed.

(** X27. [FindWithPagination]: an error of the count is returned before
    anything else; with a count and page size 0 the division panics,
    before the rows are fetched; and for a total >= 0 and a page size > 0,
    with total + pageSize - 1 within [int], the result carries the rows
    fetched at offset (page - 1) * pageSize, the total, the page and page
    size as given, and the number of pages: the least number of pages of
    that size that hold the total. *)
Theorem FindWithPagination_pages {T : Type}
    (Find : Z -> Z -> option error * list T) (page pageSize total : Z)
    (rows : list T) :
  (forall e t, FindWithPagination (Some e, t) Find page pageSize
               = Ok (None, Some e))
  /\ FindWithPagination (None, total) Find page 0 = Panic
  /\ (0 <= total -> 0 < pageSize -> total + pageSize - 1 <= int_max ->
      Find (int_mul (int_sub page 1) pageSize) pageSize = (None, rows) ->
      exists pages,
        FindWithPagination (None, total) Find page pageSize
        = Ok (Some (mkPaginatedResult T rows total page pageSize pages),
              None)
        /\ (pages - 1) * pageSize < total <= pages * pageSize).
Proof.
  split; [done|]. split; [done|].
  intros Ht Hp Hmax HF. unfold FindWithPagination.
  assert (E : int_sub (int_add total pageSize) 1 = total + pageSize - 1).
  { unfold int_sub, int_add.
    replace (wrap_int (total + pageSize) - 1)
      with (wrap_int (total + pageSize) + -1) by lia.
    rewrite wrap_int_add_l. apply wrap_int_id.
    unfold is_int, int_min, int_max in *. lia. }
  rewrite E. unfold int_quot.
  destruct (Z.eqb_spec pageSize 0) as [|_]; [lia|].
  rewrite Z.quot_div_nonneg by lia.
  set (pages := (total + pageSize - 1) / pageSize).
  assert (B : pages * pageSize <= total + pageSize - 1
              < (pages + 1) * pageSize).
  { pose proof (Z.div_mod (total + pageSize - 1) pageSize ltac:(lia)) as D.
    pose proof (Z.mod_pos_bound (total + pageSize - 1) pageSize Hp) as M.
    fold pages in D. nia. }
  assert (P0 : 0 <= pages) by (apply Z.div_pos; lia).
  rewrite wrap_int_id by (unfold is_int, int_min, int_max in *; nia).
  rewrite HF. exists pages. split; [done|]. nia.
Qed.

End Pagination.

(** ** The configuration and the builder on the values of the tests *)

(** DB_HOST set, DB_PORT set to the empty string. *)
Lemma getEnv_empty_is_unset_witness :
  Config.getEnv {[ "DB_HOST" := "db.internal" ]} "DB_HOST" "localhost"
  = "db.internal"
  /\ Config.getEnv (<["DB_PORT" := ""]> ∅) "DB_PORT" "5432" = "5432".
Proof.
  destruct (getEnv_empty_is_unset {[ "DB_HOST" := "db.internal" ]}
              "DB_HOST" "localhost" "db.internal") as (Set_ & _ & _).
  destruct (getEnv_empty_is_unset ∅ "DB_PORT" "5432" "") as (_ & Empty & _).
  split; [exact (Set_ eq_refl ltac:(discriminate))|exact Empty].
Defined.

(** Two configurations without spaces and with the same DSN. *)
Lemma BuildDSN_injective_without_spaces_witness :
  Config.GetDatabaseConfig ∅
  = Config.mkDatabaseConfig "localhost" "5432" "postgres" "postgres"
                            "aiio_backend" "disable".
Proof.
  exact (proj2 BuildDSN_injective_without_spaces
           (Config.GetDatabaseConfig ∅)
           (Config.mkDatabaseConfig "localhost" "5432" "postgres" "postgres"
                                    "aiio_backend" "disable")
           eq_refl eq_refl eq_refl eq_refl eq_refl eq_refl eq_refl eq_refl
           eq_refl eq_refl eq_refl).
Defined.

Section BuilderWitnesses.
Import Query TestFilter.

Local Abbreviation apply_test_filter :=
  (ApplyFilters lower_bytes trim zero_float zero_other).

(** The field [MinStock] of the test filter, set to 10. *)
Lemma field_filter_tag_witness :
  field_filter lower_bytes trim zero_float zero_other
    (mkStructField "MinStock" "stock,>=" true (VInt 10))
  = Some (mkFilterField "stock" ">=" (Some (VInt 10)))
  /\ field_filter lower_bytes trim zero_float zero_other
       (mkStructField "MinStock" "" true (VInt 10))
     = Some (mkFilterField "min_stock" "=" (Some (VInt 10))).
Proof.
  split.
  - exact (proj1 (proj2 (proj2
             (field_filter_tag lower_bytes trim zero_float zero_other
                (mkStructField "MinStock" "stock,>=" true (VInt 10))
                "stock" ">=" "" eq_refl eq_refl eq_refl))) eq_refl).
  - exact (proj1
             (field_filter_tag lower_bytes trim zero_float zero_other
                (mkStructField "MinStock" "" true (VInt 10))
                "stock" ">=" "" eq_refl eq_refl eq_refl) eq_refl eq_refl).
Defined.

(** The "stock range" case of the test, and the filter with every field
    zero: a minimum stock of 0 is no filter. *)
Lemma ApplyFilters_selected_witness :
  map FilterValue
      (filters (apply_test_filter (Struct (fields "" 5 15 None true))
                                  (NewQueryBuilder [])))
  = [Some (VInt 5); Some (VInt 15)]
  /\ apply_test_filter (Struct (fields "" 0 0 None true)) (NewQueryBuilder [])
     = NewQueryBuilder [].
Proof.
  destruct (ApplyFilters_selected lower_bytes trim zero_float zero_other
              (fields "" 5 15 None true) (NewQueryBuilder []))
    as (Values & _).
  destruct (ApplyFilters_selected lower_bytes trim zero_float zero_other
              (fields "" 0 0 None true) (NewQueryBuilder []))
    as (_ & _ & _ & _ & _ & _ & Zero).
  split; [exact Values|exact (Zero eq_refl)].
Defined.


(** The fluent-interface test: a minimum stock of 1, sorted by price,
    first page of 2. *)
Lemma Build_clause_order_witness :
  exists ws,
    Forall2 (fun f w => applyFilter [] f = Ok [w])
            [mkFilterField (Float:=bool) (Other:=unit) "stock" ">="
                           (Some (VInt 1))] ws
    /\ [Where "stock >= ?" [Some (VInt 1)]; Order "price ASC";
        Offset 0; Limit 2]
       = [] ++ [] ++ ws ++ [] ++ [] ++ [] ++ [Order "price ASC"]
         ++ [Offset 0; Limit 2].
Proof.
  exact (Build_clause_order
           (SetPagination 1 2
              (AddSort "price" SortOrderAsc
                 (apply_test_filter (Struct (fields "" 1 0 None true))
                                    (NewQueryBuilder []))))
           _ (List.Forall_nil _) eq_refl).
Defined.

(** The pagination test: the second page of 2 starts at offset 2. *)
Lemma Build_pagination_witness :
  (exists q0 : DB (Float:=bool) (Other:=unit),
     [Order "id ASC"; Offset 2; Limit 2] = q0 ++ [Offset 2; Limit 2])
  /\ int_mul (int_sub 0 1) 2 = -2.
Proof.
  destruct (Build_pagination
              (AddSort "id" SortOrderAsc
                 (SetPagination 2 2
                    (NewQueryBuilder (Float:=bool) (Other:=unit) [])))
              _ 2 2 eq_refl eq_refl) as (Ends & _).
  destruct (Build_pagination
              (SetPagination 0 2
                 (NewQueryBuilder (Float:=bool) (Other:=unit) []))
              _ 0 2 eq_refl eq_refl) as (_ & Exact).
  split; [exact Ends|].
  apply Exact; unfold is_int, int_min, int_max; lia.
Defined.

(** [TestFindWithPagination]: 4 rows, first page of 2: 2 pages. *)
Lemma FindWithPagination_pages_witness :
  exists pages,
    FindWithPagination (None, 4)
      (fun offset limit => (None, firstn (Z.to_nat limit)
                                    (skipn (Z.to_nat offset) [1; 2; 3; 4])))
      1 2
    = Ok (Some (mkPaginatedResult Z [1; 2] 4 1 2 pages), None)
    /\ (pages - 1) * 2 < 4 <= pages * 2.
Proof.
  exact (proj2 (proj2
           (FindWithPagination_pages
              (fun offset limit =>
                 (None, firstn (Z.to_nat limit)
                          (skipn (Z.to_nat offset) [1; 2; 3; 4])))
              1 2 4 [1; 2]))
           ltac:(lia) ltac:(lia) ltac:(unfold int_max; lia) eq_refl).
Defined.

(** The operator of the tag "name,ILIKE" is passed on as it is. *)
Lemma Build_single_filter_witness :
  Build (AddFilter "name" "ILIKE" (Some (VString true "one"))
           (NewQueryBuilder (Float:=bool) (Other:=unit) []))
  = Ok [Where "name ILIKE ?" [Some (VString true "one")]].
Proof.
  exact (proj2 (proj2 (proj2 (proj2
           (Build_single_filter (Float:=bool) (Other:=unit) []
              "name" "ILIKE" "" (Some (VString true "one"))))))
           eq_refl ltac:(discriminate) ltac:(discriminate)
           ltac:(discriminate) ltac:(discriminate)).
Defined.

End BuilderWitnesses.
